(** * AutoClip engine: highlight merging, subtitle segmentation, clip assembly

    A shallow embedding of the decision logic of the AutoClip engine
    ([engine/core/highlight.py], [subtitle.py], [face_detection.py],
    [clipper.py], [pipeline.py], [transcription.py]) together with the properties its design
    document states about it.

    Conventions of the embedding:
    - Python floats that carry times, durations and confidences are exact
      rationals ([Q]).  The code only compares them, takes [max]/[min] of
      them, and adds, subtracts or divides them; NaN is not modelled.
    - The dictionaries the code passes around have a fixed set of keys and
      are records; a key that may be absent is an [option] field.
    - External collaborators (the encoder, the frame probe, the audio
      detectors built on librosa) are oracles: functions or lists supplied
      from outside, over which every theorem quantifies. *)

From Stdlib Require Import String Ascii.
From Stdlib Require DecimalString DecimalNat.
From Stdlib Require Import List Bool Arith ZArith QArith Qround Lia Lqa Sorted.
Import ListNotations.

Open Scope Q_scope.

(** * Part I: the program *)

(** ** Python built-ins used by the code *)

Module Py.

(** [max(a, b)]: keeps [a] unless [b > a]. *)
Definition max (a b : Q) : Q := if Qle_bool b a then a else b.

(** [min(a, b)]: keeps [a] unless [b < a]. *)
Definition min (a b : Q) : Q := if Qle_bool a b then a else b.

(** [a < b] on floats. *)
Definition lt (a b : Q) : bool := negb (Qle_bool b a).

(** [int(x)]: truncation toward zero. *)
Definition int (x : Q) : Z := if Qle_bool 0 x then Qfloor x else Qceiling x.

(** [l[:n]] for an integer [n]: a negative bound counts from the end. *)
Definition slice_to {A} (n : Z) (l : list A) : list A :=
  if (0 <=? n)%Z then firstn (Z.to_nat n) l
  else firstn (length l - Z.to_nat (- n)) l.

(** [d.get(key, default)] on an optional field. *)
Definition get {A} (field : option A) (default : A) : A :=
  match field with Some v => v | None => default end.

(** [range(start, stop, step)]; [None] is the [ValueError] of a zero step. *)
Definition range (start stop step : Z) : option (list Z) :=
  if (step =? 0)%Z then None
  else
    let count :=
      if (0 <? step)%Z
      then Z.max 0 ((stop - start + step - 1) / step)
      else Z.max 0 ((start - stop - step - 1) / (- step)) in
    Some (map (fun k => (start + Z.of_nat k * step)%Z) (seq 0 (Z.to_nat count))).

(** Text is modelled as ASCII, with Python's classification of those
    code points. *)
Definition isspace (c : ascii) : bool :=
  let n := nat_of_ascii c in
  ((9 <=? n) && (n <=? 13) || (28 <=? n) && (n <=? 32))%nat.

Definition lower_char (c : ascii) : ascii :=
  let n := nat_of_ascii c in
  if ((65 <=? n) && (n <=? 90))%nat then ascii_of_nat (n + 32) else c.

(** [s.lower()] *)
Fixpoint lower (s : string) : string :=
  match s with
  | EmptyString => EmptyString
  | String c s' => String (lower_char c) (lower s')
  end.

(** [needle in hay] *)
Fixpoint contains (needle hay : string) : bool :=
  String.prefix needle hay ||
  match hay with
  | EmptyString => false
  | String _ hay' => contains needle hay'
  end.

Fixpoint lstrip (s : string) : string :=
  match s with
  | EmptyString => EmptyString
  | String c s' => if isspace c then lstrip s' else s
  end.

Fixpoint rstrip (s : string) : string :=
  match s with
  | EmptyString => EmptyString
  | String c s' =>
      match rstrip s' with
      | EmptyString => if isspace c then EmptyString else String c EmptyString
      | t => String c t
      end
  end.

(** [s.strip()] *)
Definition strip (s : string) : string := rstrip (lstrip s).

Definition is_empty (s : string) : bool :=
  match s with EmptyString => true | _ => false end.

Definition snoc (s : string) (c : ascii) : string :=
  String.append s (String c EmptyString).

(** [s.split()]: the maximal runs of non-space characters; [word] is the
    run being read. *)
Fixpoint split_from (word : string) (s : string) : list string :=
  match s with
  | EmptyString => if is_empty word then [] else [word]
  | String c s' =>
      if isspace c
      then (if is_empty word then split_from EmptyString s'
            else word :: split_from EmptyString s')
      else split_from (snoc word c) s'
  end.

Definition split (s : string) : list string := split_from EmptyString s.

(** [sep.join(parts)] *)
Fixpoint join (sep : string) (parts : list string) : string :=
  match parts with
  | [] => EmptyString
  | [p] => p
  | p :: rest => String.append p (String.append sep (join sep rest))
  end.

Definition is_sentence_end (c : ascii) : bool :=
  (Ascii.eqb c "."%char || Ascii.eqb c "!"%char || Ascii.eqb c "?"%char)%bool.

(** [re.split(r'([.!?]+)', s)]: the pieces between maximal runs of sentence
    punctuation, with the runs themselves (the capturing group) in between.
    [piece] is the text being read, [run] the punctuation run being read. *)
Fixpoint re_split_from (piece run : string) (s : string) : list string :=
  match s with
  | EmptyString =>
      if is_empty run then [piece] else [piece; run; EmptyString]
  | String c s' =>
      if is_sentence_end c then re_split_from piece (snoc run c) s'
      else if is_empty run then re_split_from (snoc piece c) EmptyString s'
      else piece :: run :: re_split_from (String c EmptyString) EmptyString s'
  end.

Definition re_split_sentences (s : string) : list string :=
  re_split_from EmptyString EmptyString s.

(** [a // b] and [a % b] on floats, for a positive [b]: the quotient is
    rounded down and the remainder takes the sign of [b]. *)
Definition floordiv (a b : Q) : Q := inject_Z (Qfloor (a / b)).

Definition fmod (a b : Q) : Q := a - b * floordiv a b.

(** The decimal digits of a natural number, without leading zeros. *)
Definition digits (n : nat) : string :=
  DecimalString.NilEmpty.string_of_uint (Nat.to_uint n).

Fixpoint zeros (k : nat) : string :=
  match k with
  | O => EmptyString
  | S k' => String "0" (zeros k')
  end.

Definition pad_zeros (width : nat) (s : string) : string :=
  String.append (zeros (width - String.length s)) s.

(** [f"{z:0{width}d}"]: at least [width] characters, zeros after the sign. *)
Definition format_d (width : nat) (z : Z) : string :=
  if (z <? 0)%Z
  then String "-" (pad_zeros (width - 1) (digits (Z.to_nat (- z))))
  else pad_zeros width (digits (Z.to_nat z)).

(** The code points of a text written in ASCII.  A [str] that may hold
    other characters is a list of code points. *)
Definition codepoints (s : string) : list N :=
  map N_of_ascii (list_ascii_of_string s).

(** [s.lstrip()] and [s.strip()] on code points; [isspace] is Python's
    classification of a character as whitespace. *)
Fixpoint lstrip_by (isspace : N -> bool) (s : list N) : list N :=
  match s with
  | [] => []
  | c :: s' => if isspace c then lstrip_by isspace s' else s
  end.

Definition strip_by (isspace : N -> bool) (s : list N) : list N :=
  rev (lstrip_by isspace (rev (lstrip_by isspace s))).

(** [int(s)] for a string of decimal digits; [None] is the [ValueError] of
    any other character. *)
Definition int_of_digits (s : string) : option nat :=
  option_map Nat.of_uint (DecimalString.NilEmpty.uint_of_string s).

(** [np.max(xs)] on a one-dimensional array; [None] is the [ValueError]
    numpy raises for an empty one. *)
Fixpoint np_max (xs : list Q) : option Q :=
  match xs with
  | [] => None
  | x :: rest =>
      match np_max rest with
      | None => Some x
      | Some m => Some (if Qle_bool m x then x else m)
      end
  end.

End Py.

(** ** Data *)

Inductive Kind := energy | keyword | silence_gap.

(** A highlight dictionary.  The detectors create it with ['start'], ['end'],
    ['type'], ['confidence'] and, by detector, ['keyword'] or
    ['gap_duration']; [_merge_highlights] may add ['types'] and the face
    analysis adds ['face_present'] and ['face_ratio']. *)
Record Highlight := mkHighlight {
  h_start        : Q;
  h_end          : Q;
  h_type         : Kind;
  h_confidence   : Q;
  h_keyword      : option string;
  h_gap_duration : option Q;
  h_types        : option (list Kind);
  h_face_present : option bool;
  h_face_ratio   : option Q
}.

(** A transcription segment, as [Transcriber.get_segments] hands it over. *)
Record Segment := mkSegment {
  seg_start      : Q;
  seg_end        : Q;
  seg_text       : string;
  seg_confidence : option Q
}.

(** A subtitle entry of [generate_subtitles_for_clip]. *)
Record Subtitle := mkSubtitle {
  sub_text         : string;
  sub_start        : Q;
  sub_end          : Q;
  sub_is_highlight : bool
}.

(** ** Transcript segments ([transcription.py]) *)

Module Transcriber.

(** A segment of the recogniser's result: ['start'], ['end'] and ['text']
    are always read, ['confidence'] with a default. *)
Record RawSegment := mkRawSegment {
  raw_start      : Q;
  raw_end        : Q;
  raw_text       : string;
  raw_confidence : option Q
}.

(** [get_segments]; the argument is the ['segments'] key of the result. *)
Definition get_segments (segments : option (list RawSegment)) : list Segment :=
  map (fun segment =>
         {| seg_start := raw_start segment;
            seg_end := raw_end segment;
            seg_text := Py.strip (raw_text segment);
            seg_confidence := Some (Py.get (raw_confidence segment) 0) |})
      (Py.get segments []).

End Transcriber.

(** ** Highlight detection ([highlight.py]) *)

Module HighlightDetector.

(** The keys of the ['highlight'] configuration that the modelled code
    reads; [None] is an absent key. *)
Record Config := mkConfig {
  max_clips : option Z;
  keywords  : option (list string)
}.

(** [_detect_keywords]: one candidate per segment whose lowercased text
    contains a keyword, tagged with the first keyword that matches. *)
Definition _detect_keywords (config : Config) (segments : list Segment)
  : list Highlight :=
  let kws := Py.get (keywords config) ["wow"%string; "amazing"%string] in
  flat_map (fun segment =>
    let text := Py.lower (seg_text segment) in
    match find (fun kw => Py.contains kw text) kws with
    | Some kw =>
        [ {| h_start := seg_start segment;
             h_end := seg_end segment;
             h_type := keyword;
             h_confidence := Py.get (seg_confidence segment) (4 # 5);
             h_keyword := Some kw;
             h_gap_duration := None;
             h_types := None;
             h_face_present := None;
             h_face_ratio := None |} ]
    | None => []
    end) segments.

(** [highlights.sort(key=lambda x: x['start'])]: Python's sort is stable,
    so the result is the one ascending arrangement that keeps equal keys
    in their input order.  Insertion from the right builds exactly it. *)
Fixpoint insert_by_start (x : Highlight) (l : list Highlight) : list Highlight :=
  match l with
  | [] => [x]
  | y :: l' =>
      if Qle_bool (h_start x) (h_start y) then x :: l
      else y :: insert_by_start x l'
  end.

Definition sort_by_start (l : list Highlight) : list Highlight :=
  fold_right insert_by_start [] l.

(** The body of the [if current['start'] <= last['end']] branch: [last] is
    updated in place. *)
Definition fold_into (last current : Highlight) : Highlight :=
  {| h_start := h_start last;
     h_end := Py.max (h_end last) (h_end current);
     h_type := h_type last;
     h_confidence := Py.max (h_confidence last) (h_confidence current);
     h_keyword := h_keyword last;
     h_gap_duration := h_gap_duration last;
     h_types := Some (Py.get (h_types last) [h_type last] ++ [h_type current]);
     h_face_present := h_face_present last;
     h_face_ratio := h_face_ratio last |}.

(** One iteration of the loop over [highlights[1:]].  The list [merged] is
    kept as the entries already closed and its last entry [merged[-1]]. *)
Definition merge_step (st : list Highlight * Highlight) (current : Highlight)
  : list Highlight * Highlight :=
  let '(closed, last) := st in
  if Qle_bool (h_start current) (h_end last)
  then (closed, fold_into last current)
  else (closed ++ [last], current).

Definition _merge_highlights (highlights : list Highlight) : list Highlight :=
  match sort_by_start highlights with
  | [] => []
  | first :: rest =>
      let '(closed, last) := fold_left merge_step rest ([], first) in
      closed ++ [last]
  end.

(** [detect_highlights], from the point where the audio has been analysed:
    [energy_highlights] and [silence_highlights] are what the two
    librosa-based detectors returned. *)
Definition detect_highlights (config : Config)
           (energy_highlights : list Highlight) (segments : list Segment)
           (silence_highlights : list Highlight) : list Highlight :=
  let highlights :=
    energy_highlights ++ _detect_keywords config segments ++ silence_highlights in
  let highlights := _merge_highlights highlights in
  Py.slice_to (Py.get (max_clips config) 5%Z) highlights.

(** Further keys of the same configuration, read by the two audio
    detectors. *)
Record Thresholds := mkThresholds {
  energy_threshold     : option Q;
  silence_min_duration : option Q;
  clip_duration        : option Q
}.

(** The loop of [_detect_energy_peaks] over [enumerate(rms_norm)], from
    index [i] on; [peak] is [np.max(rms)] and [frames_to_time i] stands for
    [librosa.frames_to_time(i, sr=sr, hop_length=512)]. *)
Fixpoint energy_peaks_from (threshold : Q) (frames_to_time : nat -> Q)
         (peak : Q) (i : nat) (rms : list Q) : list Highlight :=
  match rms with
  | [] => []
  | x :: rest =>
      let level := x / peak in
      (if Py.lt threshold level
       then
         let time := frames_to_time i in
         [ {| h_start := Py.max 0 (time - 5);
              h_end := time + 5;
              h_type := energy;
              h_confidence := level;
              h_keyword := None;
              h_gap_duration := None;
              h_types := None;
              h_face_present := None;
              h_face_ratio := None |} ]
       else [])
      ++ energy_peaks_from threshold frames_to_time peak (S i) rest
  end.

(** [_detect_energy_peaks], from the RMS envelope librosa computed.  [None]
    is the exception of [np.max] on an empty envelope.  When the maximum is
    zero the normalised values are NaN or minus infinity, none of which
    exceeds a threshold. *)
Definition _detect_energy_peaks (thresholds : Thresholds)
           (frames_to_time : nat -> Q) (rms : list Q)
  : option (list Highlight) :=
  match Py.np_max rms with
  | None => None
  | Some peak =>
      if Qeq_bool peak 0 then Some []
      else
        Some (energy_peaks_from (Py.get (energy_threshold thresholds) (4 # 5))
                                frames_to_time peak 0 rms)
  end.

(** [_detect_silence_gaps], from the non-silent sample intervals librosa
    found; [samples_to_time n] stands for
    [librosa.samples_to_time(n, sr=sr)].  The loop visits each interval
    together with the one after it. *)
Fixpoint _detect_silence_gaps (thresholds : Thresholds)
         (samples_to_time : Z -> Q) (intervals : list (Z * Z))
  : list Highlight :=
  match intervals with
  | (_, this_end) :: (((next_start, _) :: _) as rest) =>
      let end_time := samples_to_time this_end in
      let start_time := samples_to_time next_start in
      let gap := start_time - end_time in
      (if Qle_bool (Py.get (silence_min_duration thresholds) 2) gap
       then
         [ {| h_start := end_time;
              h_end := Py.min start_time
                         (end_time + Py.get (clip_duration thresholds) 30);
              h_type := silence_gap;
              h_confidence := 7 # 10;
              h_keyword := None;
              h_gap_duration := Some gap;
              h_types := None;
              h_face_present := None;
              h_face_ratio := None |} ]
       else [])
      ++ _detect_silence_gaps thresholds samples_to_time rest
  | _ => []
  end.

(** What librosa computes from the loaded audio: the RMS envelope with the
    time of each frame, and the non-silent sample intervals with the time
    of a sample. *)
Record Analysis := mkAnalysis {
  a_rms             : list Q;
  a_frames_to_time  : nat -> Q;
  a_intervals       : list (Z * Z);
  a_samples_to_time : Z -> Q
}.

(** [detect_highlights] from the loaded audio on: the three detectors in
    the order the code runs them, the merge and the cut.  [None] is the
    exception of the energy detector. *)
Definition detect_highlights_from (config : Config) (thresholds : Thresholds)
           (audio : Analysis) (segments : list Segment)
  : option (list Highlight) :=
  match _detect_energy_peaks thresholds (a_frames_to_time audio)
                             (a_rms audio) with
  | None => None
  | Some energy_highlights =>
      let silence_highlights :=
        _detect_silence_gaps thresholds (a_samples_to_time audio)
                             (a_intervals audio) in
      Some (detect_highlights config energy_highlights segments
                              silence_highlights)
  end.

(** The silences between consecutive sound intervals: for each interval
    but the last, the time it ends paired with the time the next one
    starts. *)
Definition silences (samples_to_time : Z -> Q) (intervals : list (Z * Z))
  : list (Q * Q) :=
  map (fun pair => (samples_to_time (snd (fst pair)),
                    samples_to_time (fst (snd pair))))
      (combine intervals (tl intervals)).

(** The keywords [_detect_keywords] looks for. *)
Definition configured_keywords (config : Config) : list string :=
  Py.get (keywords config) ["wow"%string; "amazing"%string].

(** The segment's lowercased text contains one of the keywords. *)
Definition mentions_keyword (config : Config) (segment : Segment) : bool :=
  existsb (fun kw => Py.contains kw (Py.lower (seg_text segment)))
          (configured_keywords config).

(** *** Auxiliary views of the sweep, used to state and prove its properties *)

(** The same sweep, written by recursion on the remaining candidates. *)
Fixpoint sweep (last : Highlight) (rest : list Highlight) : list Highlight :=
  match rest with
  | [] => [last]
  | current :: rest' =>
      if Qle_bool (h_start current) (h_end last)
      then sweep (fold_into last current) rest'
      else last :: sweep current rest'
  end.

(** The sweep again, keeping beside each accumulator the candidates that
    were folded into it, in order. *)
Fixpoint sweep_groups (last : Highlight) (group : list Highlight)
         (rest : list Highlight) : list (list Highlight) :=
  match rest with
  | [] => [group]
  | current :: rest' =>
      if Qle_bool (h_start current) (h_end last)
      then sweep_groups (fold_into last current) (group ++ [current]) rest'
      else group :: sweep_groups current [current] rest'
  end.

(** The candidates behind each output of [_merge_highlights], output by
    output. *)
Definition merge_groups (highlights : list Highlight) : list (list Highlight) :=
  match sort_by_start highlights with
  | [] => []
  | first :: rest => sweep_groups first [first] rest
  end.

(** A time point lies in the closed span of a highlight. *)
Definition covers (t : Q) (h : Highlight) : Prop :=
  h_start h <= t /\ t <= h_end h.

(** [a] ends strictly before [b] starts: neither overlapping nor touching. *)
Definition separated (a b : Highlight) : Prop := h_end a < h_start b.

Definition le_start (a b : Highlight) : Prop := h_start a <= h_start b.

(** A candidate as a detector creates it: no ['types'] key yet. *)
Definition is_candidate (h : Highlight) : Prop := h_types h = None.

(** [v] is the greatest of the values [vs]. *)
Definition is_max_of (v : Q) (vs : list Q) : Prop :=
  In v vs /\ Forall (fun x => x <= v) vs.

(** What an output of the merge records about the group of candidates
    folded into it: the start and the tag of the first, the greatest end and
    the greatest confidence, and under ['types'] the tags of all of them in
    order, a key that exists only once a second candidate was folded in. *)
Definition summarises (group : list Highlight) (out : Highlight) : Prop :=
  match group with
  | [] => False
  | first :: others =>
      h_start out = h_start first
      /\ h_type out = h_type first
      /\ is_max_of (h_end out) (map h_end group)
      /\ is_max_of (h_confidence out) (map h_confidence group)
      /\ h_types out =
         match others with
         | [] => None
         | _ => Some (map h_type group)
         end
  end.

(** The tags of a highlight the way the merge branch reads them:
    [h.get('types', [h['type']])]. *)
Definition kinds_of (h : Highlight) : list Kind :=
  Py.get (h_types h) [h_type h].

(** The reading under which every output, merged or not, carries the list
    of the tags of its group. *)
Definition carries_all_kinds (group : list Highlight) (out : Highlight) : Prop :=
  is_max_of (h_confidence out) (map h_confidence group)
  /\ h_types out = Some (map h_type group).

(** The start, the end and the confidence of [out] are each taken from some
    highlight of [pool]. *)
Definition drawn_from (pool : list Highlight) (out : Highlight) : Prop :=
  In (h_start out) (map h_start pool)
  /\ In (h_end out) (map h_end pool)
  /\ In (h_confidence out) (map h_confidence pool).

(** The three candidates of the design document's merge scenario. *)
Definition scenario_candidates : list Highlight :=
  [ mkHighlight 0 10 energy (9 # 10) None None None None None;
    mkHighlight 5 8 keyword (4 # 5) (Some "wow"%string) None None None None;
    mkHighlight 12 14 silence_gap (7 # 10) None (Some 2) None None None ].

End HighlightDetector.

(** ** Face analysis ([face_detection.py]) *)

Module FaceDetector.

Record Config := mkConfig {
  enabled    : option bool;
  frame_skip : option Z
}.

(** The opened video as the analysis sees it.  [read_face n] is [None] when
    reading frame [n] fails, and otherwise tells whether the detector's
    result for that frame is truthy. *)
Record Video := mkVideo {
  opens     : bool;
  fps       : Q;
  read_face : Z -> option bool
}.

(** The sampling loop of [_analyze_highlight_frames], with its early exit
    after three positive frames. *)
Fixpoint sample_frames (video : Video) (frames : list Z)
         (faces_detected total_frames_analyzed : nat) : nat * nat :=
  match frames with
  | [] => (faces_detected, total_frames_analyzed)
  | frame_num :: rest =>
      match read_face video frame_num with
      | None => sample_frames video rest faces_detected total_frames_analyzed
      | Some results =>
          let faces_detected :=
            if results then S faces_detected else faces_detected in
          let total_frames_analyzed := S total_frames_analyzed in
          if (3 <=? faces_detected)%nat
          then (faces_detected, total_frames_analyzed)
          else sample_frames video rest faces_detected total_frames_analyzed
      end
  end.

(** [_analyze_highlight_frames]; [None] is the [ValueError] of
    [range(..., 0)]. *)
Definition _analyze_highlight_frames (video : Video) (highlight : Highlight)
           (frame_skip : Z) : option (bool * Q) :=
  let start_frame := Py.int (h_start highlight * fps video) in
  let end_frame := Py.int (h_end highlight * fps video) in
  match Py.range start_frame end_frame frame_skip with
  | None => None
  | Some frames =>
      let '(faces_detected, total_frames_analyzed) :=
        sample_frames video frames 0 0 in
      let face_ratio :=
        inject_Z (Z.of_nat faces_detected)
        / inject_Z (Z.of_nat (Nat.max total_frames_analyzed 1)) in
      let face_present := Py.lt (3 # 10) face_ratio in
      Some (face_present, face_ratio)
  end.

Definition with_face (highlight : Highlight) (face_present : bool)
           (face_ratio : Q) : Highlight :=
  {| h_start := h_start highlight;
     h_end := h_end highlight;
     h_type := h_type highlight;
     h_confidence := h_confidence highlight;
     h_keyword := h_keyword highlight;
     h_gap_duration := h_gap_duration highlight;
     h_types := h_types highlight;
     h_face_present := Some face_present;
     h_face_ratio := Some face_ratio |}.

Fixpoint analyze_each (video : Video) (frame_skip : Z)
         (highlights : list Highlight) : option (list Highlight) :=
  match highlights with
  | [] => Some []
  | highlight :: rest =>
      match _analyze_highlight_frames video highlight frame_skip with
      | None => None
      | Some (face_present, face_ratio) =>
          option_map (cons (with_face highlight face_present face_ratio))
                     (analyze_each video frame_skip rest)
      end
  end.

(** [analyze_highlights]; [detector_available] says whether MediaPipe could
    be initialised ([self.face_detector is not None]); [None] is a raised
    exception (the video does not open, or the frame stride is zero). *)
Definition analyze_highlights (config : Config) (detector_available : bool)
           (video : Video) (highlights : list Highlight)
  : option (list Highlight) :=
  if negb (Py.get (enabled config) true) || negb detector_available
  then Some highlights
  else if negb (opens video) then None
  else analyze_each video (Py.get (frame_skip config) 10%Z) highlights.

(** [out] is [highlight] with nothing but the two face keys changed. *)
Definition same_moment (highlight out : Highlight) : Prop :=
  h_start out = h_start highlight
  /\ h_end out = h_end highlight
  /\ h_type out = h_type highlight
  /\ h_confidence out = h_confidence highlight
  /\ h_keyword out = h_keyword highlight
  /\ h_gap_duration out = h_gap_duration highlight
  /\ h_types out = h_types highlight.

(** The analysis really runs: it is enabled and the detector loaded. *)
Definition runs (config : Config) (detector_available : bool) : bool :=
  Py.get (enabled config) true && detector_available.

End FaceDetector.

(** ** Subtitles ([subtitle.py]) *)

Module SubtitleGenerator.

Record Config := mkConfig {
  cfg_max_words_per_line : option Z;
  cfg_highlight_keywords : option (list string)
}.

(** The attributes [__init__] stores. *)
Definition max_words_per_line (config : Config) : Z :=
  Py.get (cfg_max_words_per_line config) 6%Z.

Definition highlight_keywords (config : Config) : list string :=
  Py.get (cfg_highlight_keywords config)
    ["wow"; "gokil"; "parah"; "gila"; "amazing"; "incredible";
     "awesome"; "brilliant"; "sangat"; "benar-benar"]%string.

(** A phrase tuple [(phrase_text, phrase_start, phrase_end)]. *)
Definition Phrase : Type := string * Q * Q.

(** The iterations [for i in range(0, len(sentences) - 1, 2)]: each text
    piece with the punctuation run that follows it; a last piece with no
    punctuation after it is not visited. *)
Fixpoint sentence_pairs (sentences : list string) : list (string * string) :=
  match sentences with
  | sentence :: punctuation :: rest =>
      (sentence, punctuation) :: sentence_pairs rest
  | _ => []
  end.

(** [words[i:j]] for [0 <= i <= j]. *)
Definition words_between (i j : Z) (words : list string) : list string :=
  firstn (Z.to_nat (j - i)) (skipn (Z.to_nat i) words).

(** [[words[i:i + m] for i in range(0, len(words), m)]] *)
Definition chunks_of (m : Z) (words : list string) : option (list (list string)) :=
  option_map (map (fun i => words_between i (i + m) words))
             (Py.range 0 (Z.of_nat (length words)) m).

(** The loop over the chunks of a long sentence; returns the phrases and
    the updated [current_time]. *)
Fixpoint place_chunks (duration_per_word : Q) (chunks : list (list string))
         (current_time : Q) : list Phrase * Q :=
  match chunks with
  | [] => ([], current_time)
  | chunk :: rest =>
      match chunk with
      | [] => place_chunks duration_per_word rest current_time
      | _ =>
          let phrase_text := Py.join " " chunk in
          let phrase_duration :=
            inject_Z (Z.of_nat (length chunk)) * duration_per_word in
          let phrase_end := current_time + phrase_duration in
          let '(phrases, t) := place_chunks duration_per_word rest phrase_end in
          ((phrase_text, current_time, phrase_end) :: phrases, t)
      end
  end.

(** The loop over the sentences of one segment. *)
Fixpoint split_sentences (config : Config) (segment_start segment_end : Q)
         (sentences : list (string * string)) (current_time : Q)
  : option (list Phrase) :=
  match sentences with
  | [] => Some []
  | (raw, punctuation) :: rest =>
      let sentence := Py.strip raw in
      if Py.is_empty sentence
      then split_sentences config segment_start segment_end rest current_time
      else
        let words := Py.split sentence in
        if (Z.of_nat (length words) >? max_words_per_line config * 2)%Z
        then
          match chunks_of (max_words_per_line config) words with
          | None => None
          | Some chunks =>
              let duration_per_word :=
                (segment_end - segment_start)
                / inject_Z (Z.of_nat (length words)) in
              let '(phrases, t) :=
                place_chunks duration_per_word chunks current_time in
              option_map (app phrases)
                (split_sentences config segment_start segment_end rest t)
          end
        else
          let phrase_duration := Py.min (segment_end - current_time) (5 # 2) in
          let phrase_end := current_time + phrase_duration in
          option_map
            (cons (String.append sentence punctuation, current_time, phrase_end))
            (split_sentences config segment_start segment_end rest phrase_end)
  end.

(** [_split_into_phrases]; [None] is the [ValueError] raised by a zero
    [max_words_per_line]. *)
Definition _split_into_phrases (config : Config) (segment : Segment)
  : option (list Phrase) :=
  let text := Py.strip (seg_text segment) in
  let sentences := Py.re_split_sentences text in
  split_sentences config (seg_start segment) (seg_end segment)
                  (sentence_pairs sentences) (seg_start segment).

Definition _is_highlight_text (config : Config) (text : string) : bool :=
  let text_lower := Py.lower text in
  existsb (fun keyword => Py.contains keyword text_lower)
          (highlight_keywords config).

(** The merge branch of [_merge_subtitles]: [last] is updated in place. *)
Definition join_into (last current : Subtitle) : Subtitle :=
  {| sub_text :=
       String.append (sub_text last) (String.append " " (sub_text current));
     sub_start := sub_start last;
     sub_end := Py.max (sub_end last) (sub_end current);
     sub_is_highlight := sub_is_highlight last || sub_is_highlight current |}.

Definition merge_step (st : list Subtitle * Subtitle) (current : Subtitle)
  : list Subtitle * Subtitle :=
  let '(closed, last) := st in
  if Py.lt (sub_start current - sub_end last) (3 # 10)
  then (closed, join_into last current)
  else (closed ++ [last], current).

Definition _merge_subtitles (subtitles : list Subtitle) : list Subtitle :=
  match subtitles with
  | [] => []
  | first :: rest =>
      let '(closed, last) := fold_left merge_step rest ([], first) in
      closed ++ [last]
  end.

(** The inner loop of [generate_subtitles_for_clip] over the phrases of one
    segment. *)
Definition clip_entries (config : Config) (clip_start clip_end : Q)
           (phrases : list Phrase) : list Subtitle :=
  flat_map (fun phrase : Phrase =>
    let '(phrase_text, phrase_start, phrase_end) := phrase in
    let adjusted_start := Py.max phrase_start clip_start in
    let adjusted_end := Py.min phrase_end clip_end in
    if Py.lt (adjusted_end - adjusted_start) (1 # 2)
    then []
    else [ {| sub_text := phrase_text;
              sub_start := adjusted_start;
              sub_end := adjusted_end;
              sub_is_highlight := _is_highlight_text config phrase_text |} ])
    phrases.

(** The outer loop over the selected segments. *)
Fixpoint collect_entries (config : Config) (clip_start clip_end : Q)
         (clip_segments : list Segment) : option (list Subtitle) :=
  match clip_segments with
  | [] => Some []
  | segment :: rest =>
      match _split_into_phrases config segment with
      | None => None
      | Some phrases =>
          option_map (app (clip_entries config clip_start clip_end phrases))
                     (collect_entries config clip_start clip_end rest)
      end
  end.

(** [generate_subtitles_for_clip]; [None] is a raised exception. *)
Definition generate_subtitles_for_clip (config : Config)
           (transcription_segments : list Segment) (clip_start clip_end : Q)
  : option (list Subtitle) :=
  let clip_segments :=
    filter (fun seg =>
              Qle_bool (clip_start - (1 # 2)) (seg_start seg)
              && Qle_bool (seg_end seg) (clip_end + (1 # 2)))
           transcription_segments in
  match clip_segments with
  | [] => Some []
  | _ =>
      option_map _merge_subtitles
                 (collect_entries config clip_start clip_end clip_segments)
  end.

(** The four numbers [_format_timestamp] prints: hours, minutes, seconds
    and milliseconds. *)
Definition timestamp_fields (seconds : Q) : Z * Z * Z * Z :=
  let hours := Py.int (Py.floordiv seconds 3600) in
  let minutes := Py.int (Py.floordiv (Py.fmod seconds 3600) 60) in
  let secs := Py.int (Py.fmod seconds 60) in
  let ms := Py.int (Py.fmod seconds 1 * 1000) in
  (hours, minutes, secs, ms).

(** [_format_timestamp]: ["{hours:02d}:{minutes:02d}:{secs:02d},{ms:03d}"] *)
Definition _format_timestamp (seconds : Q) : string :=
  let '(hours, minutes, secs, ms) := timestamp_fields seconds in
  String.append (Py.format_d 2 hours)
    (String ":" (String.append (Py.format_d 2 minutes)
       (String ":" (String.append (Py.format_d 2 secs)
          (String "," (Py.format_d 3 ms)))))).

(** The text has a character the splitter treats as a sentence end. *)
Fixpoint has_sentence_end (s : string) : bool :=
  match s with
  | EmptyString => false
  | String c s' => Py.is_sentence_end c || has_sentence_end s'
  end.

(** The phrases follow one another without a gap or an overlap, the first
    starting at [t]. *)
Fixpoint contiguous_from (t : Q) (phrases : list Phrase) : Prop :=
  match phrases with
  | [] => True
  | (_, phrase_start, phrase_end) :: rest =>
      phrase_start = t /\ contiguous_from phrase_end rest
  end.

(** [b] starts at least 0.3 seconds after [a] ends. *)
Definition apart (a b : Subtitle) : Prop :=
  (3 # 10) <= sub_start b - sub_end a.

(** A subtitle that is flagged has a highlight keyword in its text. *)
Definition flag_sound (config : Config) (s : Subtitle) : Prop :=
  sub_is_highlight s = true -> _is_highlight_text config (sub_text s) = true.

(** The loop of [_merge_subtitles], written by recursion on the remaining
    entries. *)
Fixpoint sweep (last : Subtitle) (rest : list Subtitle) : list Subtitle :=
  match rest with
  | [] => [last]
  | current :: rest' =>
      if Py.lt (sub_start current - sub_end last) (3 # 10)
      then sweep (join_into last current) rest'
      else last :: sweep current rest'
  end.

(** A subtitle entry lies inside the clip window and is shown for at least
    half a second. *)
Definition within_window (clip_start clip_end : Q) (s : Subtitle) : Prop :=
  clip_start <= sub_start s /\ sub_end s <= clip_end
  /\ (1 # 2) <= sub_end s - sub_start s.

End SubtitleGenerator.

(** ** The world the clipper acts on *)

(** The files a run touches in the output directory.  For clip number [n]:
    [FinalClip n] is [output_dir / "{name}_{n:03d}.mp4"], [TempClip n] is
    the same name prefixed with [temp_], and the two [Srt] paths are those
    with the suffix replaced by [.srt].  Distinct constructors or numbers
    are distinct file names. *)
Inductive Path :=
| TempClip (n : nat)
| FinalClip (n : nat)
| TempSrt (n : nat)
| FinalSrt (n : nat).

Definition Path_eqb (p q : Path) : bool :=
  match p, q with
  | TempClip n, TempClip m
  | FinalClip n, FinalClip m
  | TempSrt n, TempSrt m
  | FinalSrt n, FinalSrt m => Nat.eqb n m
  | _, _ => false
  end.

(** [Path(p).with_suffix('.srt')] *)
Definition with_suffix_srt (p : Path) : Path :=
  match p with
  | TempClip n | TempSrt n => TempSrt n
  | FinalClip n | FinalSrt n => FinalSrt n
  end.

(** What a reader finds at a path: nothing, a file an encoder began and did
    not finish, or a finished file. *)
Inductive FileState := Absent | Partial | Complete.

Definition FS : Type := Path -> FileState.

Definition fs_set (fs : FS) (p : Path) (st : FileState) : FS :=
  fun q => if Path_eqb q p then st else fs q.
Arguments fs_set fs p st q /.

Inductive Input := SourceVideo | ClipFile (p : Path).

Inductive Filter :=
| NoFilter
| CropScalePad
| SubtitleBurn (subtitles : list Subtitle).

(** One invocation of the encoder: [ffmpeg.input(input, ss=..., t=...)]
    with the trim window when there is one, the filter, and the path given
    to [ffmpeg.output]. *)
Record EncoderCall := mkCall {
  ec_input  : Input;
  ec_trim   : option (Q * Q);
  ec_filter : Filter;
  ec_output : Path
}.

(** How an invocation ends: success; [ffmpeg.Error], having left a partly
    written output file or not having touched it; or another exception
    raised before the encoder wrote anything (a probe without a video
    stream, a missing executable). *)
Inductive Outcome :=
| EncOk
| EncError (left_partial : bool)
| EncCrash.

Definition Encoder : Type := EncoderCall -> Outcome.

Inductive FsOp :=
| Encode (call : EncoderCall) (outcome : Outcome)
| Rename (src dst : Path)
| Unlink (p : Path)
| WriteSrt (p : Path).

Inductive ErrorMsg :=
| FailedToCreateClip (clip_number : nat)
| ClipCreationError (clip_number : nat)
| SubtitleBurningFailed
| PipelineFailed.

(** The records [ProgressEmitter] prints. *)
Inductive Event :=
| EvProgress (step : string) (percent : Z)
| EvError (msg : ErrorMsg)
| EvClip (file : Path) (duration : Z).

Record World := mkWorld {
  w_fs     : FS;
  w_ops    : list FsOp;
  w_events : list Event
}.

Inductive Exn := FfmpegError | OtherError.

Inductive Result (A : Type) :=
| Returned (a : A)
| Raised (e : Exn).
Arguments Returned {A} a.
Arguments Raised {A} e.

(** Computations that read and change the world and may raise. *)
Definition M (A : Type) : Type := World -> Result A * World.

Definition ret {A} (a : A) : M A := fun w => (Returned a, w).

Definition raise {A} (e : Exn) : M A := fun w => (Raised e, w).

Definition bind {A B} (c : M A) (k : A -> M B) : M B :=
  fun w =>
    match c w with
    | (Returned a, w') => k a w'
    | (Raised e, w') => (Raised e, w')
    end.

(** [try: c  except <handles>: handler]: exceptions the clause does not name
    pass through. *)
Definition try_except {A} (c : M A) (handles : Exn -> bool) (handler : M A) : M A :=
  fun w =>
    match c w with
    | (Raised e, w') => if handles e then handler w' else (Raised e, w')
    | r => r
    end.

Definition except_ffmpeg_Error (e : Exn) : bool :=
  match e with FfmpegError => true | OtherError => false end.

Definition except_Exception (e : Exn) : bool := true.

Declare Scope clip_scope.
Delimit Scope clip_scope with clip.
Notation "x <- c ;; k" := (bind c (fun x => k))
  (at level 61, c at next level, right associativity) : clip_scope.
Notation "c ;;; k" := (bind c (fun _ => k))
  (at level 61, right associativity) : clip_scope.

Definition emit (e : Event) : M unit :=
  fun w => (Returned tt,
            {| w_fs := w_fs w; w_ops := w_ops w; w_events := w_events w ++ [e] |}).

Definition record_op (op : FsOp) (fs : FS) (w : World) : World :=
  {| w_fs := fs; w_ops := w_ops w ++ [op]; w_events := w_events w |}.

(** [ffmpeg.run(stream, overwrite_output=True)] *)
Definition ffmpeg_run (encoder : Encoder) (call : EncoderCall) : M unit :=
  fun w =>
    match encoder call with
    | EncOk =>
        (Returned tt,
         record_op (Encode call EncOk) (fs_set (w_fs w) (ec_output call) Complete) w)
    | EncError true =>
        (Raised FfmpegError,
         record_op (Encode call (EncError true))
                   (fs_set (w_fs w) (ec_output call) Partial) w)
    | EncError false =>
        (Raised FfmpegError, record_op (Encode call (EncError false)) (w_fs w) w)
    | EncCrash =>
        (Raised OtherError, record_op (Encode call EncCrash) (w_fs w) w)
    end.

(** [src.replace(dst)]: an atomic rename; it raises when [src] is missing. *)
Definition replace (src dst : Path) : M unit :=
  fun w =>
    match w_fs w src with
    | Absent => (Raised OtherError, w)
    | st =>
        (Returned tt,
         record_op (Rename src dst) (fs_set (fs_set (w_fs w) dst st) src Absent) w)
    end.

Definition exists_ (p : Path) : M bool :=
  fun w => (Returned (match w_fs w p with Absent => false | _ => true end), w).

Definition unlink (p : Path) : M unit :=
  fun w => (Returned tt, record_op (Unlink p) (fs_set (w_fs w) p Absent) w).

Definition write_srt (p : Path) : M unit :=
  fun w => (Returned tt, record_op (WriteSrt p) (fs_set (w_fs w) p Complete) w).

(** An exception-raising pure computation, lifted. *)
Definition lift_option {A} (o : option A) : M A :=
  match o with Some a => ret a | None => raise OtherError end.

(** ** Clip assembly ([clipper.py] and [burn_subtitles_into_clip]) *)

Module VideoClipper.

Local Open Scope clip_scope.

(** The keys of the clipper's configuration that the modelled code reads. *)
Record Config := mkConfig {
  clip_duration    : option Q;
  subtitle_enabled : option bool;
  subtitle         : SubtitleGenerator.Config
}.

(** The clipper object: its configuration and the [enable_crop] attribute,
    which the pipeline may overwrite after construction. *)
Record Clipper := mkClipper {
  config      : Config;
  enable_crop : bool
}.

Section WithEncoder.

Variable encoder : Encoder.

(** [_try_create_cropped_clip]: probe, crop, scale and pad, encode. *)
Definition _try_create_cropped_clip (start_time duration : Q)
           (output_path : Path) : M bool :=
  try_except
    (ffmpeg_run encoder
       {| ec_input := SourceVideo; ec_trim := Some (start_time, duration);
          ec_filter := CropScalePad; ec_output := output_path |} ;;;
     ret true)
    except_ffmpeg_Error
    (ret false).

(** [_create_simple_clip]: the same trim with no filter. *)
Definition _create_simple_clip (start_time duration : Q)
           (output_path : Path) : M bool :=
  try_except
    (ffmpeg_run encoder
       {| ec_input := SourceVideo; ec_trim := Some (start_time, duration);
          ec_filter := NoFilter; ec_output := output_path |} ;;;
     ret true)
    except_ffmpeg_Error
    (ret false).

(** [SubtitleGenerator.burn_subtitles_into_clip] *)
Definition burn_subtitles_into_clip (input_video output_video : Path)
           (subtitles : list Subtitle) : M bool :=
  try_except
    (match subtitles with
     | [] =>
         ffmpeg_run encoder
           {| ec_input := ClipFile input_video; ec_trim := None;
              ec_filter := NoFilter; ec_output := output_video |} ;;;
         ret true
     | _ =>
         write_srt (with_suffix_srt output_video) ;;;
         emit (EvProgress "subtitles" 0) ;;;
         ffmpeg_run encoder
           {| ec_input := ClipFile input_video; ec_trim := None;
              ec_filter := SubtitleBurn subtitles; ec_output := output_video |} ;;;
         emit (EvProgress "subtitles" 100) ;;;
         ret true
     end)
    except_ffmpeg_Error
    (emit (EvError SubtitleBurningFailed) ;;; ret false).

(** The trim window of a highlight. *)
Definition trim_duration (self : Clipper) (highlight : Highlight) : Q :=
  Py.min (h_end highlight - h_start highlight)
         (Py.get (clip_duration (config self)) 30).

(** The body of the [try] block of [_create_clip_with_subtitle]. *)
Definition create_clip_body (self : Clipper) (highlight : Highlight)
           (clip_number : nat) (transcription_segments : option (list Segment))
  : M (option Path) :=
  let start_time := h_start highlight in
  let duration := trim_duration self highlight in
  let clip_path := FinalClip clip_number in
  emit (EvProgress "cropping" 0) ;;;
  let temp_clip_path := TempClip clip_number in
  crop_success <-
    (if enable_crop self
     then
       crop_success <- _try_create_cropped_clip start_time duration temp_clip_path ;;
       if negb crop_success
       then _create_simple_clip start_time duration temp_clip_path
       else ret crop_success
     else _create_simple_clip start_time duration temp_clip_path) ;;
  if negb crop_success
  then emit (EvError (FailedToCreateClip clip_number)) ;;; ret None
  else
    emit (EvProgress "cropping" 100) ;;;
    match transcription_segments with
    | Some ((_ :: _) as segments) =>
        let clip_start := start_time in
        let clip_end := start_time + duration in
        subtitles <-
          lift_option
            (SubtitleGenerator.generate_subtitles_for_clip
               (subtitle (config self)) segments clip_start clip_end) ;;
        match subtitles with
        | _ :: _ =>
            success <- burn_subtitles_into_clip temp_clip_path clip_path subtitles ;;
            if success then ret tt
            else replace temp_clip_path clip_path
        | [] => replace temp_clip_path clip_path
        end
    | _ => replace temp_clip_path clip_path
    end ;;;
    still_there <- exists_ temp_clip_path ;;
    (if still_there then unlink temp_clip_path else ret tt) ;;;
    ret (Some clip_path).

(** [_create_clip_with_subtitle]: any exception of the body is reported and
    turned into [None]. *)
Definition _create_clip_with_subtitle (self : Clipper) (highlight : Highlight)
           (clip_number : nat) (transcription_segments : option (list Segment))
  : M (option Path) :=
  try_except
    (create_clip_body self highlight clip_number transcription_segments)
    except_Exception
    (emit (EvError (ClipCreationError clip_number)) ;;; ret None).

(** The loop of [create_clips] from index [i] on; [clips] is the list built
    so far. *)
Fixpoint create_clips_from (self : Clipper) (total_clips i : nat)
         (highlights : list Highlight)
         (transcription_segments : option (list Segment))
         (clips : list Path) : M (list Path) :=
  match highlights with
  | [] => ret clips
  | highlight :: rest =>
      clip_path <-
        _create_clip_with_subtitle self highlight (i + 1)
          (if Py.get (subtitle_enabled (config self)) true
           then transcription_segments else None) ;;
      clips <-
        match clip_path with
        | Some path =>
            let duration := Py.int (h_end highlight - h_start highlight) in
            emit (EvClip path duration) ;;; ret (clips ++ [path])
        | None => ret clips
        end ;;
      emit (EvProgress "creating_clips"
              (Py.int (inject_Z (Z.of_nat (i + 1))
                       / inject_Z (Z.of_nat total_clips) * 100))) ;;;
      create_clips_from self total_clips (S i) rest transcription_segments clips
  end.

(** [create_clips] *)
Definition create_clips (self : Clipper) (highlights : list Highlight)
           (transcription_segments : option (list Segment)) : M (list Path) :=
  create_clips_from self (length highlights) 0 highlights
                    transcription_segments [].

End WithEncoder.

(** *** File names and crop geometry *)

(** Python's character classes, which come from the Unicode database:
    [c.isalnum()], also true of letters and digits outside ASCII, and the
    whitespace [strip()] removes. *)
Record CharClasses := mkCharClasses {
  cc_isalnum : N -> bool;
  cc_isspace : N -> bool
}.

(** The code points of [' '], ['-'] and ['_']. *)
Definition space : N := 32.
Definition hyphen : N := 45.
Definition underscore : N := 95.

(** The characters the clipper keeps of a project name:
    [c.isalnum() or c in (' ', '-', '_')]. *)
Definition keeps_char (classes : CharClasses) (c : N) : bool :=
  cc_isalnum classes c || (c =? space)%N || (c =? hyphen)%N
  || (c =? underscore)%N.

(** The characters a cleaned name is made of. *)
Definition safe_char (classes : CharClasses) (c : N) : bool :=
  cc_isalnum classes c || (c =? hyphen)%N || (c =? underscore)%N.

(** [clean_name]: the kept characters, stripped, spaces made underscores. *)
Definition clean_name (classes : CharClasses) (project_name : list N)
  : list N :=
  map (fun c => if (c =? space)%N then underscore else c)
      (Py.strip_by (cc_isspace classes)
         (filter (keeps_char classes) project_name)).

(** ["{clean_name}_{clip_number:03d}.mp4"] *)
Definition clip_filename (classes : CharClasses) (project_name : list N)
           (clip_number : nat) : list N :=
  clean_name classes project_name
  ++ underscore :: Py.codepoints (Py.format_d 3 (Z.of_nat clip_number))
  ++ Py.codepoints ".mp4".

(** ["temp_{clip_filename}"] *)
Definition temp_filename (classes : CharClasses) (project_name : list N)
           (clip_number : nat) : list N :=
  Py.codepoints "temp_" ++ clip_filename classes project_name clip_number.

(** The rectangle [_get_crop_filter] hands to [stream.crop], as
    [(x, y, crop_width, crop_height)], for a probed frame size.  [None] is
    the [ZeroDivisionError] of a zero height. *)
Definition crop_rectangle (width height : Z) : option (Z * Z * Z * Z) :=
  if (height =? 0)%Z then None
  else
    let target_ratio := 16 / 9 in
    let current_ratio := inject_Z width / inject_Z height in
    let '(crop_width, crop_height) :=
      if Py.lt target_ratio current_ratio
      then (Py.int (inject_Z height * target_ratio), height)
      else (width, Py.int (inject_Z width / target_ratio)) in
    let x := ((width - crop_width) / 2)%Z in
    let y := ((height - crop_height) / 2)%Z in
    Some (x, y, crop_width, crop_height).

(** The clip number a path belongs to. *)
Definition path_number (p : Path) : nat :=
  match p with
  | TempClip n | FinalClip n | TempSrt n | FinalSrt n => n
  end.

(** *** Observations on a run *)

(** The encoder invocations the clipper makes for clip [clip_number]. *)
Definition cropped_call (self : Clipper) (highlight : Highlight)
           (clip_number : nat) : EncoderCall :=
  {| ec_input := SourceVideo;
     ec_trim := Some (h_start highlight, trim_duration self highlight);
     ec_filter := CropScalePad;
     ec_output := TempClip clip_number |}.

Definition simple_call (self : Clipper) (highlight : Highlight)
           (clip_number : nat) : EncoderCall :=
  {| ec_input := SourceVideo;
     ec_trim := Some (h_start highlight, trim_duration self highlight);
     ec_filter := NoFilter;
     ec_output := TempClip clip_number |}.

Definition burn_call (clip_number : nat) (subtitles : list Subtitle)
  : EncoderCall :=
  {| ec_input := ClipFile (TempClip clip_number);
     ec_trim := None;
     ec_filter := SubtitleBurn subtitles;
     ec_output := FinalClip clip_number |}.

(** The first attempt for a highlight. *)
Definition first_call (self : Clipper) (highlight : Highlight)
           (clip_number : nat) : EncoderCall :=
  if enable_crop self then cropped_call self highlight clip_number
  else simple_call self highlight clip_number.

Definition encoder_calls (ops : list FsOp) : list EncoderCall :=
  flat_map (fun op => match op with Encode c _ => [c] | _ => [] end) ops.

Definition is_burn (c : EncoderCall) : bool :=
  match ec_filter c with SubtitleBurn _ => true | _ => false end.

(** The call cuts the clip from the source video. *)
Definition is_base_encode (c : EncoderCall) : bool :=
  match ec_input c with SourceVideo => true | ClipFile _ => false end.

Definition is_temp (p : Path) : bool :=
  match p with TempClip _ | TempSrt _ => true | _ => false end.

Definition is_rename_to (dst : Path) (op : FsOp) : bool :=
  match op with Rename _ d => Path_eqb d dst | _ => false end.

(** The operations a run added to the log of the world it started in. *)
Definition ops_since (w w' : World) : list FsOp :=
  skipn (length (w_ops w)) (w_ops w').

Definition events_since (w w' : World) : list Event :=
  skipn (length (w_events w)) (w_events w').

Definition empty_world : World :=
  {| w_fs := fun _ => Absent; w_ops := []; w_events := [] |}.

(** Both error records of [_create_clip_with_subtitle] read
    "Failed to create clip {clip_number}", the second with the exception
    text appended. *)
Definition reports_failure_of (clip_number : nat) (e : Event) : Prop :=
  e = EvError (FailedToCreateClip clip_number)
  \/ e = EvError (ClipCreationError clip_number).

(** Operations that are no cropped encode. *)
Definition uncropped (op : FsOp) : Prop :=
  match op with
  | Encode call _ => ec_filter call <> CropScalePad
  | _ => True
  end.

(** Operations that neither burn subtitles nor write a subtitle file. *)
Definition untitled (op : FsOp) : Prop :=
  match op with
  | Encode call _ => is_burn call = false
  | WriteSrt _ => False
  | _ => True
  end.

(** The reading under which clip production never hands the encoder
    anything but a temp name to write to. *)
Definition writes_only_temp_names (ops : list FsOp) : Prop :=
  Forall (fun c => is_temp (ec_output c) = true) (encoder_calls ops).

End VideoClipper.

(** ** The pipeline from highlight detection to clips ([pipeline.py]) *)

Module AutoClipPipeline.

Local Open Scope clip_scope.

(** The components [__init__] builds, with the configuration each was
    given; [detector_available] tells whether the face model loaded. *)
Record Pipeline := mkPipeline {
  highlight_config   : HighlightDetector.Config;
  face_config        : FaceDetector.Config;
  detector_available : bool;
  clipper            : VideoClipper.Clipper
}.

(** Step 6 of [process]: keep the highlights with a face, unless none is
    left. *)
Definition select_final_highlights (face_config : FaceDetector.Config)
           (highlights highlights_with_faces : list Highlight) : list Highlight :=
  if Py.get (FaceDetector.enabled face_config) true
  then
    let final_highlights :=
      filter (fun h => Py.get (h_face_present h) true) highlights_with_faces in
    if (length final_highlights =? 0)%nat then highlights else final_highlights
  else highlights.

(** Steps 4 to 7 of [process], from the transcribed segments to the clips.
    Only the events of the clip stage are recorded.  An exception is
    reported and raised again. *)
Definition process (self : Pipeline) (encoder : Encoder)
           (video : FaceDetector.Video)
           (energy_highlights silence_highlights : list Highlight)
           (segments : list Segment) : M (list Path) :=
  try_except
    (let highlights :=
       HighlightDetector.detect_highlights (highlight_config self)
         energy_highlights segments silence_highlights in
     highlights_with_faces <-
       lift_option
         (FaceDetector.analyze_highlights (face_config self)
            (detector_available self) video highlights) ;;
     let final_highlights :=
       select_final_highlights (face_config self) highlights
                               highlights_with_faces in
     emit (EvProgress "creating_clips" 80) ;;;
     clips <- VideoClipper.create_clips encoder (clipper self)
                final_highlights None ;;
     emit (EvProgress "creating_clips" 100) ;;;
     ret clips)
    except_Exception
    (emit (EvError PipelineFailed) ;;; raise OtherError).

(** The arguments of [process] that override the configuration;
    [output_dir] and [project_name] only change where the files go and
    what they are called. *)
Record Overrides := mkOverrides {
  arg_max_clips     : option Z;
  arg_clip_duration : option Z;
  arg_enable_crop   : option bool
}.

(** The top-level keys of [self.config] those arguments are written to.
    The components were handed their own sub-dictionaries (['highlight'],
    ['face_detection'], ['ffmpeg']) by [__init__]. *)
Record TopLevel := mkTopLevel {
  top_max_clips     : option Z;
  top_clip_duration : option Z;
  top_enable_crop   : option bool
}.

(** [if n:] on an optional integer argument. *)
Definition truthy (n : option Z) : bool :=
  match n with
  | Some z => negb (z =? 0)%Z
  | None => false
  end.

(** The head of [process]: the pipeline object and its top-level
    configuration after the overrides. *)
Definition apply_overrides (self : Pipeline) (top : TopLevel)
           (args : Overrides) : Pipeline * TopLevel :=
  let top :=
    if truthy (arg_max_clips args)
    then mkTopLevel (arg_max_clips args) (top_clip_duration top)
                    (top_enable_crop top)
    else top in
  let top :=
    if truthy (arg_clip_duration args)
    then mkTopLevel (top_max_clips top) (arg_clip_duration args)
                    (top_enable_crop top)
    else top in
  match arg_enable_crop args with
  | Some enable_crop =>
      (mkPipeline (highlight_config self) (face_config self)
                  (detector_available self)
                  (VideoClipper.mkClipper
                     (VideoClipper.config (clipper self)) enable_crop),
       mkTopLevel (top_max_clips top) (top_clip_duration top)
                  (Some enable_crop))
  | None => (self, top)
  end.

(** [process] with its arguments, from the loaded audio and the transcribed
    segments on: the overrides, then steps 4 to 7 inside the [try].
    [thresholds] are the further keys of the detector's configuration.
    Only the events of the clip stage are recorded. *)
Definition process_with (self : Pipeline)
           (thresholds : HighlightDetector.Thresholds)
           (top : TopLevel) (args : Overrides) (encoder : Encoder)
           (video : FaceDetector.Video) (audio : HighlightDetector.Analysis)
           (segments : list Segment) : M (list Path) :=
  let self := fst (apply_overrides self top args) in
  try_except
    (highlights <-
       lift_option
         (HighlightDetector.detect_highlights_from (highlight_config self)
            thresholds audio segments) ;;
     highlights_with_faces <-
       lift_option
         (FaceDetector.analyze_highlights (face_config self)
            (detector_available self) video highlights) ;;
     let final_highlights :=
       select_final_highlights (face_config self) highlights
                               highlights_with_faces in
     emit (EvProgress "creating_clips" 80) ;;;
     clips <- VideoClipper.create_clips encoder (clipper self)
                final_highlights None ;;
     emit (EvProgress "creating_clips" 100) ;;;
     ret clips)
    except_Exception
    (emit (EvError PipelineFailed) ;;; raise OtherError).

End AutoClipPipeline.

(** ** Example inputs *)

Module Examples.

(** Two highlights and their annotated copies, neither with a face. *)
Definition faceless_highlights : list Highlight :=
  [ mkHighlight 0 10 energy (9 # 10) None None None None None;
    mkHighlight 12 14 silence_gap (7 # 10) None (Some 2) None None None ].

Definition faceless_annotated : list Highlight :=
  map (fun h => FaceDetector.with_face h false 0) faceless_highlights.

(** One segment of the design document's subtitle scenario, followed by a
    later one. *)
Definition scenario_segments : list Segment :=
  [ mkSegment 0 6 "This is amazing. It really is." None;
    mkSegment 7 9 "Wow!" None ].

(** An RMS envelope, one frame per second, and the sound intervals of a
    recording sampled at 1000 Hz with a three-second pause. *)
Definition example_rms : list Q := [1; 0; 2; 1; 9 # 5].

Definition example_frame_time (i : nat) : Q := inject_Z (Z.of_nat i).

Definition example_intervals : list (Z * Z) :=
  [(0, 4000); (7000, 9000); (9500, 12000)]%Z.

Definition example_sample_time (n : Z) : Q := inject_Z n / 1000.

Definition clipper0 : VideoClipper.Clipper :=
  VideoClipper.mkClipper
    (VideoClipper.mkConfig None None (SubtitleGenerator.mkConfig None None))
    true.

(** Three highlights; the last is longer than the default clip duration. *)
Definition three_highlights : list Highlight :=
  [ mkHighlight 0 10 energy (9 # 10) None None None None None;
    mkHighlight 12 14 silence_gap (7 # 10) None (Some 2) None None None;
    mkHighlight 20 60 energy 1 None None None None None ].

(** The character classes of Latin-1 text, as far as the examples need
    them: ASCII letters and digits and the accented letters are
    alphanumeric; the ASCII blanks and the no-break space are whitespace. *)
Definition latin_classes : VideoClipper.CharClasses :=
  VideoClipper.mkCharClasses
    (fun c => ((48 <=? c) && (c <=? 57) || (65 <=? c) && (c <=? 90)
               || (97 <=? c) && (c <=? 122) || (192 <=? c) && (c <=? 214)
               || (216 <=? c) && (c <=? 246) || (248 <=? c) && (c <=? 255))%N)
    (fun c => ((9 <=? c) && (c <=? 13) || (28 <=? c) && (c <=? 32)
               || (c =? 133) || (c =? 160))%N).

(** The project names [Café 01!] and [ Café 01], as code points. *)
Definition cafe_name : list N := [67; 97; 102; 233; 32; 48; 49; 33]%N.
Definition cafe_name_padded : list N := [32; 67; 97; 102; 233; 32; 48; 49]%N.

(** Three loud frames a hundred seconds apart and no silence. *)
Definition three_peaks : HighlightDetector.Analysis :=
  HighlightDetector.mkAnalysis
    [1; 1; 1] (fun i => inject_Z (Z.of_nat (100 * i))) [] (fun _ => 0).

(** Cropping and subtitles both switched off. *)
Definition clipper_plain : VideoClipper.Clipper :=
  VideoClipper.mkClipper
    (VideoClipper.mkConfig None (Some false)
       (SubtitleGenerator.mkConfig None None))
    false.

(** What the recogniser returns for the scenario: no confidence key. *)
Definition raw_scenario : list Transcriber.RawSegment :=
  [ Transcriber.mkRawSegment 0 6 " This is amazing. It really is. " None;
    Transcriber.mkRawSegment 7 9 " Wow!" None ].

Definition encoder_ok : Encoder := fun _ => EncOk.

(** Every attempt to cut clip 2 fails. *)
Definition encoder_failing_clip2 : Encoder :=
  fun c =>
    match ec_output c with
    | TempClip 2 => EncError true
    | _ => EncOk
    end.

(** Every crop attempt raises something other than the encoder's own
    error (the probe finds no video stream, or the probing executable is
    missing); every other call succeeds. *)
Definition encoder_probe_raises : Encoder :=
  fun c =>
    match ec_filter c with
    | CropScalePad => EncCrash
    | _ => EncOk
    end.

(** Cutting works, burning subtitles fails. *)
Definition encoder_burn_fails : Encoder :=
  fun c =>
    match ec_filter c with
    | SubtitleBurn _ => EncError true
    | _ => EncOk
    end.

Definition video0 : FaceDetector.Video :=
  FaceDetector.mkVideo true 30 (fun _ => Some false).

(** A pipeline with the default configuration, subtitles enabled, and face
    filtering switched off. *)
Definition pipeline0 : AutoClipPipeline.Pipeline :=
  AutoClipPipeline.mkPipeline
    (HighlightDetector.mkConfig None None)
    (FaceDetector.mkConfig (Some false) None)
    false
    clipper0.

End Examples.

(** * Part II: properties *)

(** ** Python built-ins *)

Lemma Py_max_ge_l a b : a <= Py.max a b.
Proof.
  unfold Py.max. destruct (Qle_bool b a) eqn:E.
  - apply Qle_refl.
  - destruct (Qlt_le_dec a b) as [H|H].
    + apply Qlt_le_weak, H.
    + apply Qle_bool_iff in H. congruence.
Qed.

Lemma Py_max_ge_r a b : b <= Py.max a b.
Proof.
  unfold Py.max. destruct (Qle_bool b a) eqn:E.
  - apply Qle_bool_iff, E.
  - apply Qle_refl.
Qed.

Lemma Py_max_cases a b : Py.max a b = a \/ Py.max a b = b.
Proof. unfold Py.max. destruct (Qle_bool b a); auto. Qed.

Lemma Py_min_le_l a b : Py.min a b <= a.
Proof.
  unfold Py.min. destruct (Qle_bool a b) eqn:E.
  - apply Qle_refl.
  - destruct (Qlt_le_dec b a) as [H|H].
    + apply Qlt_le_weak, H.
    + apply Qle_bool_iff in H. congruence.
Qed.

Lemma Py_min_le_r a b : Py.min a b <= b.
Proof.
  unfold Py.min. destruct (Qle_bool a b) eqn:E.
  - apply Qle_bool_iff, E.
  - apply Qle_refl.
Qed.

Lemma Qle_bool_false a b : Qle_bool a b = false -> b < a.
Proof.
  intros E. destruct (Qlt_le_dec b a) as [H|H]; [exact H|].
  apply Qle_bool_iff in H. congruence.
Qed.

Lemma Qle_bool_false_of_lt a b : b < a -> Qle_bool a b = false.
Proof.
  intros H. destruct (Qle_bool a b) eqn:E; [|reflexivity].
  apply Qle_bool_iff in E. exfalso. apply (Qlt_not_le _ _ H E).
Qed.

Lemma Py_lt_false a b : Py.lt a b = false -> b <= a.
Proof.
  unfold Py.lt. intros E. apply Qle_bool_iff.
  destruct (Qle_bool b a); [reflexivity | discriminate].
Qed.

Lemma Py_slice_to_prefix {A} (n : Z) (l : list A) :
  exists rest, l = Py.slice_to n l ++ rest.
Proof.
  unfold Py.slice_to. destruct (0 <=? n)%Z.
  - exists (skipn (Z.to_nat n) l). symmetry. apply firstn_skipn.
  - exists (skipn (length l - Z.to_nat (- n)) l). symmetry. apply firstn_skipn.
Qed.

Lemma Py_slice_to_length {A} (n : Z) (l : list A) :
  (0 <= n)%Z -> (Z.of_nat (length (Py.slice_to n l)) <= n)%Z.
Proof.
  intros Hn. unfold Py.slice_to.
  destruct (0 <=? n)%Z eqn:E; [|apply Z.leb_gt in E; lia].
  rewrite length_firstn. lia.
Qed.

(** ** The interval merge *)

Section MergeProperties.

Import HighlightDetector.

Lemma fold_left_merge_step rest : forall closed last,
  (let '(c, l) := fold_left merge_step rest (closed, last) in c ++ [l])
  = closed ++ sweep last rest.
Proof.
  induction rest as [|cur rest IH]; intros closed last; simpl.
  - reflexivity.
  - destruct (Qle_bool (h_start cur) (h_end last)).
    + apply IH.
    + rewrite IH, <- app_assoc. reflexivity.
Qed.

Lemma merge_as_sweep highlights :
  _merge_highlights highlights =
  match sort_by_start highlights with
  | [] => []
  | first :: rest => sweep first rest
  end.
Proof.
  unfold _merge_highlights. destruct (sort_by_start highlights) as [|f r].
  - reflexivity.
  - apply (fold_left_merge_step r [] f).
Qed.

Lemma le_start_trans : Relations_1.Transitive le_start.
Proof. intros a b c H1 H2. unfold le_start in *. eapply Qle_trans; eauto. Qed.

Lemma insert_In x y l : In y (insert_by_start x l) <-> y = x \/ In y l.
Proof.
  induction l as [|z l IH]; simpl.
  - intuition.
  - destruct (Qle_bool (h_start x) (h_start z)); simpl; intuition.
Qed.

Lemma sort_In y l : In y (sort_by_start l) <-> In y l.
Proof.
  induction l as [|x l IH]; simpl; [tauto|].
  rewrite insert_In, IH. intuition.
Qed.

Lemma insert_sorted x l :
  Sorted le_start l -> Sorted le_start (insert_by_start x l).
Proof.
  induction l as [|y l IH]; intros Hs; simpl.
  - repeat constructor.
  - destruct (Qle_bool (h_start x) (h_start y)) eqn:E.
    + constructor; [exact Hs|]. constructor. apply Qle_bool_iff, E.
    + apply Qle_bool_false in E. inversion Hs as [|? ? Hs' Hhd]; subst.
      constructor; [apply IH, Hs'|].
      destruct l as [|z l]; simpl.
      * constructor. apply Qlt_le_weak, E.
      * destruct (Qle_bool (h_start x) (h_start z)); constructor.
        -- apply Qlt_le_weak, E.
        -- inversion Hhd; assumption.
Qed.

Lemma sort_sorted l : StronglySorted le_start (sort_by_start l).
Proof.
  apply Sorted_StronglySorted; [exact le_start_trans|].
  induction l as [|x l IH]; simpl; [constructor | apply insert_sorted, IH].
Qed.

Lemma sort_of_sorted l : StronglySorted le_start l -> sort_by_start l = l.
Proof.
  induction 1 as [|x l Hs IH Hall]; simpl; [reflexivity|].
  rewrite IH. destruct l as [|y l]; simpl; [reflexivity|].
  inversion Hall as [|? ? Hxy _]; subst.
  apply Qle_bool_iff in Hxy. rewrite Hxy. reflexivity.
Qed.

Lemma sweep_starts (P : Q -> Prop) rest : forall last,
  P (h_start last) -> Forall (fun h => P (h_start h)) rest ->
  Forall (fun h => P (h_start h)) (sweep last rest).
Proof.
  induction rest as [|cur rest IH]; intros last Hl Hr; simpl.
  - constructor; [exact Hl | constructor].
  - inversion Hr; subst.
    destruct (Qle_bool (h_start cur) (h_end last)).
    + apply IH; assumption.
    + constructor; [exact Hl | apply IH; assumption].
Qed.

Lemma sorted_fold_into last cur rest :
  StronglySorted le_start (last :: cur :: rest) ->
  StronglySorted le_start (fold_into last cur :: rest).
Proof.
  intros Hs. inversion Hs as [|? ? Hs1 Hall]; subst.
  inversion Hs1; subst. inversion Hall; subst.
  constructor; assumption.
Qed.

Lemma sweep_sorted rest : forall last,
  StronglySorted le_start (last :: rest) ->
  StronglySorted le_start (sweep last rest).
Proof.
  induction rest as [|cur rest IH]; intros last Hs; simpl.
  - exact Hs.
  - destruct (Qle_bool (h_start cur) (h_end last)).
    + apply IH, sorted_fold_into, Hs.
    + inversion Hs as [|? ? Hs1 Hall]; subst.
      constructor; [apply IH, Hs1|].
      inversion Hall; subst. inversion Hs1; subst.
      apply (sweep_starts (fun s => h_start last <= s)); assumption.
Qed.

Lemma sweep_separated rest : forall last,
  StronglySorted le_start (last :: rest) ->
  ForallOrdPairs separated (sweep last rest).
Proof.
  induction rest as [|cur rest IH]; intros last Hs; simpl.
  - repeat constructor.
  - destruct (Qle_bool (h_start cur) (h_end last)) eqn:E.
    + apply IH, sorted_fold_into, Hs.
    + apply Qle_bool_false in E.
      inversion Hs as [|? ? Hs1 Hall]; subst.
      constructor; [|apply IH, Hs1].
      inversion Hs1 as [|? ? _ Hcur]; subst.
      apply (sweep_starts (fun s => h_end last < s)); [exact E|].
      eapply Forall_impl; [|exact Hcur].
      intros x Hx. eapply Qlt_le_trans; [exact E | exact Hx].
Qed.

Lemma covers_fold_into last cur t :
  h_start last <= h_start cur -> h_start cur <= h_end last ->
  (covers t (fold_into last cur) <-> covers t last \/ covers t cur).
Proof.
  intros H1 H2. unfold covers; simpl.
  pose proof (Py_max_ge_l (h_end last) (h_end cur)) as Ml.
  pose proof (Py_max_ge_r (h_end last) (h_end cur)) as Mr.
  split.
  - intros [Hs He].
    destruct (Qlt_le_dec (h_end last) t) as [Hlt|Hle]; [|left; split; assumption].
    right. split.
    + apply Qlt_le_weak. eapply Qle_lt_trans; eassumption.
    + destruct (Py_max_cases (h_end last) (h_end cur)) as [Hm|Hm];
        rewrite Hm in He; [|exact He].
      exfalso. apply (Qlt_not_le _ _ Hlt He).
  - intros [[Hs He]|[Hs He]]; split.
    + exact Hs.
    + eapply Qle_trans; eassumption.
    + eapply Qle_trans; eassumption.
    + eapply Qle_trans; eassumption.
Qed.

Lemma sweep_covers t rest : forall last,
  StronglySorted le_start (last :: rest) ->
  (Exists (covers t) (sweep last rest) <-> Exists (covers t) (last :: rest)).
Proof.
  induction rest as [|cur rest IH]; intros last Hs; simpl.
  - tauto.
  - destruct (Qle_bool (h_start cur) (h_end last)) eqn:E.
    + rewrite IH by apply sorted_fold_into, Hs.
      rewrite !Exists_cons.
      inversion Hs as [|? ? _ Hall]; subst. inversion Hall; subst.
      apply Qle_bool_iff in E.
      rewrite covers_fold_into by assumption. tauto.
    + inversion Hs as [|? ? Hs1 _]; subst.
      rewrite Exists_cons, IH by exact Hs1.
      rewrite (Exists_cons _ last). tauto.
Qed.

Lemma sweep_fixed rest : forall last,
  ForallOrdPairs separated (last :: rest) -> sweep last rest = last :: rest.
Proof.
  induction rest as [|cur rest IH]; intros last Hp; simpl; [reflexivity|].
  inversion Hp as [|? ? Hall Hp1]; subst. inversion Hall; subst.
  rewrite Qle_bool_false_of_lt by assumption.
  rewrite IH by exact Hp1. reflexivity.
Qed.

Lemma merge_sorted highlights :
  StronglySorted le_start (_merge_highlights highlights).
Proof.
  rewrite merge_as_sweep. pose proof (sort_sorted highlights) as Hs.
  destruct (sort_by_start highlights); [constructor | apply sweep_sorted, Hs].
Qed.

Lemma merge_separated highlights :
  ForallOrdPairs separated (_merge_highlights highlights).
Proof.
  rewrite merge_as_sweep. pose proof (sort_sorted highlights) as Hs.
  destruct (sort_by_start highlights); [constructor | apply sweep_separated, Hs].
Qed.

Lemma merge_covers highlights t :
  Exists (covers t) (_merge_highlights highlights)
  <-> Exists (covers t) highlights.
Proof.
  rewrite merge_as_sweep. pose proof (sort_sorted highlights) as Hs.
  assert (Hin : Exists (covers t) (sort_by_start highlights)
                <-> Exists (covers t) highlights).
  { rewrite !Exists_exists. split; intros [x [Hx Hc]]; exists x; split;
      try assumption; apply sort_In; assumption. }
  rewrite <- Hin.
  destruct (sort_by_start highlights); [tauto | apply sweep_covers, Hs].
Qed.

Lemma is_max_of_snoc (v x : Q) (vs : list Q) :
  is_max_of v vs -> is_max_of (Py.max v x) (vs ++ [x]).
Proof.
  intros [Hin Hall]. split.
  - apply in_or_app. destruct (Py_max_cases v x) as [E|E]; rewrite E.
    + left. exact Hin.
    + right. left. reflexivity.
  - apply Forall_app. split.
    + eapply Forall_impl; [|exact Hall].
      intros y Hy. eapply Qle_trans; [exact Hy | apply Py_max_ge_l].
    + constructor; [apply Py_max_ge_r | constructor].
Qed.

Lemma summarises_single cur : is_candidate cur -> summarises [cur] cur.
Proof.
  intros Hc. simpl. repeat split; try (left; reflexivity);
    try (constructor; [apply Qle_refl | constructor]).
  exact Hc.
Qed.

Lemma summarises_fold_into group last cur :
  summarises group last -> summarises (group ++ [cur]) (fold_into last cur).
Proof.
  destruct group as [|first others]; simpl; [tauto|].
  intros (Hs & Ht & He & Hc & Hk).
  apply (is_max_of_snoc _ (h_end cur)) in He.
  apply (is_max_of_snoc _ (h_confidence cur)) in Hc.
  rewrite !map_app. repeat split; try assumption; try apply He; try apply Hc.
  rewrite Hk, Ht. destruct others as [|o os]; reflexivity.
Qed.

Lemma sweep_groups_spec rest : forall last group,
  summarises group last -> Forall is_candidate rest ->
  Forall2 summarises (sweep_groups last group rest) (sweep last rest)
  /\ concat (sweep_groups last group rest) = group ++ rest.
Proof.
  induction rest as [|cur rest IH]; intros last group Hsum Hcand; simpl.
  - split; [repeat constructor; exact Hsum | reflexivity].
  - inversion Hcand as [|? ? Hcur Hrest]; subst.
    destruct (Qle_bool (h_start cur) (h_end last)).
    + destruct (IH (fold_into last cur) (group ++ [cur])) as [H1 H2];
        [apply summarises_fold_into, Hsum | exact Hrest |].
      split; [exact H1 | rewrite H2, <- app_assoc; reflexivity].
    + destruct (IH cur [cur]) as [H1 H2];
        [apply summarises_single, Hcur | exact Hrest |].
      split; [constructor; assumption | simpl; rewrite H2; reflexivity].
Qed.

(** C1 (IntervalMerger invariant).  For every list of candidates the output
    of [_merge_highlights] is ascending by start, any output placed before
    another ends strictly before the other starts (neither overlapping nor
    touching), and a time point lies in some output interval exactly when
    it lies in some input interval. *)
Theorem merge_output_separated_and_covering (highlights : list Highlight) :
  StronglySorted le_start (_merge_highlights highlights)
  /\ ForallOrdPairs separated (_merge_highlights highlights)
  /\ forall t : Q,
       Exists (covers t) (_merge_highlights highlights)
       <-> Exists (covers t) highlights.
Proof.
  split; [apply merge_sorted|].
  split; [apply merge_separated|].
  intros t. apply merge_covers.
Qed.

(** C9 (idempotence).  Merging the output of a merge changes nothing: the
    same highlights, in the same order, with the same fields. *)
Theorem merge_idempotent (highlights : list Highlight) :
  _merge_highlights (_merge_highlights highlights)
  = _merge_highlights highlights.
Proof.
  pose proof (merge_sorted highlights) as Hs.
  pose proof (merge_separated highlights) as Hp.
  rewrite (merge_as_sweep (_merge_highlights highlights)).
  rewrite (sort_of_sorted _ Hs).
  destruct (_merge_highlights highlights) as [|first rest]; [reflexivity|].
  apply sweep_fixed, Hp.
Qed.

Lemma summarises_kinds group out :
  summarises group out -> kinds_of out = map h_type group.
Proof.
  destruct group as [|first others]; simpl; [tauto|].
  intros (_ & Ht & _ & _ & Hk). unfold kinds_of. rewrite Hk.
  destruct others; simpl; [rewrite Ht|]; reflexivity.
Qed.

(** C8, as amended.  For candidates as the detectors create them, the
    outputs of the merge correspond one to one, in order, to consecutive
    groups of the start-sorted candidates, and each output records of its
    group: the greatest confidence, the greatest end, the start and tag of
    the first candidate, and, when two or more candidates were folded, under
    ['types'] the tags of all of them in order.  An output that is a single
    unmerged candidate has no ['types'] key; read the way the merge itself
    reads it, ['types'] when present and else the one ['type'], the tags of
    every output are those of its group in order. *)
Theorem merge_summarises_groups (highlights : list Highlight) :
  Forall is_candidate highlights ->
  concat (merge_groups highlights) = sort_by_start highlights
  /\ Forall2 summarises (merge_groups highlights) (_merge_highlights highlights)
  /\ Forall2 (fun group out => kinds_of out = map h_type group)
             (merge_groups highlights) (_merge_highlights highlights).
Proof.
  intros Hcand.
  assert (Hs : Forall is_candidate (sort_by_start highlights)).
  { rewrite Forall_forall in *. intros x Hx. apply Hcand, sort_In, Hx. }
  assert (Hsum : Forall2 summarises (merge_groups highlights)
                         (_merge_highlights highlights)
                 /\ concat (merge_groups highlights) = sort_by_start highlights).
  { rewrite merge_as_sweep. unfold merge_groups.
    destruct (sort_by_start highlights) as [|first rest].
    - split; [constructor | reflexivity].
    - inversion Hs as [|? ? Hfirst Hrest]; subst.
      apply sweep_groups_spec; [apply summarises_single|]; assumption. }
  destruct Hsum as [Hsum Hcat].
  split; [exact Hcat|]. split; [exact Hsum|].
  eapply Forall2_impl; [|exact Hsum].
  intros group out. apply summarises_kinds.
Qed.

Lemma merge_summarises_groups_witness :
  Forall2 summarises (merge_groups scenario_candidates)
          (_merge_highlights scenario_candidates).
Proof.
  apply (merge_summarises_groups scenario_candidates).
  repeat constructor.
Defined.

(** C8, as stated, fails on the design document's own scenario: the third
    candidate is not merged with anything, and the output made from it has
    no ['types'] list at all. *)
Lemma merge_single_candidate_has_no_kinds :
  ~ Forall2 carries_all_kinds (merge_groups scenario_candidates)
            (_merge_highlights scenario_candidates).
Proof.
  vm_compute. intros H.
  inversion H as [|? ? ? ? _ H1]; subst.
  inversion H1 as [|? ? ? ? [_ Hk] _]; subst.
  discriminate Hk.
Qed.




End MergeProperties.

(** ** The face filter *)

Section FaceFilterProperties.

Import AutoClipPipeline Examples.

Lemma select_final_nonempty (face_config : FaceDetector.Config)
      (highlights highlights_with_faces : list Highlight) :
  highlights <> [] ->
  select_final_highlights face_config highlights highlights_with_faces <> [].
Proof.
  intros Hne. unfold select_final_highlights.
  destruct (Py.get (FaceDetector.enabled face_config) true); [|exact Hne].
  destruct (filter _ highlights_with_faces); simpl; [exact Hne | discriminate].
Qed.

(** C3 (FacePresenceFilter fallback).  Whatever the face analysis returned,
    the highlights chosen for clip assembly are not empty when the detected
    highlights are not; with filtering enabled, if no annotated highlight
    has [face_present] true the choice is the full unfiltered list, and
    otherwise it is the annotated highlights with a face. *)
Theorem face_filter_never_empties (face_config : FaceDetector.Config)
        (highlights highlights_with_faces : list Highlight) :
  highlights <> [] ->
  let with_face :=
    filter (fun h => Py.get (h_face_present h) true) highlights_with_faces in
  let final_highlights :=
    select_final_highlights face_config highlights highlights_with_faces in
  final_highlights <> []
  /\ (Py.get (FaceDetector.enabled face_config) true = true ->
      (with_face = [] -> final_highlights = highlights)
      /\ (with_face <> [] -> final_highlights = with_face)).
Proof.
  intros Hne with_face final_highlights.
  subst final_highlights. unfold select_final_highlights. fold with_face.
  destruct (Py.get (FaceDetector.enabled face_config) true).
  - destruct with_face as [|h l] eqn:E; simpl.
    + split; [exact Hne|]. intros _. split; [reflexivity | congruence].
    + split; [discriminate|]. intros _. split; [discriminate | reflexivity].
  - split; [exact Hne | discriminate].
Qed.

Lemma face_filter_never_empties_witness :
  select_final_highlights (FaceDetector.mkConfig None None)
    faceless_highlights faceless_annotated = faceless_highlights.
Proof.
  apply (face_filter_never_empties (FaceDetector.mkConfig None None)
           faceless_highlights faceless_annotated).
  - discriminate.
  - reflexivity.
  - reflexivity.
Defined.

End FaceFilterProperties.

(** ** Subtitle segmentation *)

Section SubtitleProperties.

Import SubtitleGenerator.

Variable config : Config.
Variables clip_start clip_end : Q.

Local Abbreviation inside := (within_window clip_start clip_end).

Lemma clip_entries_within phrases :
  Forall inside (clip_entries config clip_start clip_end phrases).
Proof.
  unfold clip_entries. induction phrases as [|[[text ps] pe] phrases IH]; simpl.
  - constructor.
  - destruct (Py.lt (Py.min pe clip_end - Py.max ps clip_start) (1 # 2)) eqn:E;
      simpl; [exact IH|].
    constructor; [|exact IH].
    unfold inside, within_window; simpl. repeat split.
    + apply Py_max_ge_r.
    + apply Py_min_le_r.
    + apply Py_lt_false, E.
Qed.

Lemma collect_entries_within segments : forall subtitles,
  collect_entries config clip_start clip_end segments = Some subtitles ->
  Forall inside subtitles.
Proof.
  induction segments as [|seg segments IH]; simpl; intros subtitles H.
  - injection H as <-. constructor.
  - destruct (_split_into_phrases config seg) as [phrases|]; [|discriminate].
    destruct (collect_entries config clip_start clip_end segments) as [more|];
      [|discriminate].
    injection H as <-. apply Forall_app. split.
    + apply clip_entries_within.
    + apply IH. reflexivity.
Qed.

Lemma join_into_within last current :
  inside last -> inside current -> inside (join_into last current).
Proof.
  unfold inside, within_window; simpl.
  intros (Hs & He & Hd) (Hs' & He' & Hd').
  pose proof (Py_max_ge_l (sub_end last) (sub_end current)) as Hm.
  repeat split.
  - exact Hs.
  - destruct (Py_max_cases (sub_end last) (sub_end current)) as [E|E];
      rewrite E; assumption.
  - lra.
Qed.

Lemma merge_steps_within rest : forall closed last,
  Forall inside closed -> inside last -> Forall inside rest ->
  Forall inside
    (let '(c, l) := fold_left merge_step rest (closed, last) in c ++ [l]).
Proof.
  induction rest as [|cur rest IH]; intros closed last Hc Hl Hr; simpl.
  - apply Forall_app. split; [exact Hc | constructor; [exact Hl | constructor]].
  - inversion Hr; subst.
    destruct (Py.lt (sub_start cur - sub_end last) (3 # 10)).
    + apply IH; [assumption | apply join_into_within; assumption | assumption].
    + apply IH; [|assumption|assumption].
      apply Forall_app. split; [exact Hc | constructor; [exact Hl | constructor]].
Qed.

Lemma merge_subtitles_within subtitles :
  Forall inside subtitles -> Forall inside (_merge_subtitles subtitles).
Proof.
  intros H. unfold _merge_subtitles. destruct subtitles as [|first rest].
  - constructor.
  - inversion H; subst. apply merge_steps_within; [constructor | assumption ..].
Qed.

Lemma range_total start stop step :
  step <> 0%Z -> exists l, Py.range start stop step = Some l.
Proof.
  intros H. unfold Py.range.
  destruct (step =? 0)%Z eqn:E; [apply Z.eqb_eq in E; contradiction|].
  eexists. reflexivity.
Qed.

Lemma split_sentences_total segment_start segment_end sentences :
  max_words_per_line config <> 0%Z ->
  forall current_time, exists phrases,
    split_sentences config segment_start segment_end sentences current_time
    = Some phrases.
Proof.
  intros Hm. induction sentences as [|[raw punct] sentences IH];
    intros current_time; simpl.
  - eexists. reflexivity.
  - destruct (Py.is_empty (Py.strip raw)); [apply IH|].
    destruct (Z.of_nat (length (Py.split (Py.strip raw)))
              >? max_words_per_line config * 2)%Z.
    + unfold chunks_of.
      destruct (range_total 0 (Z.of_nat (length (Py.split (Py.strip raw))))
                  (max_words_per_line config) Hm) as [l ->]; simpl.
      destruct (place_chunks _ _ current_time) as [phrases t].
      destruct (IH t) as [more ->]. eexists. reflexivity.
    + destruct (IH (current_time
                    + Py.min (segment_end - current_time) (5 # 2)))
        as [more ->].
      eexists. reflexivity.
Qed.

Lemma collect_entries_total segments :
  max_words_per_line config <> 0%Z ->
  exists subtitles,
    collect_entries config clip_start clip_end segments = Some subtitles.
Proof.
  intros Hm. induction segments as [|seg segments [more IH]]; simpl.
  - eexists. reflexivity.
  - unfold _split_into_phrases.
    destruct (split_sentences_total (seg_start seg) (seg_end seg)
                (sentence_pairs (Py.re_split_sentences (Py.strip (seg_text seg))))
                Hm (seg_start seg)) as [phrases ->].
    rewrite IH. eexists. reflexivity.
Qed.

Lemma generate_subtitles_within transcription_segments subtitles :
  generate_subtitles_for_clip config transcription_segments clip_start clip_end
  = Some subtitles ->
  Forall inside subtitles.
Proof.
  unfold generate_subtitles_for_clip.
  destruct (filter _ transcription_segments) as [|seg segs].
  - intros H. injection H as <-. constructor.
  - destruct (collect_entries config clip_start clip_end (seg :: segs))
      as [entries|] eqn:E; simpl; [|discriminate].
    intros H. injection H as <-.
    apply merge_subtitles_within, (collect_entries_within _ _ E).
Qed.

Lemma generate_subtitles_total transcription_segments :
  max_words_per_line config <> 0%Z ->
  exists subtitles,
    generate_subtitles_for_clip config transcription_segments
                                clip_start clip_end = Some subtitles.
Proof.
  intros Hm. unfold generate_subtitles_for_clip.
  destruct (filter _ transcription_segments) as [|seg segs].
  - eexists. reflexivity.
  - destruct (collect_entries_total (seg :: segs) Hm) as [entries ->].
    eexists. reflexivity.
Qed.

End SubtitleProperties.

(** C4 (SubtitleSegmenter window).  For every segment list and clip window,
    the call returns a list of subtitles unless [max_words_per_line] is
    zero, and every subtitle it returns, after the merge pass, starts no
    earlier than the clip start, ends no later than the clip end and lasts
    at least half a second. *)
Theorem subtitles_within_clip_window (config : SubtitleGenerator.Config)
        (transcription_segments : list Segment) (clip_start clip_end : Q) :
  (SubtitleGenerator.max_words_per_line config <> 0%Z ->
   exists subtitles,
     SubtitleGenerator.generate_subtitles_for_clip
       config transcription_segments clip_start clip_end = Some subtitles)
  /\ forall subtitles,
       SubtitleGenerator.generate_subtitles_for_clip
         config transcription_segments clip_start clip_end = Some subtitles ->
       Forall (fun s => clip_start <= sub_start s
                        /\ sub_end s <= clip_end
                        /\ (1 # 2) <= sub_end s - sub_start s) subtitles.
Proof.
  split.
  - apply generate_subtitles_total.
  - intros subtitles H.
    apply (generate_subtitles_within config clip_start clip_end _ _ H).
Qed.

Lemma subtitles_within_clip_window_witness :
  Forall (fun s => (1 # 4) <= sub_start s /\ sub_end s <= (17 # 2)
                   /\ (1 # 2) <= sub_end s - sub_start s)
    [ mkSubtitle "This is amazing. It really is." (1 # 4) (20 # 4) true;
      mkSubtitle "Wow!" 7 (17 # 2) true ].
Proof.
  apply (subtitles_within_clip_window
           (SubtitleGenerator.mkConfig None None) Examples.scenario_segments
           (1 # 4) (17 # 2)).
  vm_compute. reflexivity.
Defined.

(** ** Clip assembly *)

Section ClipperProperties.

Import VideoClipper.

Variable encoder : Encoder.

Lemma ops_since_app w ops fs events :
  ops_since w {| w_fs := fs; w_ops := w_ops w ++ ops; w_events := events |} = ops.
Proof.
  unfold ops_since; simpl.
  rewrite skipn_app, skipn_all, Nat.sub_diag. reflexivity.
Qed.

Ltac unfold_clip :=
  unfold _create_clip_with_subtitle, create_clip_body, _try_create_cropped_clip,
    _create_simple_clip, burn_subtitles_into_clip, try_except, bind, ret, raise,
    emit, ffmpeg_run, replace, exists_, unlink, write_srt, lift_option, record_op,
    except_ffmpeg_Error, except_Exception.

Ltac case_step :=
  match goal with
  | |- context [enable_crop ?s] => destruct (enable_crop s) eqn:?
  | |- context [match ?segs with Some _ => _ | None => _ end] =>
      is_var segs; destruct segs as [[|? ?]|]
  | |- context [encoder (mkCall SourceVideo ?t ?f ?o)] =>
      destruct (encoder (mkCall SourceVideo t f o)) as [|[|]|] eqn:?
  | |- context [SubtitleGenerator.generate_subtitles_for_clip ?a ?b ?c ?d] =>
      destruct (SubtitleGenerator.generate_subtitles_for_clip a b c d)
        as [[|? ?]|] eqn:?
  | |- context [encoder ?c] => destruct (encoder c) as [|[|]|] eqn:?
  end.

Ltac norm := repeat (progress (simpl; rewrite ?Nat.eqb_refl)).

Ltac run_clip := unfold_clip; norm; repeat (case_step; norm).

Ltac leaf :=
  rewrite <- ?app_assoc; simpl;
  repeat match goal with
         | |- exists _, _ => eexists
         | |- _ /\ _ => split
         end;
  try reflexivity;
  intros;
  repeat match goal with
         | H : enable_crop _ = _ |- _ => rewrite H in *
         end;
  simpl in *;
  try contradiction; try congruence;
  repeat match goal with
         | H : Some _ = Some _ |- _ => injection H as <-
         end;
  try (split; [reflexivity|]);
  auto 6;
  try (repeat constructor; fail);
  try (unfold reports_failure_of; rewrite Exists_exists;
       eexists; split; [|eauto]; simpl; auto 8; fail).

(** What one run of [_create_clip_with_subtitle] does, whatever the world it
    starts in. *)
Lemma create_clip_facts self highlight n segs w :
  let '(r, w') := _create_clip_with_subtitle encoder self highlight n segs w in
  exists r0 d ev,
    r = Returned r0
    /\ w_ops w' = w_ops w ++ d
    /\ w_events w' = w_events w ++ ev
    /\ In (first_call self highlight n) (encoder_calls d)
    /\ (enable_crop self = true ->
        forall p, encoder (cropped_call self highlight n) = EncError p ->
        In (simple_call self highlight n) (encoder_calls d))
    /\ (r0 = None -> Exists (reports_failure_of n) ev)
    /\ (forall path, r0 = Some path ->
          path = FinalClip n
          /\ (encoder (first_call self highlight n) = EncOk
              \/ encoder (simple_call self highlight n) = EncOk))
    /\ (match segs with Some (_ :: _) => False | _ => True end ->
        Forall (fun c => is_burn c = false) (encoder_calls d)).
Proof.
  unfold first_call, cropped_call, simple_call.
  run_clip.
  all: leaf.
Qed.

Lemma encoder_calls_app ops1 ops2 :
  encoder_calls (ops1 ++ ops2) = encoder_calls ops1 ++ encoder_calls ops2.
Proof. unfold encoder_calls. apply flat_map_app. Qed.

(** What the loop of [create_clips] does from index [i] on. *)
Lemma create_clips_from_facts self total segs highlights : forall i clips w,
  let '(r, w') :=
    create_clips_from encoder self total i highlights segs clips w in
  exists clips' d ev,
    r = Returned (clips ++ clips')
    /\ w_ops w' = w_ops w ++ d
    /\ w_events w' = w_events w ++ ev
    /\ (forall j h, nth_error highlights j = Some h ->
        In (first_call self h (i + j + 1)%nat) (encoder_calls d)
        /\ (enable_crop self = true ->
            forall p, encoder (cropped_call self h (i + j + 1)%nat) = EncError p ->
            In (simple_call self h (i + j + 1)%nat) (encoder_calls d))
        /\ (encoder (first_call self h (i + j + 1)%nat) <> EncOk ->
            encoder (simple_call self h (i + j + 1)%nat) <> EncOk ->
            Exists (reports_failure_of (i + j + 1)%nat) ev))
    /\ (forall path, In path clips' ->
        exists j h,
          nth_error highlights j = Some h
          /\ path = FinalClip (i + j + 1)%nat
          /\ (encoder (first_call self h (i + j + 1)%nat) = EncOk
              \/ encoder (simple_call self h (i + j + 1)%nat) = EncOk))
    /\ (match (if Py.get (subtitle_enabled (config self)) true
               then segs else None) with
        | Some (_ :: _) => False
        | _ => True
        end ->
        Forall (fun c => is_burn c = false) (encoder_calls d)).
Proof.
  induction highlights as [|h rest IH]; intros i clips w.
  - simpl. exists [], [], []. rewrite !app_nil_r.
    repeat split; try reflexivity.
    + destruct j; discriminate.
    + destruct j; discriminate.
    + destruct j; discriminate.
    + intros path [].
    + constructor.
  - cbn [create_clips_from]. unfold bind at 1.
    pose proof (create_clip_facts self h (i + 1)%nat
                  (if Py.get (subtitle_enabled (config self)) true
                   then segs else None) w) as F.
    destruct (_create_clip_with_subtitle encoder self h (i + 1)%nat _ w)
      as [r1 w1].
    destruct F as (r0 & d1 & ev1 & -> & Hd1 & Hev1 & Hfirst & Hretry & Hfail
                   & Hpath & Hburn).
    assert (Hrest : forall clips1 (w2 : World),
               w_ops w2 = w_ops w1 ->
               (exists ev2, w_events w2 = w_events w1 ++ ev2) ->
               (forall path, In path clips1 -> r0 = Some path) ->
               let '(r, w') :=
                 create_clips_from encoder self total (S i) rest segs
                                   (clips ++ clips1) w2 in
               exists clips' d ev,
                 r = Returned (clips ++ clips')
                 /\ w_ops w' = w_ops w ++ d
                 /\ w_events w' = w_events w ++ ev
                 /\ (forall j h0, nth_error (h :: rest) j = Some h0 ->
                     In (first_call self h0 (i + j + 1)%nat) (encoder_calls d)
                     /\ (enable_crop self = true ->
                         forall p,
                           encoder (cropped_call self h0 (i + j + 1)%nat) = EncError p ->
                           In (simple_call self h0 (i + j + 1)%nat) (encoder_calls d))
                     /\ (encoder (first_call self h0 (i + j + 1)%nat) <> EncOk ->
                         encoder (simple_call self h0 (i + j + 1)%nat) <> EncOk ->
                         Exists (reports_failure_of (i + j + 1)%nat) ev))
                 /\ (forall path, In path clips' ->
                     exists j h0,
                       nth_error (h :: rest) j = Some h0
                       /\ path = FinalClip (i + j + 1)%nat
                       /\ (encoder (first_call self h0 (i + j + 1)%nat) = EncOk
                           \/ encoder (simple_call self h0 (i + j + 1)%nat) = EncOk))
                 /\ (match (if Py.get (subtitle_enabled (config self)) true
                            then segs else None) with
                     | Some (_ :: _) => False
                     | _ => True
                     end ->
                     Forall (fun c => is_burn c = false) (encoder_calls d))).
    { intros clips1 w2 Hops2 [ev2 Hev2] Hclips1.
      specialize (IH (S i) (clips ++ clips1) w2).
      destruct (create_clips_from encoder self total (S i) rest segs
                                  (clips ++ clips1) w2) as [r w'].
      destruct IH as (clips' & d & ev & -> & Hd & Hev & Hall & Hin & Hnb).
      exists (clips1 ++ clips'), (d1 ++ d), (ev1 ++ ev2 ++ ev).
      rewrite Hd, Hops2, Hd1, Hev, Hev2, Hev1, <- !app_assoc.
      repeat split; try reflexivity.
      - destruct j as [|j]; simpl in H.
        + injection H as <-. rewrite Nat.add_0_r, encoder_calls_app.
          apply in_or_app. left. exact Hfirst.
        + replace (i + S j + 1)%nat with (S i + j + 1)%nat by lia.
          rewrite encoder_calls_app. apply in_or_app. right.
          exact (proj1 (Hall j h0 H)).
      - intros Hc p Hp. destruct j as [|j]; simpl in H.
        + injection H as <-. rewrite Nat.add_0_r in *. rewrite encoder_calls_app.
          apply in_or_app. left. apply (Hretry Hc p Hp).
        + replace (i + S j + 1)%nat with (S i + j + 1)%nat in * by lia.
          rewrite encoder_calls_app. apply in_or_app. right.
          exact (proj1 (proj2 (Hall j h0 H)) Hc p Hp).
      - intros Hp Hq. destruct j as [|j]; simpl in H.
        + injection H as <-. rewrite Nat.add_0_r in *.
          apply Exists_app. left. apply Hfail.
          destruct r0 as [path|]; [|reflexivity].
          destruct (Hpath path eq_refl) as [_ [Hok|Hok]]; contradiction.
        + replace (i + S j + 1)%nat with (S i + j + 1)%nat in * by lia.
          apply Exists_app. right. apply Exists_app. right.
          exact (proj2 (proj2 (Hall j h0 H)) Hp Hq).
      - intros path Hp. apply in_app_or in Hp. destruct Hp as [Hp|Hp].
        + exists 0%nat, h. rewrite Nat.add_0_r.
          destruct (Hpath path (Hclips1 path Hp)) as [-> Hok].
          split; [reflexivity|]. split; [reflexivity | exact Hok].
        + destruct (Hin path Hp) as (j & h0 & Hj & -> & Hok).
          exists (S j), h0.
          replace (i + S j + 1)%nat with (S i + j + 1)%nat by lia.
          split; [exact Hj|]. split; [reflexivity | exact Hok].
      - intros Hnone. rewrite encoder_calls_app. apply Forall_app.
        split; [apply Hburn; exact Hnone | apply Hnb; exact Hnone]. }
    destruct r0 as [path|].
    + unfold bind, emit, ret; simpl.
      apply (Hrest [path]).
      * reflexivity.
      * simpl. rewrite <- app_assoc. eexists. reflexivity.
      * intros p [<-|[]]. reflexivity.
    + unfold bind, emit, ret; simpl.
      match goal with
      | |- context [create_clips_from _ _ _ _ _ _ _ ?w2] =>
          specialize (Hrest [] w2)
      end.
      rewrite app_nil_r in Hrest. apply Hrest.
      * reflexivity.
      * eexists. reflexivity.
      * intros p [].
Qed.

Lemma ops_since_extends w w' d :
  w_ops w' = w_ops w ++ d -> ops_since w w' = d.
Proof.
  intros H. unfold ops_since. rewrite H.
  rewrite skipn_app, skipn_all, Nat.sub_diag. reflexivity.
Qed.

Lemma events_since_extends w w' ev :
  w_events w' = w_events w ++ ev -> events_since w w' = ev.
Proof.
  intros H. unfold events_since. rewrite H.
  rewrite skipn_app, skipn_all, Nat.sub_diag. reflexivity.
Qed.

(** One run of [_create_clip_with_subtitle] whose crop attempt ends in an
    exception other than the encoder's own error. *)
Lemma create_clip_other_exception self highlight n segs w :
  let '(r, w') := _create_clip_with_subtitle encoder self highlight n segs w in
  exists r0 d ev,
    r = Returned r0
    /\ w_ops w' = w_ops w ++ d
    /\ w_events w' = w_events w ++ ev
    /\ Forall (fun c => path_number (ec_output c) = n) (encoder_calls d)
    /\ (forall path, r0 = Some path -> path = FinalClip n)
    /\ (enable_crop self = true ->
        encoder (cropped_call self highlight n) = EncCrash ->
        encoder_calls d = [cropped_call self highlight n]
        /\ r0 = None
        /\ In (EvError (ClipCreationError n)) ev).
Proof.
  unfold cropped_call.
  run_clip.
  all: rewrite <- ?app_assoc; simpl.
  all: eexists; eexists; eexists.
  all: split; [reflexivity|]; split; [reflexivity|]; split; [reflexivity|].
  all: simpl; split; [repeat constructor|].
  all: split; [intros path Hpath; congruence|].
  all: intros Hc Hcrash; try congruence.
  all: split; [reflexivity|]; split; [reflexivity|]; simpl; auto.
Qed.

(** The loop of [create_clips] when a crop attempt ends in such an
    exception. *)
Lemma create_clips_from_other_exception self total segs highlights :
  forall i clips w,
  let '(r, w') :=
    create_clips_from encoder self total i highlights segs clips w in
  exists clips' d ev,
    r = Returned (clips ++ clips')
    /\ w_ops w' = w_ops w ++ d
    /\ w_events w' = w_events w ++ ev
    /\ Forall (fun c => (i < path_number (ec_output c))%nat) (encoder_calls d)
    /\ Forall (fun path => (i < path_number path)%nat) clips'
    /\ (forall j h, nth_error highlights j = Some h ->
        enable_crop self = true ->
        encoder (cropped_call self h (i + j + 1)%nat) = EncCrash ->
        Forall (fun c => path_number (ec_output c) = (i + j + 1)%nat ->
                         c = cropped_call self h (i + j + 1)%nat)
               (encoder_calls d)
        /\ ~ In (FinalClip (i + j + 1)%nat) clips'
        /\ In (EvError (ClipCreationError (i + j + 1)%nat)) ev).
Proof.
  induction highlights as [|h rest IH]; intros i clips w.
  - simpl. exists [], [], []. rewrite !app_nil_r.
    split; [reflexivity|]. split; [reflexivity|]. split; [reflexivity|].
    split; [constructor|]. split; [constructor|].
    intros j h Hj. destruct j; discriminate.
  - cbn [create_clips_from]. unfold bind at 1.
    pose proof (create_clip_other_exception self h (i + 1)%nat
                  (if Py.get (subtitle_enabled (config self)) true
                   then segs else None) w) as F.
    destruct (_create_clip_with_subtitle encoder self h (i + 1)%nat _ w)
      as [r1 w1].
    destruct F as (r0 & d1 & ev1 & -> & Hd1 & Hev1 & Hnum & Hpath & Hcrash).
    assert (Hrest : forall clips1 (w2 : World),
               w_ops w2 = w_ops w1 ->
               (exists ev2, w_events w2 = w_events w1 ++ ev2) ->
               (forall path, In path clips1 -> r0 = Some path) ->
               let '(r, w') :=
                 create_clips_from encoder self total (S i) rest segs
                                   (clips ++ clips1) w2 in
               exists clips' d ev,
                 r = Returned (clips ++ clips')
                 /\ w_ops w' = w_ops w ++ d
                 /\ w_events w' = w_events w ++ ev
                 /\ Forall (fun c => (i < path_number (ec_output c))%nat)
                           (encoder_calls d)
                 /\ Forall (fun path => (i < path_number path)%nat) clips'
                 /\ (forall j h0, nth_error (h :: rest) j = Some h0 ->
                     enable_crop self = true ->
                     encoder (cropped_call self h0 (i + j + 1)%nat) = EncCrash ->
                     Forall (fun c => path_number (ec_output c) = (i + j + 1)%nat ->
                                      c = cropped_call self h0 (i + j + 1)%nat)
                            (encoder_calls d)
                     /\ ~ In (FinalClip (i + j + 1)%nat) clips'
                     /\ In (EvError (ClipCreationError (i + j + 1)%nat)) ev)).
    { intros clips1 w2 Hops2 [ev2 Hev2] Hclips1.
      specialize (IH (S i) (clips ++ clips1) w2).
      destruct (create_clips_from encoder self total (S i) rest segs
                                  (clips ++ clips1) w2) as [r w'].
      destruct IH as (clips' & d & ev & -> & Hd & Hev & Hnums & Hpaths & Hall).
      exists (clips1 ++ clips'), (d1 ++ d), (ev1 ++ ev2 ++ ev).
      rewrite Hd, Hops2, Hd1, Hev, Hev2, Hev1, <- !app_assoc.
      split; [reflexivity|]. split; [reflexivity|]. split; [reflexivity|].
      assert (Hclips1' : Forall (fun path => path = FinalClip (i + 1)%nat) clips1).
      { apply Forall_forall. intros path Hp. apply Hpath, Hclips1, Hp. }
      split.
      { rewrite encoder_calls_app. apply Forall_app. split.
        - eapply Forall_impl; [|exact Hnum]. intros c Hc. simpl in Hc. lia.
        - eapply Forall_impl; [|exact Hnums]. intros c Hc. simpl in Hc. lia. }
      split.
      { apply Forall_app. split.
        - eapply Forall_impl; [|exact Hclips1']. intros path ->. simpl. lia.
        - eapply Forall_impl; [|exact Hpaths]. intros path Hp. simpl in Hp. lia. }
      intros j h0 Hj Hc Hx. destruct j as [|j]; simpl in Hj.
      - injection Hj as <-. rewrite Nat.add_0_r in *.
        destruct (Hcrash Hc Hx) as (Hcalls & Hnone & Hev0).
        split; [|split].
        + rewrite encoder_calls_app, Hcalls. simpl. constructor.
          * intros _. reflexivity.
          * eapply Forall_impl; [|exact Hnums].
            intros c Hn Hout. simpl in *. lia.
        + intros Hin. apply in_app_or in Hin. destruct Hin as [Hin|Hin].
          * rewrite Hnone in Hclips1. specialize (Hclips1 _ Hin). discriminate.
          * rewrite Forall_forall in Hpaths. specialize (Hpaths _ Hin).
            simpl in Hpaths. lia.
        + apply in_or_app. left. exact Hev0.
      - replace (i + S j + 1)%nat with (S i + j + 1)%nat in * by lia.
        destruct (Hall j h0 Hj Hc Hx) as (Hcalls & Hnot & Hev0).
        split; [|split].
        + rewrite encoder_calls_app. apply Forall_app. split; [|exact Hcalls].
          eapply Forall_impl; [|exact Hnum].
          intros c Hn Hout. simpl in *. lia.
        + intros Hin. apply in_app_or in Hin. destruct Hin as [Hin|Hin].
          * rewrite Forall_forall in Hclips1'. specialize (Hclips1' _ Hin).
            injection Hclips1' as Hk. lia.
          * exact (Hnot Hin).
        + apply in_or_app. right. apply in_or_app. right. exact Hev0. }
    destruct r0 as [path|].
    + unfold bind, emit, ret; simpl.
      apply (Hrest [path]).
      * reflexivity.
      * simpl. rewrite <- app_assoc. eexists. reflexivity.
      * intros p [<-|[]]. reflexivity.
    + unfold bind, emit, ret; simpl.
      match goal with
      | |- context [create_clips_from _ _ _ _ _ _ _ ?w2] =>
          specialize (Hrest [] w2)
      end.
      rewrite app_nil_r in Hrest. apply Hrest.
      * reflexivity.
      * eexists. reflexivity.
      * intros p [].
Qed.

(** C2 (crop fallback, per-item failure), on the code.  A run of
    [create_clips] always returns its list of clips, and makes the first
    encoder attempt for every highlight of its input, whatever happened to
    the ones before.  For each highlight, with cropping enabled: when the
    cropped encode ends in the encoder's own error, the encoder is invoked
    again with no filter, on the same trim window and the same temp output.
    But when the crop attempt ends in any other exception, nothing is
    retried: the cropped call is the only encoder call made for the clip,
    the clip's path is not returned and a clip creation error is emitted,
    whether or not the uncropped encode would have succeeded.  When no
    attempt succeeds, the returned list does not hold the clip's path and
    an error record for the clip was emitted. *)
Theorem crop_retry_only_after_encoder_error
        (self : Clipper) (highlights : list Highlight)
        (transcription_segments : option (list Segment)) (w : World) :
  let run := create_clips encoder self highlights transcription_segments w in
  let calls := encoder_calls (ops_since w (snd run)) in
  exists clips,
    fst run = Returned clips
    /\ forall i h, nth_error highlights i = Some h ->
         let n := (i + 1)%nat in
         In (first_call self h n) calls
         /\ (enable_crop self = true ->
             forall p, encoder (cropped_call self h n) = EncError p ->
             In (simple_call self h n) calls
             /\ ec_trim (simple_call self h n) = ec_trim (cropped_call self h n)
             /\ ec_output (simple_call self h n) = ec_output (cropped_call self h n)
             /\ ec_filter (simple_call self h n) = NoFilter)
         /\ (enable_crop self = true ->
             encoder (cropped_call self h n) = EncCrash ->
             ~ In (simple_call self h n) calls
             /\ Forall (fun c => path_number (ec_output c) = n ->
                                 c = cropped_call self h n) calls
             /\ ~ In (FinalClip n) clips
             /\ In (EvError (ClipCreationError n))
                   (events_since w (snd run)))
         /\ (encoder (first_call self h n) <> EncOk ->
             encoder (simple_call self h n) <> EncOk ->
             ~ In (FinalClip n) clips
             /\ Exists (reports_failure_of n) (events_since w (snd run))).
Proof.
  intros run calls. subst calls run. unfold create_clips.
  pose proof (create_clips_from_facts self (length highlights)
                transcription_segments highlights 0 [] w) as F.
  pose proof (create_clips_from_other_exception self (length highlights)
                transcription_segments highlights 0 [] w) as G.
  destruct (create_clips_from encoder self (length highlights) 0 highlights
                              transcription_segments [] w) as [r w'].
  destruct F as (clips & d & ev & -> & Hd & Hev & Hall & Hin & _).
  destruct G as (clips2 & d2 & ev2 & Hr & Hd2 & Hev2 & _ & _ & Hother).
  injection Hr as Hr. simpl in Hr. subst clips2.
  rewrite Hd in Hd2. apply app_inv_head in Hd2. subst d2.
  rewrite Hev in Hev2. apply app_inv_head in Hev2. subst ev2.
  simpl. rewrite (ops_since_extends _ _ _ Hd), (events_since_extends _ _ _ Hev).
  exists clips. split; [reflexivity|].
  intros i h Hi. destruct (Hall i h Hi) as (Hfirst & Hretry & Hfail).
  simpl in Hfirst, Hretry, Hfail.
  split; [exact Hfirst|]. split; [|split].
  - intros Hc p Hp. split; [exact (Hretry Hc p Hp)|]. repeat split.
  - intros Hc Hx. destruct (Hother i h Hi Hc Hx) as (Hcalls & Hnot & Hev0).
    simpl in Hcalls, Hnot, Hev0.
    split; [|split; [|split]]; try assumption.
    intros Hs. rewrite Forall_forall in Hcalls.
    specialize (Hcalls _ Hs eq_refl). discriminate Hcalls.
  - intros Hp Hq. split; [|exact (Hfail Hp Hq)].
    intros Habs. destruct (Hin _ Habs) as (j & h' & Hj & Heq & Hok).
    injection Heq as Heq. assert (j = i) by lia. subst j.
    rewrite Hi in Hj. injection Hj as <-.
    simpl in Hok. destruct Hok; contradiction.
Qed.

(** C10 (trim window).  Every time the clipper has the encoder cut a clip
    from the source video, and it does so at least once per highlight, the
    trim starts at the highlight's start and lasts the smaller of the
    highlight's length and [clip_duration], 30 seconds when not set. *)
Theorem base_encodes_use_trim_window
        (self : Clipper) (highlight : Highlight) (clip_number : nat)
        (transcription_segments : option (list Segment)) (w : World) :
  let run :=
    _create_clip_with_subtitle encoder self highlight clip_number
                               transcription_segments w in
  let base :=
    filter is_base_encode (encoder_calls (ops_since w (snd run))) in
  base <> []
  /\ Forall (fun c =>
               ec_trim c =
               Some (h_start highlight,
                     Py.min (h_end highlight - h_start highlight)
                            (Py.get (clip_duration (config self)) 30)))
            base.
Proof.
  intros run base. subst base run.
  run_clip.
  all: rewrite <- ?app_assoc, ?ops_since_app; simpl.
  all: split; [discriminate | repeat constructor].
Qed.

(** C5, as amended.  The encodes that cut the clip from the source write
    only to the temp name, and the one other encoder call there can be is
    the subtitle burn, from the temp file straight to the final path.  A run
    ends in one of three ways: it returns the final path, which then holds a
    complete file put there by renaming the temp file, no burn having
    succeeded; or it returns the final path, which holds the complete file
    the burn wrote there directly, with no rename; or it returns nothing,
    having renamed nothing and left the final path as it found it.  When a
    path is returned the temp file is gone. *)
Theorem clip_promotion_and_outcome
        (self : Clipper) (highlight : Highlight) (n : nat)
        (transcription_segments : option (list Segment)) (w : World) :
  let run :=
    _create_clip_with_subtitle encoder self highlight n
                               transcription_segments w in
  let w' := snd run in
  let ops := ops_since w w' in
  Forall (fun c =>
            if is_base_encode c then ec_output c = TempClip n
            else exists subtitles, c = burn_call n subtitles)
         (encoder_calls ops)
  /\ ((fst run = Returned (Some (FinalClip n))
       /\ w_fs w' (FinalClip n) = Complete
       /\ w_fs w' (TempClip n) = Absent
       /\ In (Rename (TempClip n) (FinalClip n)) ops
       /\ forall subtitles, ~ In (Encode (burn_call n subtitles) EncOk) ops)
      \/ (fst run = Returned (Some (FinalClip n))
          /\ w_fs w' (FinalClip n) = Complete
          /\ w_fs w' (TempClip n) = Absent
          /\ existsb (is_rename_to (FinalClip n)) ops = false
          /\ exists subtitles, In (Encode (burn_call n subtitles) EncOk) ops)
      \/ (fst run = Returned None
          /\ w_fs w' (FinalClip n) = w_fs w (FinalClip n)
          /\ existsb (is_rename_to (FinalClip n)) ops = false)).
Proof.
  intros run w' ops. subst ops w' run. unfold burn_call.
  run_clip.
  all: rewrite <- ?app_assoc, ?ops_since_app; simpl.
  all: rewrite ?Nat.eqb_refl; simpl.
  all: split.
  all: try (repeat (constructor; simpl); try (eexists; reflexivity); fail).
  all: try (left; repeat split; auto 10;
              intros subs Hin; simpl in Hin; intuition congruence).
  all: try (right; left; repeat split; auto; eexists; simpl; eauto 6; fail).
  all: try (right; right; repeat split; auto;
              unfold ops_since; simpl; rewrite ?skipn_all; reflexivity).
Qed.

(** With segments at hand and phrases in the window, a failed burn does not
    cost the clip: the temp file is renamed to the final path. *)
Lemma burn_failure_promotes_temp
      (self : Clipper) (highlight : Highlight) (n : nat)
      (segment : Segment) (segments : list Segment)
      (subtitle : Subtitle) (subtitles : list Subtitle) (p : bool) (w : World) :
  encoder (first_call self highlight n) = EncOk ->
  SubtitleGenerator.generate_subtitles_for_clip
    (VideoClipper.subtitle (config self)) (segment :: segments)
    (h_start highlight) (h_start highlight + trim_duration self highlight)
  = Some (subtitle :: subtitles) ->
  encoder (burn_call n (subtitle :: subtitles)) = EncError p ->
  let run :=
    _create_clip_with_subtitle encoder self highlight n
                               (Some (segment :: segments)) w in
  fst run = Returned (Some (FinalClip n))
  /\ w_fs (snd run) (FinalClip n) = Complete
  /\ In (Encode (burn_call n (subtitle :: subtitles)) (EncError p))
        (ops_since w (snd run))
  /\ In (Rename (TempClip n) (FinalClip n)) (ops_since w (snd run)).
Proof.
  intros Hfirst Hgen Hburn run. subst run.
  unfold first_call, cropped_call, simple_call, burn_call in *.
  unfold_clip. norm. rewrite Hgen.
  destruct (enable_crop self); rewrite Hfirst; norm; rewrite Hburn;
    destruct p; norm;
    rewrite <- ?app_assoc, ?ops_since_app; simpl; auto 10.
Qed.

(** *** Files, gates and the all-success run *)

(** What one run of [_create_clip_with_subtitle] leaves on disk. *)
Lemma create_clip_files self highlight n segs w :
  let '(r, w') := _create_clip_with_subtitle encoder self highlight n segs w in
  (forall p, path_number p <> n -> w_fs w' p = w_fs w p)
  /\ (forall path, r = Returned (Some path) ->
        w_fs w' (FinalClip n) = Complete /\ w_fs w' (TempClip n) = Absent).
Proof.
  run_clip.
  all: split;
    [ intros p Hp; destruct p; simpl in *;
      rewrite ?(proj2 (Nat.eqb_neq _ _) Hp); reflexivity
    | intros path Hpath; try discriminate; simpl;
      rewrite ?Nat.eqb_refl; split; reflexivity ].
Qed.

Lemma create_clip_without_crop self highlight n segs w :
  enable_crop self = false ->
  let '(r, w') := _create_clip_with_subtitle encoder self highlight n segs w in
  exists d, w_ops w' = w_ops w ++ d /\ Forall uncropped d.
Proof.
  intros Hc. unfold_clip. rewrite Hc. norm. repeat (case_step; norm).
  all: eexists; split; [rewrite <- ?app_assoc; reflexivity|].
  all: repeat (constructor; [simpl; try exact I; discriminate|]); constructor.
Qed.

Lemma create_clip_without_transcript self highlight n w :
  let '(r, w') := _create_clip_with_subtitle encoder self highlight n None w in
  exists d, w_ops w' = w_ops w ++ d /\ Forall untitled d.
Proof.
  run_clip.
  all: eexists; split; [rewrite <- ?app_assoc; reflexivity|].
  all: repeat (constructor; [simpl; try exact I; reflexivity|]); constructor.
Qed.

Lemma create_clip_succeeds self highlight n segs w :
  (forall call, encoder call = EncOk) ->
  SubtitleGenerator.max_words_per_line (subtitle (config self)) <> 0%Z ->
  fst (_create_clip_with_subtitle encoder self highlight n segs w)
  = Returned (Some (FinalClip n)).
Proof.
  intros Henc Hm. unfold_clip.
  destruct (enable_crop self); destruct segs as [[|s l]|];
    rewrite ?Henc; norm;
    try match goal with
        | |- context [SubtitleGenerator.generate_subtitles_for_clip ?a ?b ?c ?d] =>
            destruct (generate_subtitles_total a c d b Hm) as [[|sub subs] ->]
        end;
    norm; rewrite ?Henc; norm; reflexivity.
Qed.

(** The loop of [create_clips] keeps a property that every single clip
    keeps. *)
Lemma create_clips_from_ops (P : FsOp -> Prop) self total segs highlights :
  (forall h n w,
     let '(r, w') :=
       _create_clip_with_subtitle encoder self h n
         (if Py.get (subtitle_enabled (config self)) true then segs else None) w in
     exists d, w_ops w' = w_ops w ++ d /\ Forall P d) ->
  forall i clips w,
    let '(r, w') :=
      create_clips_from encoder self total i highlights segs clips w in
    exists d, w_ops w' = w_ops w ++ d /\ Forall P d.
Proof.
  intros Hone.
  induction highlights as [|h rest IH]; intros i clips w.
  - simpl. exists []. rewrite app_nil_r. split; [reflexivity | constructor].
  - cbn [create_clips_from]. unfold bind at 1.
    pose proof (Hone h (i + 1)%nat w) as F.
    pose proof (create_clip_facts self h (i + 1)%nat
                  (if Py.get (subtitle_enabled (config self)) true
                   then segs else None) w) as G.
    destruct (_create_clip_with_subtitle encoder self h (i + 1)%nat _ w)
      as [r1 w1].
    destruct F as (d1 & Hd1 & HP1).
    destruct G as (r0 & _ & _ & -> & _).
    assert (Hrest : forall clips1 (w2 : World),
               w_ops w2 = w_ops w1 ->
               let '(r, w') :=
                 create_clips_from encoder self total (S i) rest segs clips1 w2 in
               exists d, w_ops w' = w_ops w ++ d /\ Forall P d).
    { intros clips1 w2 Hops2. specialize (IH (S i) clips1 w2).
      destruct (create_clips_from encoder self total (S i) rest segs clips1 w2)
        as [r w'].
      destruct IH as (d & Hd & HP). exists (d1 ++ d).
      rewrite Hd, Hops2, Hd1, <- app_assoc.
      split; [reflexivity | apply Forall_app; split; assumption]. }
    destruct r0 as [path|]; unfold bind, emit, ret; simpl;
      apply Hrest; reflexivity.
Qed.

(** The files the loop of [create_clips] leaves, from index [i] on. *)
Lemma create_clips_from_files self total segs highlights : forall i clips w,
  let '(r, w') := create_clips_from encoder self total i highlights segs clips w in
  exists clips',
    r = Returned (clips ++ clips')
    /\ (length clips' <= length highlights)%nat
    /\ (forall p, (path_number p <= i)%nat
                  \/ (i + length highlights < path_number p)%nat ->
                  w_fs w' p = w_fs w p)
    /\ Forall (fun path =>
                 exists k, path = FinalClip k
                           /\ (i < k <= i + length highlights)%nat
                           /\ w_fs w' (FinalClip k) = Complete
                           /\ w_fs w' (TempClip k) = Absent)
              clips'
    /\ StronglySorted (fun a b => (path_number a < path_number b)%nat) clips'.
Proof.
  induction highlights as [|h rest IH]; intros i clips w.
  - simpl. exists []. rewrite app_nil_r.
    split; [reflexivity|]. split; [simpl; lia|]. split; [reflexivity|].
    split; constructor.
  - cbn [create_clips_from]. unfold bind at 1.
    pose proof (create_clip_files self h (i + 1)%nat
                  (if Py.get (subtitle_enabled (config self)) true
                   then segs else None) w) as F.
    pose proof (create_clip_facts self h (i + 1)%nat
                  (if Py.get (subtitle_enabled (config self)) true
                   then segs else None) w) as G.
    destruct (_create_clip_with_subtitle encoder self h (i + 1)%nat _ w)
      as [r1 w1].
    destruct F as (Hframe & Hdone).
    destruct G as (r0 & _ & _ & -> & _ & _ & _ & _ & _ & Hpath & _).
    assert (Hrest : forall clips1 (w2 : World),
               w_fs w2 = w_fs w1 ->
               (clips1 = [] \/ clips1 = [FinalClip (i + 1)%nat]
                               /\ r0 = Some (FinalClip (i + 1)%nat)) ->
               let '(r, w') :=
                 create_clips_from encoder self total (S i) rest segs
                                   (clips ++ clips1) w2 in
               exists clips',
                 r = Returned (clips ++ clips')
                 /\ (length clips' <= length (h :: rest))%nat
                 /\ (forall p, (path_number p <= i)%nat
                               \/ (i + length (h :: rest) < path_number p)%nat ->
                               w_fs w' p = w_fs w p)
                 /\ Forall (fun path =>
                              exists k, path = FinalClip k
                                        /\ (i < k <= i + length (h :: rest))%nat
                                        /\ w_fs w' (FinalClip k) = Complete
                                        /\ w_fs w' (TempClip k) = Absent)
                           clips'
                 /\ StronglySorted
                      (fun a b => (path_number a < path_number b)%nat) clips').
    { intros clips1 w2 Hfs2 Hclips1.
      specialize (IH (S i) (clips ++ clips1) w2).
      destruct (create_clips_from encoder self total (S i) rest segs
                                  (clips ++ clips1) w2) as [r w'].
      destruct IH as (clips' & -> & Hlen & Hout & Hall & Hsorted).
      exists (clips1 ++ clips'). rewrite <- app_assoc.
      split; [reflexivity|].
      assert (Hall' : Forall (fun path =>
                 exists k, path = FinalClip k
                           /\ (i + 1 < k <= i + length (h :: rest))%nat
                           /\ w_fs w' (FinalClip k) = Complete
                           /\ w_fs w' (TempClip k) = Absent) clips').
      { eapply Forall_impl; [|exact Hall].
        intros path (k & -> & Hk & Hc & Ha). exists k. simpl.
        repeat split; try assumption; simpl in *; lia. }
      split.
      { rewrite length_app. simpl.
        destruct Hclips1 as [->|[-> _]]; simpl; lia. }
      split.
      { intros p Hp. rewrite Hout, Hfs2.
        - apply Hframe. simpl in Hp. lia.
        - simpl in Hp. lia. }
      destruct Hclips1 as [->|[-> Hr0]]; simpl.
      - split; [|exact Hsorted].
        eapply Forall_impl; [|exact Hall'].
        intros path (k & -> & Hk & Hc & Ha). exists k.
        repeat split; try assumption; simpl in *; lia.
      - destruct (Hdone _ (f_equal Returned Hr0)) as [Hc1 Ha1].
        split.
        + constructor.
          * exists (i + 1)%nat. split; [reflexivity|].
            split; [simpl; lia|].
            rewrite !Hout, Hfs2 by (left; simpl; lia).
            split; assumption.
          * eapply Forall_impl; [|exact Hall'].
            intros path (k & -> & Hk & Hc & Ha). exists k.
            repeat split; try assumption; simpl in *; lia.
        + constructor; [exact Hsorted|].
          eapply Forall_impl; [|exact Hall'].
          intros path (k & -> & Hk & _). simpl in *. lia. }
    destruct r0 as [path|].
    + destruct (Hpath path eq_refl) as [-> _].
      unfold bind, emit, ret; simpl.
      apply (Hrest [FinalClip (i + 1)%nat]); [reflexivity|].
      right. split; reflexivity.
    + unfold bind, emit, ret; simpl.
      match goal with
      | |- context [create_clips_from _ _ _ _ _ _ _ ?w2] =>
          specialize (Hrest [] w2)
      end.
      rewrite app_nil_r in Hrest. apply Hrest; [reflexivity|]. left. reflexivity.
Qed.

Lemma create_clips_from_succeeds self total segs highlights :
  (forall call, encoder call = EncOk) ->
  SubtitleGenerator.max_words_per_line (subtitle (config self)) <> 0%Z ->
  forall i clips w,
    fst (create_clips_from encoder self total i highlights segs clips w)
    = Returned (clips ++ map FinalClip (seq (S i) (length highlights))).
Proof.
  intros Henc Hm.
  induction highlights as [|h rest IH]; intros i clips w.
  - simpl. rewrite app_nil_r. reflexivity.
  - cbn [create_clips_from]. unfold bind at 1.
    pose proof (create_clip_succeeds self h (i + 1)%nat
                  (if Py.get (subtitle_enabled (config self)) true
                   then segs else None) w Henc Hm) as F.
    destruct (_create_clip_with_subtitle encoder self h (i + 1)%nat _ w)
      as [r1 w1].
    simpl in F. subst r1. unfold bind, emit, ret; simpl.
    rewrite IH, <- app_assoc. simpl.
    replace (i + 1)%nat with (S i) by lia. reflexivity.
Qed.

Lemma create_clips_from_without_subtitles self total segs highlights :
  subtitle_enabled (config self) = Some false ->
  forall i clips w,
    create_clips_from encoder self total i highlights segs clips w
    = create_clips_from encoder self total i highlights None clips w.
Proof.
  intros Hoff.
  induction highlights as [|h rest IH]; intros i clips w; [reflexivity|].
  cbn [create_clips_from]. rewrite Hoff. cbn [Py.get]. unfold bind.
  destruct (_create_clip_with_subtitle encoder self h (i + 1)%nat None w)
    as [[[path|]|e] w1]; try reflexivity;
    unfold emit, ret; simpl; apply IH.
Qed.

Lemma encoder_calls_Forall (P : EncoderCall -> Prop) (Q : FsOp -> Prop) ops :
  (forall call outcome, Q (Encode call outcome) -> P call) ->
  Forall Q ops -> Forall P (encoder_calls ops).
Proof.
  intros HQ H. induction H as [|op ops Hop _ IH]; [constructor|].
  destruct op; simpl; try exact IH.
  constructor; [apply (HQ _ _ Hop) | exact IH].
Qed.

(** Every path [create_clips] returns names a finished file whose
    temporary file is gone when the run ends.  The returned paths are final
    clip names with increasing numbers between one and the number of
    highlights, so there are no duplicates and at most one clip per
    highlight; and no file of a clip number outside that range is touched. *)
Theorem returned_clips_are_finished_files
        (self : Clipper) (highlights : list Highlight)
        (transcription_segments : option (list Segment)) (w : World) :
  let run := create_clips encoder self highlights transcription_segments w in
  exists clips,
    fst run = Returned clips
    /\ (length clips <= length highlights)%nat
    /\ Forall (fun path =>
                 exists k, path = FinalClip k
                           /\ (1 <= k <= length highlights)%nat
                           /\ w_fs (snd run) path = Complete
                           /\ w_fs (snd run) (TempClip k) = Absent)
              clips
    /\ StronglySorted (fun a b => (path_number a < path_number b)%nat) clips
    /\ (forall p, path_number p = 0%nat
                  \/ (length highlights < path_number p)%nat ->
                  w_fs (snd run) p = w_fs w p).
Proof.
  intros run. subst run. unfold create_clips.
  pose proof (create_clips_from_files self (length highlights)
                transcription_segments highlights 0 [] w) as F.
  destruct (create_clips_from encoder self (length highlights) 0 highlights
                              transcription_segments [] w) as [r w'].
  destruct F as (clips & -> & Hlen & Hout & Hall & Hsorted).
  exists clips. simpl.
  split; [reflexivity|]. split; [exact Hlen|]. split.
  - eapply Forall_impl; [|exact Hall].
    intros path (k & -> & Hk & Hc & Ha). exists k.
    repeat split; try assumption; simpl in *; lia.
  - split; [exact Hsorted|]. intros p Hp. apply Hout. simpl. lia.
Qed.

(** With cropping disabled no encoder call of a run carries the crop
    filter. *)
Theorem crop_disabled_never_crops
        (self : Clipper) (highlights : list Highlight)
        (transcription_segments : option (list Segment)) (w : World) :
  enable_crop self = false ->
  let run := create_clips encoder self highlights transcription_segments w in
  Forall (fun call => ec_filter call <> CropScalePad)
         (encoder_calls (ops_since w (snd run))).
Proof.
  intros Hc run. subst run. unfold create_clips.
  pose proof (create_clips_from_ops uncropped self (length highlights)
                transcription_segments highlights
                (fun h n w0 => create_clip_without_crop self h n _ w0 Hc)
                0 [] w) as F.
  destruct (create_clips_from encoder self (length highlights) 0 highlights
                              transcription_segments [] w) as [r w'].
  destruct F as (d & Hd & HP). simpl.
  rewrite (ops_since_extends w w' d Hd).
  apply (encoder_calls_Forall _ uncropped); [|exact HP].
  intros call outcome H. exact H.
Qed.

(** With subtitles disabled in the configuration the transcript handed to
    [create_clips] is ignored: the run is the one made without a transcript,
    it burns no subtitles and writes no subtitle file. *)
Theorem subtitles_disabled_ignores_transcript
        (self : Clipper) (highlights : list Highlight)
        (transcription_segments : option (list Segment)) (w : World) :
  subtitle_enabled (config self) = Some false ->
  let run := create_clips encoder self highlights transcription_segments w in
  run = create_clips encoder self highlights None w
  /\ Forall (fun op =>
               match op with
               | Encode call _ => is_burn call = false
               | WriteSrt _ => False
               | _ => True
               end)
            (ops_since w (snd run)).
Proof.
  intros Hoff run. subst run. unfold create_clips. split.
  - apply (create_clips_from_without_subtitles self _ _ _ Hoff).
  - assert (Hone : forall h n w0,
               let '(r, w') :=
                 _create_clip_with_subtitle encoder self h n
                   (if Py.get (subtitle_enabled (config self)) true
                    then transcription_segments else None) w0 in
               exists d, w_ops w' = w_ops w0 ++ d /\ Forall untitled d).
    { intros h n w0. rewrite Hoff. simpl.
      apply create_clip_without_transcript. }
    pose proof (create_clips_from_ops untitled self (length highlights)
                  transcription_segments highlights Hone 0 [] w) as F.
    destruct (create_clips_from encoder self (length highlights) 0 highlights
                                transcription_segments [] w) as [r w'].
    destruct F as (d & Hd & HP). simpl.
    rewrite (ops_since_extends w w' d Hd). exact HP.
Qed.

(** When every encoder call succeeds and [max_words_per_line] is not zero,
    [create_clips] returns one clip per highlight, numbered from one in the
    order of the highlights. *)
Theorem all_encodes_succeeding_gives_every_clip
        (self : Clipper) (highlights : list Highlight)
        (transcription_segments : option (list Segment)) (w : World) :
  (forall call, encoder call = EncOk) ->
  SubtitleGenerator.max_words_per_line (subtitle (config self)) <> 0%Z ->
  fst (create_clips encoder self highlights transcription_segments w)
  = Returned (map FinalClip (seq 1 (length highlights))).
Proof.
  intros Henc Hm. unfold create_clips.
  apply (create_clips_from_succeeds self (length highlights)
           transcription_segments highlights Henc Hm 0 [] w).
Qed.

End ClipperProperties.

(** ** The pipeline *)

Section PipelineProperties.

Import VideoClipper AutoClipPipeline Examples.

Lemma ops_since_self w events :
  ops_since w {| w_fs := w_fs w; w_ops := w_ops w; w_events := events |} = [].
Proof. unfold ops_since; simpl. apply skipn_all. Qed.

(** C6, on the code.  In a run of the pipeline the clipper is never given
    the transcript: whatever the configuration, the inputs and the encoder's
    behaviour, no encoder call of the run is a subtitle burn. *)
Theorem pipeline_never_burns_subtitles
        (self : Pipeline) (encoder : Encoder) (video : FaceDetector.Video)
        (energy_highlights silence_highlights : list Highlight)
        (segments : list Segment) (w : World) :
  let run :=
    process self encoder video energy_highlights silence_highlights
            segments w in
  Forall (fun c => is_burn c = false)
         (encoder_calls (ops_since w (snd run))).
Proof.
  intros run. subst run. unfold process, try_except, bind at 1, lift_option.
  destruct (FaceDetector.analyze_highlights _ _ _ _) as [with_faces|].
  - unfold ret at 1, bind at 1, emit at 1, bind at 1, create_clips.
    set (final := select_final_highlights _ _ _).
    set (w1 := {| w_fs := w_fs w; w_ops := w_ops w;
                  w_events := w_events w ++ [EvProgress "creating_clips" 80] |}).
    pose proof (create_clips_from_facts encoder (clipper self) (length final)
                  None final 0 [] w1) as F.
    destruct (create_clips_from encoder (clipper self) (length final) 0 final
                                None [] w1) as [r w'].
    destruct F as (clips & d & ev & -> & Hd & _ & _ & _ & Hnb).
    unfold bind, emit, ret; simpl.
    rewrite (ops_since_extends w _ d) by exact Hd.
    apply Hnb. destruct (Py.get _ true); exact I.
  - unfold raise, bind, emit, except_Exception; simpl.
    rewrite ops_since_self. constructor.
Qed.

(** When detection found something and the face analysis returned, the
    clipper is handed at least one highlight, and tries to cut it. *)
Lemma process_hands_clipper_a_highlight
      (self : Pipeline) (encoder : Encoder) (video : FaceDetector.Video)
      (energy_highlights silence_highlights : list Highlight)
      (segments : list Segment) (with_faces : list Highlight) (w : World) :
  let highlights :=
    HighlightDetector.detect_highlights (highlight_config self)
      energy_highlights segments silence_highlights in
  highlights <> [] ->
  FaceDetector.analyze_highlights (face_config self) (detector_available self)
                                  video highlights = Some with_faces ->
  exists h rest,
    select_final_highlights (face_config self) highlights with_faces = h :: rest
    /\ In (first_call (clipper self) h 1)
          (encoder_calls
             (ops_since w
                (snd (process self encoder video energy_highlights
                              silence_highlights segments w)))).
Proof.
  intros highlights Hne Hfaces.
  pose proof (select_final_nonempty (face_config self) highlights with_faces Hne)
    as Hfinal.
  unfold process, try_except, bind at 1, lift_option.
  fold highlights. rewrite Hfaces.
  unfold ret at 1, bind at 1, emit at 1, bind at 1, create_clips.
  destruct (select_final_highlights (face_config self) highlights with_faces)
    as [|h rest]; [contradiction|].
  exists h, rest. split; [reflexivity|].
  set (w1 := {| w_fs := w_fs w; w_ops := w_ops w;
                w_events := w_events w ++ [EvProgress "creating_clips" 80] |}).
  pose proof (create_clips_from_facts encoder (clipper self)
                (length (h :: rest)) None (h :: rest) 0 [] w1) as F.
  destruct (create_clips_from encoder (clipper self) (length (h :: rest)) 0
                              (h :: rest) None [] w1) as [r w'].
  destruct F as (clips & d & ev & -> & Hd & _ & Hall & _ & _).
  unfold bind, emit, ret; simpl.
  rewrite (ops_since_extends w _ d) by exact Hd.
  apply (Hall 0%nat h eq_refl).
Qed.

(** A pipeline run on the design document's inputs: an energy peak
    over the first ten seconds, a transcript with phrases inside it, an
    encoder that never fails.  The clip is cut and renamed, and that is
    all. *)
Lemma pipeline_example_promotes_without_subtitles :
  let run :=
    process pipeline0 encoder_ok video0
            [mkHighlight 0 10 energy (9 # 10) None None None None None] []
            scenario_segments VideoClipper.empty_world in
  fst run = Returned [FinalClip 1]
  /\ w_ops (snd run)
     = [ Encode (mkCall SourceVideo (Some (0, 10)) CropScalePad (TempClip 1))
                EncOk;
         Rename (TempClip 1) (FinalClip 1) ].
Proof. vm_compute. split; reflexivity. Qed.

(** The same clipper, handed the transcript, does burn subtitles into that
    clip. *)
Lemma clipper_with_segments_burns_example :
  exists subtitles,
    subtitles <> []
    /\ w_ops (snd (create_clips encoder_ok clipper0
                     [mkHighlight 0 10 energy (9 # 10) None None None None None]
                     (Some scenario_segments) VideoClipper.empty_world))
       = [ Encode (mkCall SourceVideo (Some (0, 10)) CropScalePad (TempClip 1))
                  EncOk;
           WriteSrt (FinalSrt 1);
           Encode (burn_call 1 subtitles) EncOk;
           Unlink (TempClip 1) ].
Proof. eexists. split; [|vm_compute; reflexivity]. discriminate. Qed.

(** And when the burn fails, the clip cut before it is kept. *)
Lemma burn_failure_example :
  let run :=
    create_clips encoder_burn_fails clipper0
      [mkHighlight 0 10 energy (9 # 10) None None None None None]
      (Some scenario_segments) VideoClipper.empty_world in
  fst run = Returned [FinalClip 1]
  /\ w_fs (snd run) (FinalClip 1) = Complete
  /\ w_fs (snd run) (TempClip 1) = Absent
  /\ In (Rename (TempClip 1) (FinalClip 1)) (w_ops (snd run)).
Proof. vm_compute. repeat split; auto. Qed.

(** C5, as stated, fails in the subtitle-burn branch: the encoder is given
    the final path itself to write the burned clip to. *)
Lemma burn_writes_final_path_directly :
  ~ writes_only_temp_names
      (w_ops (snd (_create_clip_with_subtitle encoder_ok clipper0
                     (mkHighlight 0 10 energy (9 # 10) None None None None None)
                     1 (Some scenario_segments) VideoClipper.empty_world))).
Proof.
  unfold writes_only_temp_names. vm_compute. intros H.
  inversion H as [|? ? _ H1]; subst.
  inversion H1 as [|? ? Hburn _]; subst.
  discriminate Hburn.
Qed.

Lemma crop_retry_only_after_encoder_error_witness :
  let run :=
    create_clips encoder_probe_raises clipper0 three_highlights None
                 VideoClipper.empty_world in
  let calls := encoder_calls (ops_since VideoClipper.empty_world (snd run)) in
  let second := mkHighlight 12 14 silence_gap (7 # 10) None (Some 2) None None None in
  encoder_probe_raises (simple_call clipper0 second 2) = EncOk
  /\ fst run = Returned []
  /\ ~ In (simple_call clipper0 second 2) calls
  /\ In (EvError (ClipCreationError 2))
        (events_since VideoClipper.empty_world (snd run))
  /\ In (first_call clipper0
           (mkHighlight 20 60 energy 1 None None None None None) 3)
        calls.
Proof.
  destruct (crop_retry_only_after_encoder_error
              encoder_probe_raises clipper0 three_highlights None
              VideoClipper.empty_world) as [clips [_ H]].
  split; [reflexivity|]. split; [reflexivity|].
  destruct (proj1 (proj2 (proj2 (H 1%nat _ eq_refl))) eq_refl eq_refl)
    as (Hno & _ & _ & Hev).
  split; [exact Hno|]. split; [exact Hev|].
  apply (proj1 (H 2%nat _ eq_refl)).
Defined.

End PipelineProperties.

(** ** More on highlight detection *)

Section DetectionProperties.

Import HighlightDetector.

Lemma insert_length x l :
  length (insert_by_start x l) = S (length l).
Proof.
  induction l as [|y l IH]; simpl; [reflexivity|].
  destruct (Qle_bool (h_start x) (h_start y)); simpl; [reflexivity|].
  rewrite IH. reflexivity.
Qed.

Lemma sort_length l : length (sort_by_start l) = length l.
Proof.
  induction l as [|x l IH]; simpl; [reflexivity|].
  rewrite insert_length, IH. reflexivity.
Qed.

Lemma sweep_length rest : forall last,
  (1 <= length (sweep last rest) <= S (length rest))%nat.
Proof.
  induction rest as [|cur rest IH]; intros last; simpl; [lia|].
  destruct (Qle_bool (h_start cur) (h_end last)).
  - specialize (IH (fold_into last cur)). lia.
  - specialize (IH cur). simpl. lia.
Qed.

(** The merge never makes highlights up: it returns at most as many as it
    was given, and nothing exactly when it was given nothing. *)
Theorem merge_length_and_emptiness (highlights : list Highlight) :
  (length (_merge_highlights highlights) <= length highlights)%nat
  /\ (_merge_highlights highlights = [] <-> highlights = []).
Proof.
  rewrite merge_as_sweep. pose proof (sort_length highlights) as Hlen.
  destruct (sort_by_start highlights) as [|first rest].
  - simpl in Hlen. destruct highlights; [|discriminate].
    split; [simpl; lia | tauto].
  - pose proof (sweep_length rest first) as Hs. simpl in Hlen.
    split; [lia|]. split.
    + intros E. rewrite E in Hs. simpl in Hs. lia.
    + intros ->. discriminate.
Qed.

Lemma sweep_drawn_from (pool : list Highlight) rest : forall last,
  drawn_from pool last -> incl rest pool ->
  Forall (drawn_from pool) (sweep last rest).
Proof.
  induction rest as [|cur rest IH]; intros last Hl Hin; simpl.
  - constructor; [exact Hl | constructor].
  - assert (Hcur : In cur pool) by (apply Hin; left; reflexivity).
    assert (Hrest : incl rest pool)
      by (intros x Hx; apply Hin; right; exact Hx).
    destruct (Qle_bool (h_start cur) (h_end last)).
    + apply IH; [|exact Hrest].
      destruct Hl as (Hs & He & Hc). unfold drawn_from; simpl.
      split; [exact Hs|]. split.
      * destruct (Py_max_cases (h_end last) (h_end cur)) as [E|E]; rewrite E;
          [exact He | apply in_map; exact Hcur].
      * destruct (Py_max_cases (h_confidence last) (h_confidence cur))
          as [E|E]; rewrite E; [exact Hc | apply in_map; exact Hcur].
    + constructor; [exact Hl|]. apply IH; [|exact Hrest].
      repeat split; apply in_map; exact Hcur.
Qed.

Lemma sweep_well_formed rest : forall last,
  h_start last <= h_end last ->
  Forall (fun h => h_start h <= h_end h) rest ->
  Forall (fun h => h_start h <= h_end h) (sweep last rest).
Proof.
  induction rest as [|cur rest IH]; intros last Hl Hr; simpl.
  - constructor; [exact Hl | constructor].
  - inversion Hr; subst.
    destruct (Qle_bool (h_start cur) (h_end last)).
    + apply IH; [|assumption]. simpl.
      eapply Qle_trans; [exact Hl | apply Py_max_ge_l].
    + constructor; [exact Hl | apply IH; assumption].
Qed.

(** Every output of the merge starts where some candidate starts, ends
    where some candidate ends and has the confidence of some candidate; and
    when no candidate ends before it starts, no output does. *)
Theorem merge_outputs_drawn_from_candidates (highlights : list Highlight) :
  Forall (drawn_from highlights) (_merge_highlights highlights)
  /\ (Forall (fun h => h_start h <= h_end h) highlights ->
      Forall (fun h => h_start h <= h_end h) (_merge_highlights highlights)).
Proof.
  rewrite merge_as_sweep.
  assert (Hincl : incl (sort_by_start highlights) highlights)
    by (intros x Hx; apply sort_In, Hx).
  split.
  - destruct (sort_by_start highlights) as [|first rest]; [constructor|].
    apply sweep_drawn_from.
    + repeat split; apply in_map, Hincl; left; reflexivity.
    + intros x Hx. apply Hincl. right. exact Hx.
  - intros Hwf.
    assert (Hs : Forall (fun h => h_start h <= h_end h)
                        (sort_by_start highlights)).
    { rewrite Forall_forall in *. intros x Hx. apply Hwf, Hincl, Hx. }
    destruct (sort_by_start highlights) as [|first rest]; [constructor|].
    inversion Hs; subst. apply sweep_well_formed; assumption.
Qed.

Lemma merge_outputs_drawn_from_candidates_witness :
  Forall (fun h => h_start h <= h_end h)
         (_merge_highlights scenario_candidates).
Proof.
  apply (merge_outputs_drawn_from_candidates scenario_candidates).
  repeat constructor; simpl; discriminate.
Defined.

(** The merge returns its input as it is exactly when the input is already
    in start order with every highlight ending strictly before the next
    ones start. *)
Theorem merge_is_identity_iff (highlights : list Highlight) :
  _merge_highlights highlights = highlights
  <-> StronglySorted le_start highlights
      /\ ForallOrdPairs separated highlights.
Proof.
  split.
  - intros E. rewrite <- E. split; [apply merge_sorted | apply merge_separated].
  - intros [Hs Hp]. rewrite merge_as_sweep, (sort_of_sorted _ Hs).
    destruct highlights as [|first rest]; [reflexivity|].
    apply sweep_fixed, Hp.
Qed.

Lemma merge_is_identity_iff_witness :
  _merge_highlights (_merge_highlights scenario_candidates)
  = _merge_highlights scenario_candidates.
Proof.
  apply (merge_is_identity_iff (_merge_highlights scenario_candidates)).
  split.
  - vm_compute. repeat constructor; discriminate.
  - vm_compute. repeat constructor.
Defined.

Lemma separated_prefix (l rest : list Highlight) :
  ForallOrdPairs separated (l ++ rest) -> ForallOrdPairs separated l.
Proof.
  induction l as [|x l IH]; intros Hp; [constructor|].
  simpl in Hp. inversion Hp as [|? ? Hall Hp1]; subst.
  constructor; [|apply IH, Hp1].
  apply Forall_app in Hall. apply Hall.
Qed.

(** What [detect_highlights] returns never overlaps or touches itself, and
    shows nothing that no detector found: every time point inside a returned
    highlight lies inside some candidate of one of the three detectors. *)
Theorem detected_highlights_separated_and_grounded (config : Config)
        (energy_highlights silence_highlights : list Highlight)
        (segments : list Segment) :
  let out :=
    detect_highlights config energy_highlights segments silence_highlights in
  ForallOrdPairs separated out
  /\ forall t : Q,
       Exists (covers t) out ->
       Exists (covers t) energy_highlights
       \/ Exists (covers t) (_detect_keywords config segments)
       \/ Exists (covers t) silence_highlights.
Proof.
  intros out. subst out. unfold detect_highlights.
  set (cands := energy_highlights ++ _detect_keywords config segments
                ++ silence_highlights).
  destruct (Py_slice_to_prefix (Py.get (max_clips config) 5%Z)
              (_merge_highlights cands)) as [rest Hrest].
  split.
  - apply (separated_prefix _ rest). rewrite <- Hrest. apply merge_separated.
  - intros t Ht.
    assert (Hm : Exists (covers t)
                        (Py.slice_to (Py.get (max_clips config) 5%Z)
                                     (_merge_highlights cands) ++ rest))
      by (apply Exists_app; left; exact Ht).
    rewrite <- Hrest in Hm.
    apply (proj1 (merge_covers _ _)) in Hm. subst cands.
    apply Exists_app in Hm. destruct Hm as [Hm|Hm]; [left; exact Hm|].
    apply Exists_app in Hm. right. exact Hm.
Qed.

Lemma detected_highlights_separated_and_grounded_witness :
  Exists (covers 13) scenario_candidates
  \/ Exists (covers 13) (_detect_keywords (mkConfig None None) [])
  \/ Exists (covers 13) [].
Proof.
  apply (detected_highlights_separated_and_grounded
           (mkConfig None None) scenario_candidates [] []).
  vm_compute. right. left. split; discriminate.
Defined.

End DetectionProperties.

(** ** Text helpers *)

Section TextFacts.

Lemma append_assoc_s (a b c : string) :
  String.append (String.append a b) c = String.append a (String.append b c).
Proof. induction a as [|x a IH]; simpl; [reflexivity | rewrite IH; reflexivity]. Qed.

Lemma append_nil_r_s (a : string) : String.append a EmptyString = a.
Proof. induction a as [|x a IH]; simpl; [reflexivity | rewrite IH; reflexivity]. Qed.

Lemma append_inj_length (a a' b b' : string) :
  String.length a = String.length a' ->
  String.append a b = String.append a' b' -> a = a' /\ b = b'.
Proof.
  revert a'. induction a as [|x a IH]; intros [|x' a'] Hlen H;
    simpl in *; try discriminate.
  - split; [reflexivity | exact H].
  - injection H as -> H. injection Hlen as Hlen.
    destruct (IH a' Hlen H) as [-> ->]. split; reflexivity.
Qed.

Lemma lower_char_idem (c : ascii) :
  Py.lower_char (Py.lower_char c) = Py.lower_char c.
Proof.
  destruct c as [[] [] [] [] [] [] [] []]; reflexivity.
Qed.

Lemma lower_idem (s : string) : Py.lower (Py.lower s) = Py.lower s.
Proof.
  induction s as [|c s IH]; simpl; [reflexivity|].
  rewrite lower_char_idem, IH. reflexivity.
Qed.

Lemma lower_append (a b : string) :
  Py.lower (String.append a b) = String.append (Py.lower a) (Py.lower b).
Proof. induction a as [|c a IH]; simpl; [reflexivity | rewrite IH; reflexivity]. Qed.

Lemma lower_length (s : string) : String.length (Py.lower s) = String.length s.
Proof. induction s as [|c s IH]; simpl; [reflexivity | rewrite IH; reflexivity]. Qed.

Lemma prefix_spec (n h : string) :
  String.prefix n h = true <-> exists post, h = String.append n post.
Proof.
  revert h. induction n as [|a n IH]; intros h.
  - destruct h; simpl; split; intros _; try reflexivity; eexists; reflexivity.
  - destruct h as [|b h]; simpl.
    + split; [discriminate | intros [post H]; discriminate].
    + destruct (ascii_dec a b) as [->|Hne].
      * rewrite IH. split; intros [post H]; exists post.
        -- rewrite H. reflexivity.
        -- injection H as H. exact H.
      * split; [discriminate|]. intros [post H]. injection H as H _.
        congruence.
Qed.

Lemma contains_spec (n h : string) :
  Py.contains n h = true
  <-> exists pre post, h = String.append pre (String.append n post).
Proof.
  induction h as [|c h IH].
  - cbn [Py.contains]. rewrite orb_false_r, prefix_spec. split.
    + intros [post H]. exists EmptyString, post. exact H.
    + intros [pre [post H]]. destruct pre; [exists post; exact H|discriminate].
  - cbn [Py.contains]. rewrite orb_true_iff, prefix_spec, IH. split.
    + intros [[post H]|[pre [post H]]].
      * exists EmptyString, post. exact H.
      * exists (String c pre), post. rewrite H. reflexivity.
    + intros [[|c' pre] [post H]].
      * left. exists post. exact H.
      * right. injection H as _ H. exists pre, post. exact H.
Qed.

Lemma contains_append_l (n a b : string) :
  Py.contains n a = true -> Py.contains n (String.append a b) = true.
Proof.
  rewrite !contains_spec. intros [pre [post ->]].
  exists pre, (String.append post b). rewrite !append_assoc_s. reflexivity.
Qed.

Lemma contains_append_r (n a b : string) :
  Py.contains n b = true -> Py.contains n (String.append a b) = true.
Proof.
  rewrite !contains_spec. intros [pre [post ->]].
  exists (String.append a pre), post. rewrite !append_assoc_s. reflexivity.
Qed.

(** Whatever is found in lowercased text is itself in lower case. *)
Lemma contains_lower_is_lower (n text : string) :
  Py.contains n (Py.lower text) = true -> Py.lower n = n.
Proof.
  intros H. apply contains_spec in H. destruct H as [pre [post H]].
  pose proof (f_equal Py.lower H) as HL.
  rewrite lower_idem, H, !lower_append in HL.
  symmetry in HL.
  apply append_inj_length in HL; [|apply lower_length].
  destruct HL as [_ HL].
  apply append_inj_length in HL; [|apply lower_length].
  apply HL.
Qed.

End TextFacts.

(** ** The three detectors *)

Section DetectorProperties.

Import HighlightDetector.

Lemma find_existsb {A} (f : A -> bool) (l : list A) :
  existsb f l = match find f l with Some _ => true | None => false end.
Proof.
  induction l as [|x l IH]; simpl; [reflexivity|].
  destruct (f x); [reflexivity | exact IH].
Qed.

Lemma keyword_highlights_facts (config : Config) (segments : list Segment) :
  map (fun h => (h_start h, h_end h, h_confidence h))
      (_detect_keywords config segments)
  = map (fun seg => (seg_start seg, seg_end seg,
                     Py.get (seg_confidence seg) (4 # 5)))
        (filter (mentions_keyword config) segments)
  /\ Forall (fun h =>
               h_type h = keyword
               /\ h_types h = None
               /\ exists kw,
                    h_keyword h = Some kw
                    /\ In kw (configured_keywords config)
                    /\ Py.lower kw = kw)
            (_detect_keywords config segments).
Proof.
  unfold _detect_keywords, mentions_keyword, configured_keywords.
  induction segments as [|seg segments [IH1 IH2]]; simpl.
  - split; [reflexivity | constructor].
  - rewrite find_existsb.
    destruct (find _ (Py.get (keywords config) _)) as [kw|] eqn:E; simpl.
    + split; [rewrite IH1; reflexivity|].
      constructor; [|exact IH2]. simpl.
      apply find_some in E. destruct E as [Hin Hc].
      repeat split. exists kw. repeat split; [exact Hin|].
      apply (contains_lower_is_lower _ _ Hc).
    + split; [exact IH1 | exact IH2].
Qed.

(** The keyword detector reports exactly the segments whose lowercased text
    contains a configured keyword, in transcript order, one highlight each:
    with the segment's span and its confidence (0.8 when it has none), typed
    [keyword], and tagged with a configured keyword that is in lower
    case. *)
Theorem keyword_highlights_match_segments (config : Config)
        (segments : list Segment) :
  map (fun h => (h_start h, h_end h, h_confidence h))
      (_detect_keywords config segments)
  = map (fun seg => (seg_start seg, seg_end seg,
                     Py.get (seg_confidence seg) (4 # 5)))
        (filter (mentions_keyword config) segments)
  /\ Forall (fun h =>
               h_type h = keyword
               /\ h_types h = None
               /\ exists kw,
                    h_keyword h = Some kw
                    /\ In kw (configured_keywords config)
                    /\ Py.lower kw = kw)
            (_detect_keywords config segments).
Proof. apply keyword_highlights_facts. Qed.

(** A keyword configured with a capital letter is dead: the text is
    lowercased before the search and the keyword is not.  No segment is ever
    reported for it, and a subtitle text that is flagged is flagged by
    another keyword, one in lower case. *)
Theorem capitalised_keyword_never_matches (kw : string) :
  Py.lower kw <> kw ->
  (forall config segments,
      Forall (fun h => h_keyword h <> Some kw)
             (_detect_keywords config segments))
  /\ (forall config text,
        SubtitleGenerator._is_highlight_text config text = true ->
        exists kw',
          In kw' (SubtitleGenerator.highlight_keywords config)
          /\ kw' <> kw
          /\ Py.contains kw' (Py.lower text) = true).
Proof.
  intros Hkw. split.
  - intros config segments.
    destruct (keyword_highlights_facts config segments) as [_ H].
    eapply Forall_impl; [|exact H].
    intros h (_ & _ & kw' & Hk & _ & Hl) Habs.
    rewrite Hk in Habs. injection Habs as ->. contradiction.
  - intros config text H. unfold SubtitleGenerator._is_highlight_text in H.
    apply existsb_exists in H. destruct H as [kw' [Hin Hc]].
    exists kw'. repeat split; [exact Hin | | exact Hc].
    intros ->. apply contains_lower_is_lower in Hc. contradiction.
Qed.

Lemma capitalised_keyword_never_matches_witness :
  Forall (fun h => h_keyword h <> Some "Wow"%string)
         (_detect_keywords (mkConfig None (Some ["Wow"; "amazing"]%string))
                           Examples.scenario_segments).
Proof.
  apply (capitalised_keyword_never_matches "Wow"%string).
  discriminate.
Defined.

Lemma Py_lt_true a b : Py.lt a b = true -> a < b.
Proof.
  unfold Py.lt. intros E. apply Qle_bool_false.
  destruct (Qle_bool b a); [discriminate | reflexivity].
Qed.

Lemma Py_lt_of_lt a b : a < b -> Py.lt a b = true.
Proof.
  intros H. unfold Py.lt. rewrite (Qle_bool_false_of_lt _ _ H). reflexivity.
Qed.

Lemma np_max_greatest (xs : list Q) (m : Q) :
  Py.np_max xs = Some m -> In m xs /\ Forall (fun x => x <= m) xs.
Proof.
  revert m. induction xs as [|x xs IH]; intros m H; simpl in H; [discriminate|].
  destruct (Py.np_max xs) as [m'|] eqn:E.
  - destruct (IH m' eq_refl) as [Hin Hall].
    destruct (Qle_bool m' x) eqn:Hc; injection H as <-.
    + apply Qle_bool_iff in Hc. split; [left; reflexivity|].
      constructor; [apply Qle_refl|].
      eapply Forall_impl; [|exact Hall].
      intros y Hy. simpl in Hy. apply (Qle_trans _ m'); assumption.
    + apply Qle_bool_false in Hc. split; [right; exact Hin|].
      constructor; [apply Qlt_le_weak, Hc | exact Hall].
  - injection H as <-. destruct xs; [|simpl in E; destruct (Py.np_max xs); discriminate].
    split; [left; reflexivity | constructor; [apply Qle_refl | constructor]].
Qed.

Lemma energy_peaks_from_facts (threshold : Q) (frames_to_time : nat -> Q)
      (peak : Q) (rms : list Q) :
  0 < peak -> (forall i, 0 <= frames_to_time i) ->
  Forall (fun x => x <= peak) rms ->
  forall i,
    Forall (fun h =>
              0 <= h_start h
              /\ h_start h < h_end h
              /\ h_end h - h_start h <= 10
              /\ threshold < h_confidence h
              /\ h_confidence h <= 1
              /\ h_type h = energy
              /\ h_types h = None)
           (energy_peaks_from threshold frames_to_time peak i rms)
    /\ (length (energy_peaks_from threshold frames_to_time peak i rms)
        <= length rms)%nat.
Proof.
  intros Hpeak Htime Hall.
  induction Hall as [|x rms Hx Hall IH]; intros i; simpl.
  - split; [constructor | lia].
  - destruct (IH (S i)) as [IH1 IH2].
    destruct (Py.lt threshold (x / peak)) eqn:E; simpl; [|split; [exact IH1 | lia]].
    split; [|lia]. constructor; [|exact IH1]. simpl.
    apply Py_lt_true in E. specialize (Htime i).
    pose proof (Py_max_ge_l 0 (frames_to_time i - 5)) as M0.
    assert (Hle : x / peak <= 1).
    { apply Qle_shift_div_r; [exact Hpeak|]. rewrite Qmult_1_l. exact Hx. }
    repeat split; try assumption.
    + destruct (Py_max_cases 0 (frames_to_time i - 5)) as [M|M]; rewrite M; lra.
    + unfold Py.max in *.
      destruct (Qle_bool (frames_to_time i - 5) 0) eqn:C.
      * apply Qle_bool_iff in C. lra.
      * lra.
Qed.

(** On an envelope of non-negative values and frame times that are not
    negative, every energy peak starts at or after zero, ends after it
    starts, spans at most ten seconds, and carries a confidence above the
    threshold and at most one; there is at most one peak per frame. *)
Theorem energy_peaks_well_formed (thresholds : Thresholds)
        (frames_to_time : nat -> Q) (rms : list Q) (peaks : list Highlight) :
  Forall (fun x => 0 <= x) rms ->
  (forall i, 0 <= frames_to_time i) ->
  _detect_energy_peaks thresholds frames_to_time rms = Some peaks ->
  Forall (fun h =>
            0 <= h_start h
            /\ h_start h < h_end h
            /\ h_end h - h_start h <= 10
            /\ Py.get (energy_threshold thresholds) (4 # 5) < h_confidence h
            /\ h_confidence h <= 1
            /\ h_type h = energy
            /\ h_types h = None)
         peaks
  /\ (length peaks <= length rms)%nat.
Proof.
  intros Hnn Htime H. unfold _detect_energy_peaks in H.
  destruct (Py.np_max rms) as [peak|] eqn:E; [|discriminate].
  destruct (np_max_greatest _ _ E) as [Hin Hall].
  destruct (Qeq_bool peak 0) eqn:Z; injection H as <-.
  - split; [constructor | simpl; lia].
  - apply energy_peaks_from_facts; [|exact Htime | exact Hall].
    assert (Hp : 0 <= peak) by (rewrite Forall_forall in Hnn; apply Hnn, Hin).
    apply Qeq_bool_neq in Z. apply Qle_lteq in Hp.
    destruct Hp as [Hp|Hp]; [exact Hp|]. exfalso. apply Z. symmetry. exact Hp.
Qed.

Lemma energy_peaks_well_formed_witness :
  (length (energy_peaks_from (4 # 5) Examples.example_frame_time 2 0
                             Examples.example_rms) <= 5)%nat.
Proof.
  apply (energy_peaks_well_formed (mkThresholds None None None)
           Examples.example_frame_time Examples.example_rms).
  - repeat constructor; discriminate.
  - intros i. unfold Examples.example_frame_time, Qle; simpl. lia.
  - reflexivity.
Defined.

Lemma energy_peaks_from_loudest (threshold : Q) (frames_to_time : nat -> Q)
      (peak : Q) (rms : list Q) :
  0 < peak -> threshold < 1 -> In peak rms ->
  forall i, energy_peaks_from threshold frames_to_time peak i rms <> [].
Proof.
  intros Hpeak Hthr. induction rms as [|x rms IH]; intros Hin i; [contradiction|].
  simpl. destruct Hin as [->|Hin].
  - assert (E : Py.lt threshold (peak / peak) = true).
    { apply Py_lt_of_lt.
      assert (Hone : peak / peak == 1)
        by (apply Qmult_inv_r; intros Z; rewrite Z in Hpeak; discriminate).
      rewrite Hone. exact Hthr. }
    rewrite E. discriminate.
  - intros Habs. apply app_eq_nil in Habs. apply (IH Hin (S i)), Habs.
Qed.

(** The energy detector raises exactly on an empty envelope.  On an
    envelope of non-negative values that is not all zero, with a threshold
    below one, it always finds something: the loudest frame normalises to
    one and passes. *)
Theorem energy_peaks_raise_or_find (thresholds : Thresholds)
        (frames_to_time : nat -> Q) (rms : list Q) :
  (_detect_energy_peaks thresholds frames_to_time rms = None <-> rms = [])
  /\ (Forall (fun x => 0 <= x) rms ->
      Exists (fun x => 0 < x) rms ->
      Py.get (energy_threshold thresholds) (4 # 5) < 1 ->
      exists first others,
        _detect_energy_peaks thresholds frames_to_time rms
        = Some (first :: others)).
Proof.
  unfold _detect_energy_peaks. split.
  - destruct rms as [|x rms]; simpl; [tauto|].
    destruct (Py.np_max rms); simpl;
      destruct (Qeq_bool _ 0); split; intros H; discriminate H.
  - intros Hnn Hpos Hthr.
    destruct (Py.np_max rms) as [peak|] eqn:E.
    + destruct (np_max_greatest _ _ E) as [Hin Hall].
      assert (Hp : 0 < peak).
      { apply Exists_exists in Hpos. destruct Hpos as [x [Hx Hx0]].
        rewrite Forall_forall in Hall. eapply Qlt_le_trans; [exact Hx0|].
        apply Hall, Hx. }
      destruct (Qeq_bool peak 0) eqn:Z.
      * apply Qeq_bool_iff in Z. rewrite Z in Hp. discriminate.
      * pose proof (energy_peaks_from_loudest _ frames_to_time _ _ Hp Hthr Hin
                      0%nat) as Hne.
        destruct (energy_peaks_from _ frames_to_time peak 0 rms) as [|f o];
          [contradiction|].
        exists f, o. reflexivity.
    + destruct rms; [inversion Hpos|].
      simpl in E. destruct (Py.np_max rms); discriminate.
Qed.

Lemma energy_peaks_raise_or_find_witness :
  exists first others,
    _detect_energy_peaks (mkThresholds None None None)
                         Examples.example_frame_time Examples.example_rms
    = Some (first :: others).
Proof.
  apply (energy_peaks_raise_or_find (mkThresholds None None None)
           Examples.example_frame_time Examples.example_rms).
  - repeat constructor; discriminate.
  - left. reflexivity.
  - reflexivity.
Defined.

Lemma silence_gaps_facts (thresholds : Thresholds) (samples_to_time : Z -> Q)
      (intervals : list (Z * Z)) :
  Forall (fun h =>
            h_type h = silence_gap
            /\ h_confidence h = 7 # 10
            /\ h_types h = None
            /\ exists gap,
                 h_gap_duration h = Some gap
                 /\ Py.get (silence_min_duration thresholds) 2 <= gap
                 /\ h_end h - h_start h <= gap
                 /\ h_end h - h_start h
                    <= Py.get (clip_duration thresholds) 30
                 /\ (0 <= gap ->
                     0 <= Py.get (clip_duration thresholds) 30 ->
                     h_start h <= h_end h))
         (_detect_silence_gaps thresholds samples_to_time intervals)
  /\ (length (_detect_silence_gaps thresholds samples_to_time intervals)
      <= pred (length intervals))%nat.
Proof.
  induction intervals as [|[s1 e1] intervals [IH1 IH2]]; simpl.
  - split; [constructor | lia].
  - destruct intervals as [|[s2 e2] intervals]; [split; [constructor | simpl; lia]|].
    set (end_time := samples_to_time e1).
    set (start_time := samples_to_time s2).
    set (cd := Py.get (clip_duration thresholds) 30).
    set (tail := _detect_silence_gaps thresholds samples_to_time
                                      ((s2, e2) :: intervals)) in *.
    destruct (Qle_bool _ (start_time - end_time)) eqn:E; simpl;
      [|split; [exact IH1 | simpl in IH2; lia]].
    split; [|simpl in IH2; simpl; lia].
    constructor; [|exact IH1]. simpl.
    apply Qle_bool_iff in E.
    pose proof (Py_min_le_l start_time (end_time + cd)) as Ml.
    pose proof (Py_min_le_r start_time (end_time + cd)) as Mr.
    repeat split. exists (start_time - end_time).
    repeat split; try assumption; try lra.
    intros Hg Hc.
    destruct (Qle_bool start_time (end_time + cd)) eqn:C;
      unfold Py.min; rewrite C; lra.
Qed.

Lemma silence_gaps_exact (thresholds : Thresholds) (samples_to_time : Z -> Q)
      (intervals : list (Z * Z)) :
  map (fun h => (h_start h, h_end h, h_gap_duration h))
      (_detect_silence_gaps thresholds samples_to_time intervals)
  = map (fun gap =>
           (fst gap,
            Py.min (snd gap)
                   (fst gap + Py.get (clip_duration thresholds) 30),
            Some (snd gap - fst gap)))
        (filter (fun gap =>
                   Qle_bool (Py.get (silence_min_duration thresholds) 2)
                            (snd gap - fst gap))
                (silences samples_to_time intervals)).
Proof.
  unfold silences.
  induction intervals as [|[s1 e1] intervals IH]; [reflexivity|].
  destruct intervals as [|[s2 e2] intervals]; [reflexivity|].
  cbn [tl] in IH.
  set (tail := _detect_silence_gaps thresholds samples_to_time
                                    ((s2, e2) :: intervals)) in *.
  change (_detect_silence_gaps thresholds samples_to_time
            ((s1, e1) :: (s2, e2) :: intervals))
    with ((if Qle_bool (Py.get (silence_min_duration thresholds) 2)
                       (samples_to_time s2 - samples_to_time e1)
           then
             [ {| h_start := samples_to_time e1;
                  h_end := Py.min (samples_to_time s2)
                             (samples_to_time e1
                              + Py.get (clip_duration thresholds) 30);
                  h_type := silence_gap;
                  h_confidence := 7 # 10;
                  h_keyword := None;
                  h_gap_duration :=
                    Some (samples_to_time s2 - samples_to_time e1);
                  h_types := None;
                  h_face_present := None;
                  h_face_ratio := None |} ]
           else []) ++ tail).
  cbn [tl combine map filter fst snd].
  destruct (Qle_bool _ (samples_to_time s2 - samples_to_time e1));
    cbn [app map h_start h_end h_gap_duration]; rewrite IH; reflexivity.
Qed.

(** The silence detector reports exactly the silences between consecutive
    sound intervals that last at least the configured minimum, in order:
    each highlight starts where the earlier sound interval ends, records
    the length of that silence as its gap, and ends where the next sound
    starts or [clip_duration] after its start, whichever is earlier.  So it
    is no longer than the gap nor than [clip_duration], the gap is at least
    the configured minimum, and the confidence is 0.7.  There are fewer
    highlights than sound intervals, so one interval or none gives nothing.
    When neither the minimum gap nor [clip_duration] is negative, no
    highlight ends before it starts. *)
Theorem silence_gaps_within_gaps (thresholds : Thresholds)
        (samples_to_time : Z -> Q) (intervals : list (Z * Z)) :
  let out := _detect_silence_gaps thresholds samples_to_time intervals in
  map (fun h => (h_start h, h_end h, h_gap_duration h)) out
  = map (fun gap =>
           (fst gap,
            Py.min (snd gap)
                   (fst gap + Py.get (clip_duration thresholds) 30),
            Some (snd gap - fst gap)))
        (filter (fun gap =>
                   Qle_bool (Py.get (silence_min_duration thresholds) 2)
                            (snd gap - fst gap))
                (silences samples_to_time intervals))
  /\ Forall (fun h =>
            h_type h = silence_gap
            /\ h_confidence h = 7 # 10
            /\ h_types h = None
            /\ exists gap,
                 h_gap_duration h = Some gap
                 /\ Py.get (silence_min_duration thresholds) 2 <= gap
                 /\ h_end h - h_start h <= gap
                 /\ h_end h - h_start h
                    <= Py.get (clip_duration thresholds) 30)
         out
  /\ (length out <= pred (length intervals))%nat
  /\ (0 <= Py.get (silence_min_duration thresholds) 2 ->
      0 <= Py.get (clip_duration thresholds) 30 ->
      Forall (fun h => h_start h <= h_end h) out).
Proof.
  intros out. subst out.
  destruct (silence_gaps_facts thresholds samples_to_time intervals)
    as [H1 H2].
  split; [apply silence_gaps_exact|].
  split; [|split; [exact H2|]].
  - eapply Forall_impl; [|exact H1].
    intros h (Ht & Hc & Hk & gap & Hg & Hmin & Hle & Hcd & _).
    repeat split; try assumption. exists gap. repeat split; assumption.
  - intros Hmin Hcd. eapply Forall_impl; [|exact H1].
    intros h (_ & _ & _ & gap & _ & Hg & _ & _ & Hwf).
    apply Hwf; [|exact Hcd].
    apply (Qle_trans _ (Py.get (silence_min_duration thresholds) 2));
      assumption.
Qed.

Lemma silence_gaps_within_gaps_witness :
  Forall (fun h => h_start h <= h_end h)
         (_detect_silence_gaps (mkThresholds None None None)
                               Examples.example_sample_time
                               Examples.example_intervals).
Proof.
  apply (silence_gaps_within_gaps (mkThresholds None None None)
           Examples.example_sample_time Examples.example_intervals);
    discriminate.
Defined.

End DetectorProperties.

(** ** More on subtitles *)

Section SubtitleMergeProperties.

Import SubtitleGenerator.

Lemma fold_left_merge_subtitles rest : forall closed last,
  (let '(c, l) := fold_left merge_step rest (closed, last) in c ++ [l])
  = closed ++ sweep last rest.
Proof.
  induction rest as [|cur rest IH]; intros closed last; simpl.
  - reflexivity.
  - destruct (Py.lt (sub_start cur - sub_end last) (3 # 10)).
    + apply IH.
    + rewrite IH, <- app_assoc. reflexivity.
Qed.

Lemma merge_subtitles_as_sweep subtitles :
  _merge_subtitles subtitles =
  match subtitles with
  | [] => []
  | first :: rest => sweep first rest
  end.
Proof.
  destruct subtitles as [|first rest]; [reflexivity|].
  apply (fold_left_merge_subtitles rest [] first).
Qed.

Lemma sweep_head last rest :
  exists h t, sweep last rest = h :: t /\ sub_start h = sub_start last.
Proof.
  revert last. induction rest as [|cur rest IH]; intros last; simpl.
  - exists last, []. split; reflexivity.
  - destruct (Py.lt (sub_start cur - sub_end last) (3 # 10)).
    + destruct (IH (join_into last cur)) as (h & t & E & Hs).
      exists h, t. split; [exact E | exact Hs].
    + exists last, (sweep cur rest). split; reflexivity.
Qed.

Lemma sweep_apart rest : forall last, Sorted apart (sweep last rest).
Proof.
  induction rest as [|cur rest IH]; intros last; simpl.
  - repeat constructor.
  - destruct (Py.lt (sub_start cur - sub_end last) (3 # 10)) eqn:E.
    + apply IH.
    + constructor; [apply IH|].
      destruct (sweep_head cur rest) as (h & t & -> & Hs).
      constructor. unfold apart. rewrite Hs. apply Py_lt_false, E.
Qed.

Lemma sweep_fixed_subtitles rest : forall last,
  Sorted apart (last :: rest) -> sweep last rest = last :: rest.
Proof.
  induction rest as [|cur rest IH]; intros last Hs; simpl; [reflexivity|].
  inversion Hs as [|? ? Hs1 Hhd]; subst. inversion Hhd as [|? ? Hap]; subst.
  assert (E : Py.lt (sub_start cur - sub_end last) (3 # 10) = false).
  { unfold Py.lt. unfold apart in Hap.
    apply Qle_bool_iff in Hap. rewrite Hap. reflexivity. }
  rewrite E, (IH cur Hs1). reflexivity.
Qed.

(** After the merge pass every subtitle starts at least 0.3 seconds after
    the one before it ends, and merging once more changes nothing. *)
Theorem merged_subtitles_apart_and_stable (subtitles : list Subtitle) :
  Sorted apart (_merge_subtitles subtitles)
  /\ _merge_subtitles (_merge_subtitles subtitles) = _merge_subtitles subtitles.
Proof.
  assert (Hs : Sorted apart (_merge_subtitles subtitles)).
  { rewrite merge_subtitles_as_sweep. destruct subtitles; [constructor|].
    apply sweep_apart. }
  split; [exact Hs|].
  rewrite (merge_subtitles_as_sweep (_merge_subtitles subtitles)).
  destruct (_merge_subtitles subtitles) as [|first rest]; [reflexivity|].
  apply sweep_fixed_subtitles, Hs.
Qed.

Lemma join_cons (sep p q : string) (rest : list string) :
  Py.join sep (p :: q :: rest)
  = String.append p (String.append sep (Py.join sep (q :: rest))).
Proof. reflexivity. Qed.

Lemma sweep_texts rest : forall last,
  Py.join " " (map sub_text (sweep last rest))
  = Py.join " " (sub_text last :: map sub_text rest).
Proof.
  induction rest as [|cur rest IH]; intros last; [reflexivity|].
  cbn [sweep]. destruct (Py.lt (sub_start cur - sub_end last) (3 # 10)).
  - rewrite IH. cbn [map]. rewrite join_cons.
    destruct rest as [|nxt rest].
    + reflexivity.
    + cbn [map]. rewrite !join_cons. cbn [join_into sub_text].
      rewrite !append_assoc_s. reflexivity.
  - destruct (sweep_head cur rest) as (h & t & E & _).
    cbn [map]. specialize (IH cur). rewrite E in *. cbn [map] in *.
    rewrite !join_cons, IH. reflexivity.
Qed.

Lemma sweep_flags rest : forall last,
  existsb sub_is_highlight (sweep last rest)
  = existsb sub_is_highlight (last :: rest).
Proof.
  induction rest as [|cur rest IH]; intros last; [reflexivity|].
  cbn [sweep]. destruct (Py.lt (sub_start cur - sub_end last) (3 # 10)).
  - rewrite IH. simpl. rewrite orb_assoc. reflexivity.
  - simpl. rewrite IH. reflexivity.
Qed.

Lemma sweep_length_subtitles rest : forall last,
  (1 <= length (sweep last rest) <= S (length rest))%nat.
Proof.
  induction rest as [|cur rest IH]; intros last; simpl; [lia|].
  destruct (Py.lt (sub_start cur - sub_end last) (3 # 10)).
  - specialize (IH (join_into last cur)). lia.
  - specialize (IH cur). simpl. lia.
Qed.

(** The merge pass loses no text and no flag: the texts of its output,
    joined by spaces, read the same as the texts of its input joined by
    spaces; some output is flagged exactly when some input is; and it
    returns no more entries than it was given, none only for none. *)
Theorem merge_subtitles_keeps_text_and_flags (subtitles : list Subtitle) :
  Py.join " " (map sub_text (_merge_subtitles subtitles))
  = Py.join " " (map sub_text subtitles)
  /\ existsb sub_is_highlight (_merge_subtitles subtitles)
     = existsb sub_is_highlight subtitles
  /\ (length (_merge_subtitles subtitles) <= length subtitles)%nat
  /\ (_merge_subtitles subtitles = [] <-> subtitles = []).
Proof.
  rewrite merge_subtitles_as_sweep.
  destruct subtitles as [|first rest].
  - repeat split; auto.
  - pose proof (sweep_length_subtitles rest first) as Hl.
    split; [apply sweep_texts|]. split; [apply sweep_flags|].
    split; [simpl; lia|]. split.
    + intros E. rewrite E in Hl. simpl in Hl. lia.
    + discriminate.
Qed.

Lemma sweep_Forall (P : Subtitle -> Prop) :
  (forall a b, P a -> P b -> P (join_into a b)) ->
  forall rest last, P last -> Forall P rest -> Forall P (sweep last rest).
Proof.
  intros Hjoin. induction rest as [|cur rest IH]; intros last Hl Hr; simpl.
  - constructor; [exact Hl | constructor].
  - inversion Hr; subst.
    destruct (Py.lt (sub_start cur - sub_end last) (3 # 10)).
    + apply IH; [apply Hjoin|]; assumption.
    + constructor; [exact Hl | apply IH; assumption].
Qed.

Lemma flag_sound_join (config : Config) (a b : Subtitle) :
  flag_sound config a -> flag_sound config b ->
  flag_sound config (join_into a b).
Proof.
  unfold flag_sound, _is_highlight_text. cbn [join_into sub_text sub_is_highlight].
  intros Ha Hb H. apply orb_true_iff in H.
  rewrite !lower_append.
  destruct H as [H|H]; [specialize (Ha H) | specialize (Hb H)].
  - apply existsb_exists in Ha. destruct Ha as [kw [Hin Hc]].
    apply existsb_exists. exists kw. split; [exact Hin|].
    apply contains_append_l, Hc.
  - apply existsb_exists in Hb. destruct Hb as [kw [Hin Hc]].
    apply existsb_exists. exists kw. split; [exact Hin|].
    apply contains_append_r, contains_append_r, Hc.
Qed.

Lemma clip_entries_flag_sound config clip_start clip_end phrases :
  Forall (flag_sound config)
         (clip_entries config clip_start clip_end phrases).
Proof.
  unfold clip_entries. induction phrases as [|[[text ps] pe] phrases IH]; simpl.
  - constructor.
  - destruct (Py.lt _ (1 # 2)); simpl; [exact IH|].
    constructor; [|exact IH]. unfold flag_sound; simpl. tauto.
Qed.

Lemma collect_entries_flag_sound config clip_start clip_end segments :
  forall subtitles,
    collect_entries config clip_start clip_end segments = Some subtitles ->
    Forall (flag_sound config) subtitles.
Proof.
  induction segments as [|seg segments IH]; simpl; intros subtitles H.
  - injection H as <-. constructor.
  - destruct (_split_into_phrases config seg) as [phrases|]; [|discriminate].
    destruct (collect_entries config clip_start clip_end segments) as [more|];
      [|discriminate].
    injection H as <-. apply Forall_app. split.
    + apply clip_entries_flag_sound.
    + apply IH. reflexivity.
Qed.

(** A subtitle that [generate_subtitles_for_clip] returns flagged, merged or
    not, has one of the highlight keywords in its lowercased text. *)
Theorem flagged_subtitles_contain_keyword (config : Config)
        (transcription_segments : list Segment) (clip_start clip_end : Q)
        (subtitles : list Subtitle) :
  generate_subtitles_for_clip config transcription_segments
                              clip_start clip_end = Some subtitles ->
  Forall (fun s =>
            sub_is_highlight s = true ->
            exists kw,
              In kw (highlight_keywords config)
              /\ Py.contains kw (Py.lower (sub_text s)) = true)
         subtitles.
Proof.
  unfold generate_subtitles_for_clip.
  destruct (filter _ transcription_segments) as [|seg segs].
  - intros H. injection H as <-. constructor.
  - destruct (collect_entries config clip_start clip_end (seg :: segs))
      as [entries|] eqn:E; simpl; [|discriminate].
    intros H. injection H as <-.
    pose proof (collect_entries_flag_sound _ _ _ _ _ E) as Hs.
    rewrite merge_subtitles_as_sweep.
    destruct entries as [|first rest]; [constructor|].
    inversion Hs; subst.
    eapply Forall_impl;
      [|apply (sweep_Forall (flag_sound config) (flag_sound_join config));
        assumption].
    intros s Hsound Hflag. specialize (Hsound Hflag).
    unfold _is_highlight_text in Hsound.
    apply existsb_exists in Hsound. exact Hsound.
Qed.

Lemma flagged_subtitles_contain_keyword_witness :
  Forall (fun s =>
            sub_is_highlight s = true ->
            exists kw,
              In kw (highlight_keywords (mkConfig None None))
              /\ Py.contains kw (Py.lower (sub_text s)) = true)
    [ mkSubtitle "This is amazing. It really is." (1 # 4) (20 # 4) true;
      mkSubtitle "Wow!" 7 (17 # 2) true ].
Proof.
  apply (flagged_subtitles_contain_keyword (mkConfig None None)
           Examples.scenario_segments (1 # 4) (17 # 2)).
  vm_compute. reflexivity.
Defined.

End SubtitleMergeProperties.

Section PhraseProperties.

Import SubtitleGenerator.

Lemma lstrip_no_sentence_end s :
  has_sentence_end s = false -> has_sentence_end (Py.lstrip s) = false.
Proof.
  induction s as [|c s IH]; simpl; [reflexivity|].
  intros H. apply orb_false_iff in H. destruct H as [Hc Hs].
  destruct (Py.isspace c); [apply IH, Hs|].
  simpl. rewrite Hc, Hs. reflexivity.
Qed.

Lemma rstrip_no_sentence_end s :
  has_sentence_end s = false -> has_sentence_end (Py.rstrip s) = false.
Proof.
  induction s as [|c s IH]; simpl; [reflexivity|].
  intros H. apply orb_false_iff in H. destruct H as [Hc Hs].
  specialize (IH Hs). destruct (Py.rstrip s) as [|d t].
  - destruct (Py.isspace c); simpl; [reflexivity|].
    rewrite Hc. reflexivity.
  - cbn [has_sentence_end] in *. rewrite Hc, IH. reflexivity.
Qed.

Lemma re_split_no_sentence_end s : forall piece,
  has_sentence_end s = false ->
  Py.re_split_from piece EmptyString s = [String.append piece s].
Proof.
  induction s as [|c s IH]; intros piece H; simpl.
  - rewrite append_nil_r_s. reflexivity.
  - simpl in H. apply orb_false_iff in H. destruct H as [Hc Hs].
    rewrite Hc, (IH _ Hs). unfold Py.snoc.
    rewrite append_assoc_s. reflexivity.
Qed.

Lemma split_unpunctuated (config : Config) (segment : Segment) :
  has_sentence_end (seg_text segment) = false ->
  _split_into_phrases config segment = Some [].
Proof.
  intros H. unfold _split_into_phrases, Py.re_split_sentences, Py.strip.
  rewrite re_split_no_sentence_end; [reflexivity|].
  apply rstrip_no_sentence_end, lstrip_no_sentence_end, H.
Qed.

Lemma collect_unpunctuated config clip_start clip_end segments :
  Forall (fun seg => has_sentence_end (seg_text seg) = false) segments ->
  collect_entries config clip_start clip_end segments = Some [].
Proof.
  induction 1 as [|seg segments Hseg _ IH]; simpl; [reflexivity|].
  rewrite (split_unpunctuated config seg Hseg), IH. reflexivity.
Qed.

(** Text with no full stop, exclamation mark or question mark is never
    shown: such a segment splits into no phrase at all, whatever the
    configuration, and a transcript made of such segments gives a clip no
    subtitles. *)
Theorem unpunctuated_text_gives_no_subtitles (config : Config)
        (transcription_segments : list Segment) (clip_start clip_end : Q) :
  Forall (fun seg => has_sentence_end (seg_text seg) = false)
         transcription_segments ->
  Forall (fun seg => _split_into_phrases config seg = Some [])
         transcription_segments
  /\ generate_subtitles_for_clip config transcription_segments
                                 clip_start clip_end = Some [].
Proof.
  intros H. split.
  - eapply Forall_impl; [|exact H]. intros seg. apply split_unpunctuated.
  - unfold generate_subtitles_for_clip.
    set (inside := filter _ transcription_segments).
    assert (Hin : Forall (fun seg => has_sentence_end (seg_text seg) = false)
                         inside).
    { rewrite Forall_forall in *. intros seg Hseg.
      apply H. apply filter_In in Hseg. apply Hseg. }
    rewrite (collect_unpunctuated config clip_start clip_end inside Hin).
    destruct inside; reflexivity.
Qed.

Lemma unpunctuated_text_gives_no_subtitles_witness :
  generate_subtitles_for_clip (mkConfig None None)
    [mkSegment 0 6 "this is amazing and it really is" None] 0 10 = Some [].
Proof.
  apply (unpunctuated_text_gives_no_subtitles (mkConfig None None)
           [mkSegment 0 6 "this is amazing and it really is" None] 0 10).
  repeat constructor.
Defined.

Lemma place_chunks_contiguous duration_per_word chunks : forall t,
  forall rest,
    contiguous_from (snd (place_chunks duration_per_word chunks t)) rest ->
    contiguous_from t (fst (place_chunks duration_per_word chunks t) ++ rest).
Proof.
  induction chunks as [|chunk chunks IH]; intros t rest H; simpl in *.
  - exact H.
  - destruct chunk as [|w ws]; [apply IH, H|].
    destruct (place_chunks duration_per_word chunks _) as [ps t'] eqn:E.
    simpl in *. split; [reflexivity|].
    specialize (IH (t + inject_Z (Z.of_nat (length (w :: ws)))
                        * duration_per_word) rest).
    simpl in IH. rewrite E in IH. apply IH, H.
Qed.

Lemma split_sentences_contiguous config segment_start segment_end sentences :
  forall t phrases,
    split_sentences config segment_start segment_end sentences t
    = Some phrases ->
    contiguous_from t phrases.
Proof.
  induction sentences as [|[raw punct] sentences IH]; intros t phrases H;
    simpl in H.
  - injection H as <-. exact I.
  - destruct (Py.is_empty (Py.strip raw)); [apply IH, H|].
    destruct (Z.of_nat (length (Py.split (Py.strip raw)))
              >? max_words_per_line config * 2)%Z.
    + destruct (chunks_of _ _) as [chunks|]; [|discriminate].
      pose proof (place_chunks_contiguous
                    ((segment_end - segment_start)
                     / inject_Z (Z.of_nat (length (Py.split (Py.strip raw)))))
                    chunks t) as Hc.
      destruct (place_chunks _ chunks t) as [ps t'].
      destruct (split_sentences config segment_start segment_end sentences t')
        as [more|] eqn:E; [|discriminate].
      injection H as <-. apply Hc. simpl. apply IH, E.
    + destruct (split_sentences config segment_start segment_end sentences _)
        as [more|] eqn:E; [|discriminate].
      injection H as <-. simpl. split; [reflexivity | apply IH, E].
Qed.

(** The phrases of a segment are laid end to end: the first starts at the
    segment's start and each later one starts exactly where the one before
    it ends. *)
Theorem phrases_are_contiguous (config : Config) (segment : Segment)
        (phrases : list Phrase) :
  _split_into_phrases config segment = Some phrases ->
  contiguous_from (seg_start segment) phrases.
Proof. apply split_sentences_contiguous. Qed.

Lemma phrases_are_contiguous_witness :
  contiguous_from 0
    [ ("This is amazing."%string, 0, 0 + Py.min (6 - 0) (5 # 2));
      ("It really is."%string, 0 + Py.min (6 - 0) (5 # 2),
       0 + Py.min (6 - 0) (5 # 2)
       + Py.min (6 - (0 + Py.min (6 - 0) (5 # 2))) (5 # 2)) ].
Proof.
  apply (phrases_are_contiguous (mkConfig None None)
           (mkSegment 0 6 "This is amazing. It really is." None)).
  reflexivity.
Defined.

End PhraseProperties.

(** ** Timestamps *)

Section TimestampProperties.

Import SubtitleGenerator.

Lemma Qfloor_unique (q : Q) (z : Z) :
  inject_Z z <= q -> q < inject_Z (z + 1) -> Qfloor q = z.
Proof.
  intros Hle Hlt.
  pose proof (Qfloor_le q) as F1. pose proof (Qlt_floor q) as F2.
  assert (H1 : inject_Z z < inject_Z (Qfloor q + 1))
    by (eapply Qle_lt_trans; eassumption).
  assert (H2 : inject_Z (Qfloor q) < inject_Z (z + 1))
    by (eapply Qle_lt_trans; eassumption).
  rewrite <- Zlt_Qlt in H1, H2. lia.
Qed.

Lemma Qfloor_div_pos (q : Q) (k : Z) :
  (0 < k)%Z -> Qfloor (q / inject_Z k) = (Qfloor q / k)%Z.
Proof.
  intros Hk.
  pose proof (Qfloor_le q) as F1. pose proof (Qlt_floor q) as F2.
  assert (HkQ : 0 < inject_Z k) by (rewrite Zlt_Qlt in Hk; exact Hk).
  pose proof (Z.div_mod (Qfloor q) k ltac:(lia)) as Hdm.
  pose proof (Z.mod_pos_bound (Qfloor q) k Hk) as Hmod.
  apply Qfloor_unique.
  - apply Qle_shift_div_l; [exact HkQ|].
    eapply Qle_trans; [|exact F1].
    rewrite <- inject_Z_mult, <- Zle_Qle. lia.
  - apply Qlt_shift_div_r; [exact HkQ|].
    eapply Qlt_le_trans; [exact F2|].
    rewrite <- inject_Z_mult, <- Zle_Qle. lia.
Qed.

Lemma Qfloor_minus_Z (q : Q) (z : Z) :
  Qfloor (q - inject_Z z) = (Qfloor q - z)%Z.
Proof.
  pose proof (Qfloor_le q) as F1. pose proof (Qlt_floor q) as F2.
  apply Qfloor_unique.
  - unfold Z.sub. rewrite inject_Z_plus, inject_Z_opp. lra.
  - replace (Qfloor q - z + 1)%Z with ((Qfloor q + 1) + - z)%Z by lia.
    rewrite inject_Z_plus, inject_Z_opp. lra.
Qed.

Lemma Py_int_nonneg (q : Q) : 0 <= q -> Py.int q = Qfloor q.
Proof.
  intros H. unfold Py.int. apply Qle_bool_iff in H. rewrite H. reflexivity.
Qed.

Lemma Py_int_inject_Z (z : Z) : Py.int (inject_Z z) = z.
Proof.
  unfold Py.int. destruct (Qle_bool 0 (inject_Z z));
    [apply Qfloor_Z | apply Qceiling_Z].
Qed.

Lemma fmod_floor (q : Q) (k : Z) :
  (0 < k)%Z ->
  0 <= Py.fmod q (inject_Z k)
  /\ Qfloor (Py.fmod q (inject_Z k)) = (Qfloor q mod k)%Z.
Proof.
  intros Hk. unfold Py.fmod, Py.floordiv.
  rewrite Qfloor_div_pos by exact Hk.
  assert (E : q - inject_Z k * inject_Z (Qfloor q / k)
              == q - inject_Z (k * (Qfloor q / k)))
    by (rewrite inject_Z_mult; reflexivity).
  pose proof (Z.div_mod (Qfloor q) k ltac:(lia)) as Hdm.
  pose proof (Z.mod_pos_bound (Qfloor q) k Hk) as Hmod.
  split.
  - rewrite E. pose proof (Qfloor_le q) as F1.
    assert (inject_Z (k * (Qfloor q / k)) <= inject_Z (Qfloor q))
      by (rewrite <- Zle_Qle; lia).
    lra.
  - rewrite E, Qfloor_minus_Z. lia.
Qed.

Lemma timestamp_fields_facts (seconds : Q) :
  0 <= seconds ->
  let '(hours, minutes, secs, ms) := timestamp_fields seconds in
  (0 <= hours)%Z
  /\ (0 <= minutes < 60)%Z
  /\ (0 <= secs < 60)%Z
  /\ (0 <= ms < 1000)%Z
  /\ (hours * 3600 + minutes * 60 + secs = Qfloor seconds)%Z
  /\ hours = (Qfloor seconds / 3600)%Z.
Proof.
  intros Hs. unfold timestamp_fields.
  assert (Hn : (0 <= Qfloor seconds)%Z).
  { rewrite <- (Qfloor_Z 0). apply Qfloor_resp_le, Hs. }
  destruct (fmod_floor seconds 3600 ltac:(lia)) as [H3600 F3600].
  destruct (fmod_floor seconds 60 ltac:(lia)) as [H60 F60].
  destruct (fmod_floor seconds 1 ltac:(lia)) as [H1 F1].
  change (inject_Z 3600) with 3600 in H3600, F3600.
  change (inject_Z 60) with 60 in H60, F60.
  change (inject_Z 1) with 1 in H1, F1.
  assert (Eh : Py.int (Py.floordiv seconds 3600) = (Qfloor seconds / 3600)%Z).
  { unfold Py.floordiv. rewrite Py_int_inject_Z.
    apply (Qfloor_div_pos seconds 3600). lia. }
  assert (Em : Py.int (Py.floordiv (Py.fmod seconds 3600) 60)
               = (Qfloor seconds mod 3600 / 60)%Z).
  { unfold Py.floordiv at 1. rewrite Py_int_inject_Z.
    pose proof (Qfloor_div_pos (Py.fmod seconds 3600) 60 ltac:(lia)) as E.
    change (inject_Z 60) with 60 in E. rewrite E, F3600. reflexivity. }
  assert (Es : Py.int (Py.fmod seconds 60) = (Qfloor seconds mod 60)%Z).
  { rewrite (Py_int_nonneg _ H60). exact F60. }
  rewrite Eh, Em, Es.
  assert (Hfrac : Py.fmod seconds 1 < 1).
  { pose proof (Qlt_floor (Py.fmod seconds 1)) as L. rewrite F1 in L.
    rewrite Z.mod_1_r in L. exact L. }
  assert (Hms0 : 0 <= Py.fmod seconds 1 * 1000) by nra.
  rewrite (Py_int_nonneg _ Hms0).
  assert (Hms1 : (0 <= Qfloor (Py.fmod seconds 1 * 1000))%Z).
  { rewrite <- (Qfloor_Z 0). apply Qfloor_resp_le, Hms0. }
  assert (Hms2 : (Qfloor (Py.fmod seconds 1 * 1000) < 1000)%Z).
  { pose proof (Qfloor_le (Py.fmod seconds 1 * 1000)) as L.
    assert (L2 : inject_Z (Qfloor (Py.fmod seconds 1 * 1000)) < inject_Z 1000).
    { eapply Qle_lt_trans; [exact L|]. change (inject_Z 1000) with 1000. nra. }
    rewrite <- Zlt_Qlt in L2. exact L2. }
  pose proof (Z.div_mod (Qfloor seconds) 3600 ltac:(lia)) as D1.
  pose proof (Z.mod_pos_bound (Qfloor seconds) 3600 ltac:(lia)) as B1.
  pose proof (Z.div_mod (Qfloor seconds mod 3600) 60 ltac:(lia)) as D2.
  pose proof (Z.mod_pos_bound (Qfloor seconds mod 3600) 60 ltac:(lia)) as B2.
  pose proof (Z.mod_pos_bound (Qfloor seconds) 60 ltac:(lia)) as B3.
  assert (M : ((Qfloor seconds mod 3600) mod 60 = Qfloor seconds mod 60)%Z).
  { replace 3600%Z with (60 * 60)%Z by reflexivity.
    rewrite Z.rem_mul_r by lia.
    rewrite (Z.mul_comm 60 ((Qfloor seconds / 60) mod 60)), Z.mod_add by lia.
    apply Z.mod_mod. lia. }
  assert (Hh : (0 <= Qfloor seconds / 3600)%Z) by (apply Z.div_pos; lia).
  assert (Hm : (0 <= Qfloor seconds mod 3600 / 60 < 60)%Z).
  { split; [apply Z.div_pos; lia|]. apply Z.div_lt_upper_bound; lia. }
  repeat split; try lia.
Qed.

Lemma format_d_length_small (width : nat) (bound : nat) :
  forallb (fun n => Nat.eqb (String.length (Py.format_d width (Z.of_nat n)))
                            width) (seq 0 bound) = true ->
  forall z, (0 <= z < Z.of_nat bound)%Z ->
            String.length (Py.format_d width z) = width.
Proof.
  intros H z Hz. rewrite forallb_forall in H.
  specialize (H (Z.to_nat z)). rewrite Z2Nat.id in H by lia.
  apply Nat.eqb_eq, H, in_seq. lia.
Qed.

Lemma length_append_s (a b : string) :
  String.length (String.append a b) = (String.length a + String.length b)%nat.
Proof. induction a as [|c a IH]; simpl; [reflexivity | rewrite IH; reflexivity]. Qed.

(** For a time that is not negative, the minutes and seconds fields of the
    timestamp are below 60 and the milliseconds field below 1000, none is
    negative, and hours, minutes and seconds together count exactly the
    whole seconds of the time.  Below a hundred hours the text is the twelve
    characters [HH:MM:SS,mmm]. *)
Theorem timestamp_fields_in_range (seconds : Q) :
  0 <= seconds ->
  let '(hours, minutes, secs, ms) := timestamp_fields seconds in
  ((0 <= hours)%Z
   /\ (0 <= minutes < 60)%Z
   /\ (0 <= secs < 60)%Z
   /\ (0 <= ms < 1000)%Z
   /\ (hours * 3600 + minutes * 60 + secs = Qfloor seconds)%Z)
  /\ (seconds < 360000 ->
      String.length (_format_timestamp seconds) = 12%nat
      /\ String.get 2 (_format_timestamp seconds) = Some ":"%char
      /\ String.get 5 (_format_timestamp seconds) = Some ":"%char
      /\ String.get 8 (_format_timestamp seconds) = Some ","%char).
Proof.
  intros Hs. pose proof (timestamp_fields_facts seconds Hs) as F.
  unfold _format_timestamp.
  destruct (timestamp_fields seconds) as [[[hours minutes] secs] ms].
  destruct F as (Hh & Hm & Hsec & Hms & Hsum & Hhours).
  split; [repeat split; lia|].
  intros Hlt.
  assert (Hh100 : (hours < 100)%Z).
  { rewrite Hhours. apply Z.div_lt_upper_bound; [lia|].
    pose proof (Qfloor_le seconds) as L.
    assert (L2 : inject_Z (Qfloor seconds) < inject_Z 360000)
      by (eapply Qle_lt_trans; [exact L | exact Hlt]).
    rewrite <- Zlt_Qlt in L2. lia. }
  assert (L2 : forall z, (0 <= z < 100)%Z ->
                         String.length (Py.format_d 2 z) = 2%nat)
    by (apply (format_d_length_small 2 100); vm_compute; reflexivity).
  assert (L3 : forall z, (0 <= z < 1000)%Z ->
                         String.length (Py.format_d 3 z) = 3%nat)
    by (apply (format_d_length_small 3 1000); vm_compute; reflexivity).
  pose proof (L2 hours ltac:(lia)) as Lh.
  pose proof (L2 minutes ltac:(lia)) as Lm.
  pose proof (L2 secs ltac:(lia)) as Lsec.
  pose proof (L3 ms ltac:(lia)) as Lms.
  destruct (Py.format_d 2 hours) as [|h1 [|h2 [|? ?]]]; try discriminate.
  destruct (Py.format_d 2 minutes) as [|m1 [|m2 [|? ?]]]; try discriminate.
  destruct (Py.format_d 2 secs) as [|s1 [|s2 [|? ?]]]; try discriminate.
  destruct (Py.format_d 3 ms) as [|k1 [|k2 [|k3 [|? ?]]]]; try discriminate.
  repeat split.
Qed.

Lemma timestamp_fields_in_range_witness :
  String.length (_format_timestamp (7384 + (1 # 4))) = 12%nat
  /\ String.get 2 (_format_timestamp (7384 + (1 # 4))) = Some ":"%char
  /\ String.get 5 (_format_timestamp (7384 + (1 # 4))) = Some ":"%char
  /\ String.get 8 (_format_timestamp (7384 + (1 # 4))) = Some ","%char.
Proof.
  pose proof (timestamp_fields_in_range (7384 + (1 # 4))) as W.
  unfold timestamp_fields in W. cbv beta iota zeta in W.
  apply W; [unfold Qle | unfold Qlt]; simpl; lia.
Defined.

End TimestampProperties.

(** ** Face analysis *)

Section FaceProperties.

Import FaceDetector.

Lemma range_forward (start stop step : Z) (frames : list Z) :
  (0 < step)%Z -> Py.range start stop step = Some frames ->
  Forall (fun n => (start <= n < stop)%Z) frames.
Proof.
  intros Hstep H. unfold Py.range in H.
  destruct (step =? 0)%Z eqn:E0; [discriminate|].
  destruct (0 <? step)%Z eqn:Epos; [|apply Z.ltb_ge in Epos; lia].
  injection H as <-. apply Forall_forall. intros n Hn.
  apply in_map_iff in Hn. destruct Hn as [k [<- Hk]].
  apply in_seq in Hk.
  set (count := Z.max 0 ((stop - start + step - 1) / step)) in *.
  assert (Hc : (Z.of_nat k < count)%Z) by lia.
  assert (Hq : (count = (stop - start + step - 1) / step)%Z) by lia.
  pose proof (Z.mul_div_le (stop - start + step - 1) step Hstep) as Hm.
  rewrite <- Hq in Hm. nia.
Qed.

Lemma sample_frames_facts (video : Video) (frames : list Z) :
  forall faces total,
    let '(faces', total') := sample_frames video frames faces total in
    (faces <= faces')%nat
    /\ (faces' - faces <= total' - total)%nat
    /\ (total <= total')%nat
    /\ (total' - total <= length frames)%nat
    /\ (faces < faces' ->
        exists n, In n frames /\ read_face video n = Some true)%nat.
Proof.
  induction frames as [|n frames IH]; intros faces total;
    cbn [sample_frames].
  - simpl. split; [lia|]. split; [lia|]. split; [lia|]. split; [lia|]. lia.
  - destruct (read_face video n) as [[|]|] eqn:E.
    + destruct (3 <=? S faces)%nat; cbn [length In].
      * split; [lia|]. split; [lia|]. split; [lia|]. split; [lia|].
        intros _. exists n. auto.
      * specialize (IH (S faces) (S total)).
        destruct (sample_frames video frames (S faces) (S total))
          as [faces' total'].
        destruct IH as (H1 & H2 & H3 & H4 & _).
        split; [lia|]. split; [lia|]. split; [lia|]. split; [lia|].
        intros _. exists n. auto.
    + destruct (3 <=? faces)%nat; cbn [length In].
      * split; [lia|]. split; [lia|]. split; [lia|]. split; [lia|]. lia.
      * specialize (IH faces (S total)).
        destruct (sample_frames video frames faces (S total))
          as [faces' total'].
        destruct IH as (H1 & H2 & H3 & H4 & H5).
        split; [lia|]. split; [lia|]. split; [lia|]. split; [lia|].
        intros Hlt. destruct (H5 Hlt) as [m [Hm Hr]]. exists m. auto.
    + cbn [length In]. specialize (IH faces total).
      destruct (sample_frames video frames faces total) as [faces' total'].
      destruct IH as (H1 & H2 & H3 & H4 & H5).
      split; [lia|]. split; [lia|]. split; [lia|]. split; [lia|].
      intros Hlt. destruct (H5 Hlt) as [m [Hm Hr]]. exists m. auto.
Qed.

Lemma ratio_bounds (faces total : nat) :
  (faces <= total)%nat ->
  0 <= inject_Z (Z.of_nat faces) / inject_Z (Z.of_nat (Nat.max total 1))
  /\ inject_Z (Z.of_nat faces) / inject_Z (Z.of_nat (Nat.max total 1)) <= 1
  /\ (faces = 0%nat ->
      inject_Z (Z.of_nat faces) / inject_Z (Z.of_nat (Nat.max total 1)) == 0).
Proof.
  intros Hle.
  assert (Hd : 0 < inject_Z (Z.of_nat (Nat.max total 1))).
  { change 0 with (inject_Z 0). rewrite <- Zlt_Qlt. lia. }
  assert (Hn : 0 <= inject_Z (Z.of_nat faces)).
  { change 0 with (inject_Z 0). rewrite <- Zle_Qle. lia. }
  split; [|split].
  - apply Qle_shift_div_l; [exact Hd|]. rewrite Qmult_0_l. exact Hn.
  - apply Qle_shift_div_r; [exact Hd|]. rewrite Qmult_1_l.
    rewrite <- Zle_Qle. lia.
  - intros ->. simpl. unfold Qdiv. rewrite Qmult_0_l. reflexivity.
Qed.

Lemma analyze_frames_facts (video : Video) (highlight : Highlight)
      (frame_skip : Z) (face_present : bool) (face_ratio : Q) :
  _analyze_highlight_frames video highlight frame_skip
  = Some (face_present, face_ratio) ->
  exists frames,
    Py.range (Py.int (h_start highlight * fps video))
             (Py.int (h_end highlight * fps video)) frame_skip = Some frames
    /\ 0 <= face_ratio <= 1
    /\ (face_present = true ->
        exists n, In n frames /\ read_face video n = Some true)
    /\ ((forall n, In n frames -> read_face video n <> Some true) ->
        face_present = false /\ face_ratio == 0).
Proof.
  unfold _analyze_highlight_frames. intros H.
  destruct (Py.range _ _ frame_skip) as [frames|]; [|discriminate].
  exists frames. split; [reflexivity|].
  pose proof (sample_frames_facts video frames 0 0) as F.
  destruct (sample_frames video frames 0 0) as [faces total].
  destruct F as (_ & F2 & _ & _ & F5).
  injection H as <- <-.
  destruct (ratio_bounds faces total ltac:(lia)) as (R0 & R1 & Rz).
  split; [split; assumption|]. split.
  - intros Hp. apply Py_lt_true in Hp.
    destruct faces as [|faces]; [|apply F5; lia].
    rewrite (Rz eq_refl) in Hp. discriminate.
  - intros Hnone.
    assert (faces = 0%nat) as ->.
    { destruct faces as [|faces]; [reflexivity|].
      destruct F5 as [n [Hin Hr]]; [lia|]. exfalso. apply (Hnone n Hin Hr). }
    split; [|apply Rz; reflexivity].
    unfold Py.lt. rewrite (Rz eq_refl). reflexivity.
Qed.

(** The ratio computed for a highlight lies between zero and one.  A
    highlight is judged to show a face only if the detector fired on one of
    the frames sampled for it, and when it fired on none of them, or no
    frame was sampled at all, the verdict is no face with ratio zero.  With
    a positive stride every sampled frame lies in the highlight's frame
    range. *)
Theorem face_verdict_grounded_in_frames (video : Video)
        (highlight : Highlight) (frame_skip : Z)
        (face_present : bool) (face_ratio : Q) :
  _analyze_highlight_frames video highlight frame_skip
  = Some (face_present, face_ratio) ->
  exists frames,
    Py.range (Py.int (h_start highlight * fps video))
             (Py.int (h_end highlight * fps video)) frame_skip = Some frames
    /\ ((0 < frame_skip)%Z ->
        Forall (fun n => (Py.int (h_start highlight * fps video) <= n
                          < Py.int (h_end highlight * fps video))%Z) frames)
    /\ 0 <= face_ratio <= 1
    /\ (face_present = true ->
        exists n, In n frames /\ read_face video n = Some true)
    /\ ((forall n, In n frames -> read_face video n <> Some true) ->
        face_present = false /\ face_ratio == 0).
Proof.
  intros H. destruct (analyze_frames_facts _ _ _ _ _ H)
    as (frames & Hr & Hb & Hp & Hn).
  exists frames. split; [exact Hr|]. split; [|auto].
  intros Hstep. apply (range_forward _ _ _ _ Hstep Hr).
Qed.

Lemma face_verdict_grounded_in_frames_witness :
  exists frames,
    Py.range (Py.int (0 * 30)) (Py.int (10 * 30)) 10 = Some frames
    /\ ((0 < 10)%Z ->
        Forall (fun n => (Py.int (0 * 30) <= n < Py.int (10 * 30))%Z) frames)
    /\ 0 <= 0 / inject_Z (Z.of_nat (Nat.max 30 1)) <= 1
    /\ (false = true ->
        exists n, In n frames /\ Some false = Some true)
    /\ ((forall n, In n frames -> Some false <> Some true) ->
        false = false /\ 0 / inject_Z (Z.of_nat (Nat.max 30 1)) == 0).
Proof.
  apply (face_verdict_grounded_in_frames Examples.video0
           (mkHighlight 0 10 energy (9 # 10) None None None None None) 10).
  reflexivity.
Defined.

Lemma analyze_each_facts (video : Video) (frame_skip : Z)
      (highlights : list Highlight) :
  forall out,
    analyze_each video frame_skip highlights = Some out ->
    Forall2 same_moment highlights out
    /\ Forall (fun o =>
                 exists present ratio,
                   h_face_present o = Some present
                   /\ h_face_ratio o = Some ratio
                   /\ 0 <= ratio <= 1)
              out.
Proof.
  induction highlights as [|h highlights IH]; intros out H; simpl in H.
  - injection H as <-. split; constructor.
  - destruct (_analyze_highlight_frames video h frame_skip)
      as [[present ratio]|] eqn:E; [|discriminate].
    destruct (analyze_each video frame_skip highlights) as [more|];
      [|discriminate].
    injection H as <-. destruct (IH more eq_refl) as [IH1 IH2].
    destruct (analyze_frames_facts _ _ _ _ _ E) as (_ & _ & Hb & _).
    split; constructor; try assumption.
    + repeat split.
    + exists present, ratio. repeat split; apply Hb.
Qed.

Lemma analyze_highlights_facts (config : Config)
      (detector_available : bool) (video : Video)
      (highlights out : list Highlight) :
  analyze_highlights config detector_available video highlights = Some out ->
  Forall2 same_moment highlights out
  /\ (runs config detector_available = true ->
      Forall (fun o =>
                exists present ratio,
                  h_face_present o = Some present
                  /\ h_face_ratio o = Some ratio
                  /\ 0 <= ratio <= 1)
             out)
  /\ (runs config detector_available = false -> out = highlights).
Proof.
  unfold analyze_highlights, runs. intros H.
  destruct (Py.get (enabled config) true); destruct detector_available;
    simpl in *.
  - destruct (opens video); simpl in H; [|discriminate].
    destruct (analyze_each_facts _ _ _ _ H) as [H1 H2].
    split; [exact H1|]. split; [intros _; exact H2 | discriminate].
  - injection H as <-. split; [|split; [discriminate | reflexivity]].
    induction highlights; constructor; [repeat split | assumption].
  - injection H as <-. split; [|split; [discriminate | reflexivity]].
    induction highlights; constructor; [repeat split | assumption].
  - injection H as <-. split; [|split; [discriminate | reflexivity]].
    induction highlights; constructor; [repeat split | assumption].
Qed.


(** The face analysis never loses, adds or reorders a highlight and never
    touches a highlight's span, tags or confidence.  When it runs, every
    highlight comes back annotated with a verdict and a ratio between zero
    and one; when it is disabled or the detector did not load, the list
    comes back as it went in. *)
Theorem face_analysis_keeps_highlights (config : Config)
        (detector_available : bool) (video : Video)
        (highlights out : list Highlight) :
  analyze_highlights config detector_available video highlights = Some out ->
  Forall2 same_moment highlights out
  /\ (runs config detector_available = true ->
      Forall (fun o =>
                exists present ratio,
                  h_face_present o = Some present
                  /\ h_face_ratio o = Some ratio
                  /\ 0 <= ratio <= 1)
             out)
  /\ (runs config detector_available = false -> out = highlights).
Proof. apply analyze_highlights_facts. Qed.

Lemma face_analysis_keeps_highlights_witness :
  Forall2 same_moment Examples.three_highlights
          (map (fun h => with_face h false (0 # 1)) Examples.three_highlights).
Proof.
  apply (face_analysis_keeps_highlights (mkConfig None None) true
           (mkVideo true 30 (fun _ => None)) Examples.three_highlights).
  reflexivity.
Defined.

Lemma analyze_each_raises (video : Video) (frame_skip : Z)
      (highlights : list Highlight) :
  analyze_each video frame_skip highlights = None
  <-> frame_skip = 0%Z /\ highlights <> [].
Proof.
  induction highlights as [|h highlights IH]; simpl.
  - split; [discriminate | intros [_ H]; contradiction].
  - unfold _analyze_highlight_frames at 1, Py.range.
    destruct (frame_skip =? 0)%Z eqn:E.
    + apply Z.eqb_eq in E. split; [intros _; split; [exact E | discriminate]
                                  | reflexivity].
    + apply Z.eqb_neq in E.
      destruct (sample_frames video _ 0 0) as [faces total].
      destruct (analyze_each video frame_skip highlights) as [more|]; simpl.
      * split; [discriminate | intros [H _]; contradiction].
      * split; [intros _ | reflexivity].
        destruct (proj1 IH eq_refl) as [H0 _]. contradiction.
Qed.

(** The face analysis raises in exactly two situations, both only when it
    runs: the video cannot be opened, or the frame stride is zero and there
    is at least one highlight to sample. *)
Theorem face_analysis_raises_iff (config : Config)
        (detector_available : bool) (video : Video)
        (highlights : list Highlight) :
  analyze_highlights config detector_available video highlights = None
  <-> runs config detector_available = true
      /\ (opens video = false
          \/ (Py.get (frame_skip config) 10%Z = 0%Z /\ highlights <> [])).
Proof.
  unfold analyze_highlights, runs.
  destruct (Py.get (enabled config) true); destruct detector_available;
    simpl; try (split; [discriminate | intros [H _]; discriminate H]).
  destruct (opens video); simpl.
  - rewrite analyze_each_raises. split.
    + intros H. split; [reflexivity | right; exact H].
    + intros [_ [H|H]]; [discriminate | exact H].
  - split; [intros _; split; [reflexivity | left; reflexivity] | reflexivity].
Qed.

Lemma face_analysis_raises_iff_witness :
  analyze_highlights (mkConfig None (Some 0%Z)) true Examples.video0
                     Examples.three_highlights = None.
Proof.
  apply (face_analysis_raises_iff (mkConfig None (Some 0%Z)) true
           Examples.video0 Examples.three_highlights).
  split; [reflexivity|]. right. split; [reflexivity | discriminate].
Defined.

End FaceProperties.

(** ** File names and crop geometry *)

Section ClipNameProperties.

Import VideoClipper.

Lemma crop_ratio_wide (width height : Z) :
  (0 < height)%Z ->
  Py.lt (16 / 9) (inject_Z width / inject_Z height) = true ->
  inject_Z height * (16 / 9) < inject_Z width.
Proof.
  intros Hh Hlt. apply Py_lt_true in Hlt.
  apply Qnot_le_lt. intros Hle.
  apply (Qlt_not_le _ _ Hlt).
  apply Qle_shift_div_r.
  - change 0 with (inject_Z 0). rewrite <- Zlt_Qlt. exact Hh.
  - rewrite Qmult_comm. exact Hle.
Qed.

Lemma crop_ratio_tall (width height : Z) :
  (0 < height)%Z ->
  Py.lt (16 / 9) (inject_Z width / inject_Z height) = false ->
  inject_Z width / (16 / 9) <= inject_Z height.
Proof.
  intros Hh Hlt. apply Py_lt_false in Hlt.
  apply Qle_shift_div_r; [reflexivity|].
  apply Qnot_lt_le. intros Hgt.
  apply (Qle_not_lt _ _ Hlt).
  apply Qlt_shift_div_l.
  - change 0 with (inject_Z 0). rewrite <- Zlt_Qlt. exact Hh.
  - rewrite Qmult_comm. exact Hgt.
Qed.

Lemma Qfloor_nonneg (q : Q) : 0 <= q -> (0 <= Qfloor q)%Z.
Proof.
  intros H. change 0%Z with (Qfloor 0). apply Qfloor_resp_le. exact H.
Qed.

Lemma crop_rectangle_facts (width height : Z) :
  (0 < width)%Z -> (0 < height)%Z ->
  exists x y crop_width crop_height,
    crop_rectangle width height = Some (x, y, crop_width, crop_height)
    /\ (0 <= crop_width <= width)%Z
    /\ (0 <= crop_height <= height)%Z
    /\ (crop_width = width \/ crop_height = height)
    /\ (0 <= x)%Z /\ (0 <= y)%Z
    /\ (x + crop_width <= width)%Z
    /\ (y + crop_height <= height)%Z
    /\ (0 <= (width - crop_width) - 2 * x <= 1)%Z
    /\ (0 <= (height - crop_height) - 2 * y <= 1)%Z.
Proof.
  intros Hw Hh. unfold crop_rectangle.
  destruct (height =? 0)%Z eqn:E0; [apply Z.eqb_eq in E0; lia|].
  assert (Hw0 : 0 <= inject_Z width).
  { change 0 with (inject_Z 0). rewrite <- Zle_Qle. lia. }
  assert (Hh0 : 0 <= inject_Z height).
  { change 0 with (inject_Z 0). rewrite <- Zle_Qle. lia. }
  destruct (Py.lt (16 / 9) (inject_Z width / inject_Z height)) eqn:E.
  - pose proof (crop_ratio_wide width height Hh E) as Hlt.
    assert (Hq : 0 <= inject_Z height * (16 / 9)).
    { apply Qmult_le_0_compat; [exact Hh0 | discriminate]. }
    set (cw := Py.int (inject_Z height * (16 / 9))).
    assert (Hcw : (0 <= cw < width)%Z).
    { unfold cw. rewrite (Py_int_nonneg _ Hq). split.
      - apply Qfloor_nonneg, Hq.
      - rewrite Zlt_Qlt. eapply Qle_lt_trans; [apply Qfloor_le | exact Hlt]. }
    exists ((width - cw) / 2)%Z, ((height - height) / 2)%Z, cw, height.
    split; [reflexivity|].
    pose proof (Z.div_mod (width - cw) 2 ltac:(lia)) as D1.
    pose proof (Z.mod_pos_bound (width - cw) 2 ltac:(lia)) as D2.
    rewrite Z.sub_diag. change (0 / 2)%Z with 0%Z.
    repeat split; lia.
  - pose proof (crop_ratio_tall width height Hh E) as Hle.
    assert (Hq : 0 <= inject_Z width / (16 / 9)).
    { apply Qle_shift_div_l; [reflexivity|]. rewrite Qmult_0_l. exact Hw0. }
    set (ch := Py.int (inject_Z width / (16 / 9))).
    assert (Hch : (0 <= ch <= height)%Z).
    { unfold ch. rewrite (Py_int_nonneg _ Hq). split.
      - apply Qfloor_nonneg, Hq.
      - rewrite Zle_Qle. eapply Qle_trans; [apply Qfloor_le | exact Hle]. }
    exists ((width - width) / 2)%Z, ((height - ch) / 2)%Z, width, ch.
    split; [reflexivity|].
    pose proof (Z.div_mod (height - ch) 2 ltac:(lia)) as D1.
    pose proof (Z.mod_pos_bound (height - ch) 2 ltac:(lia)) as D2.
    rewrite Z.sub_diag. change (0 / 2)%Z with 0%Z.
    repeat split; lia.
Qed.

(** For a frame of positive width and height the crop rectangle lies inside
    the frame, keeps one of the two dimensions whole and is centred up to
    one pixel.  A frame of height zero raises instead. *)
Theorem crop_rectangle_inside_frame (width height : Z) :
  (crop_rectangle width 0 = None)
  /\ ((0 < width)%Z -> (0 < height)%Z ->
      exists x y crop_width crop_height,
        crop_rectangle width height = Some (x, y, crop_width, crop_height)
        /\ (0 <= crop_width <= width)%Z
        /\ (0 <= crop_height <= height)%Z
        /\ (crop_width = width \/ crop_height = height)
        /\ (0 <= x)%Z /\ (0 <= y)%Z
        /\ (x + crop_width <= width)%Z
        /\ (y + crop_height <= height)%Z
        /\ (0 <= (width - crop_width) - 2 * x <= 1)%Z
        /\ (0 <= (height - crop_height) - 2 * y <= 1)%Z).
Proof.
  split; [reflexivity | apply crop_rectangle_facts].
Qed.

Lemma crop_rectangle_inside_frame_witness :
  exists x y crop_width crop_height,
    crop_rectangle 1080 1920 = Some (x, y, crop_width, crop_height)
    /\ (0 <= crop_width <= 1080)%Z
    /\ (0 <= crop_height <= 1920)%Z
    /\ (crop_width = 1080%Z \/ crop_height = 1920%Z)
    /\ (0 <= x)%Z /\ (0 <= y)%Z
    /\ (x + crop_width <= 1080)%Z
    /\ (y + crop_height <= 1920)%Z
    /\ (0 <= (1080 - crop_width) - 2 * x <= 1)%Z
    /\ (0 <= (1920 - crop_height) - 2 * y <= 1)%Z.
Proof.
  apply (proj2 (crop_rectangle_inside_frame 1080 1920)); lia.
Defined.

(** *** Names *)

Lemma lstrip_by_Forall (P : N -> Prop) (isspace : N -> bool) (s : list N) :
  Forall P s -> Forall P (Py.lstrip_by isspace s).
Proof.
  induction 1 as [|c s Hc Hs IH]; simpl; [constructor|].
  destruct (isspace c); [exact IH | constructor; assumption].
Qed.

Lemma strip_by_Forall (P : N -> Prop) (isspace : N -> bool) (s : list N) :
  Forall P s -> Forall P (Py.strip_by isspace s).
Proof.
  intros H. unfold Py.strip_by.
  apply Forall_rev, lstrip_by_Forall, Forall_rev, lstrip_by_Forall, H.
Qed.

Lemma safe_after_replace (classes : CharClasses) (c : N) :
  keeps_char classes c = true ->
  safe_char classes (if (c =? space)%N then underscore else c) = true.
Proof.
  unfold keeps_char, safe_char. intros H.
  destruct (c =? space)%N eqn:E.
  - simpl. apply orb_true_r.
  - rewrite orb_false_r in H. exact H.
Qed.

Lemma codepoints_append (a b : string) :
  Py.codepoints (String.append a b) = Py.codepoints a ++ Py.codepoints b.
Proof.
  unfold Py.codepoints.
  induction a as [|c a IH]; simpl; [reflexivity | rewrite IH; reflexivity].
Qed.

Lemma codepoints_inj (a b : string) :
  Py.codepoints a = Py.codepoints b -> a = b.
Proof.
  unfold Py.codepoints. revert b.
  induction a as [|c a IH]; intros [|d b] H; simpl in H;
    try discriminate; [reflexivity|].
  injection H as Hc H.
  apply (f_equal ascii_of_N) in Hc. rewrite !ascii_N_embedding in Hc.
  rewrite Hc, (IH b H). reflexivity.
Qed.

Lemma last_sep {A} (sep : A) (a : list A) :
  forall b X Y,
    Forall (fun c => c <> sep) a -> Forall (fun c => c <> sep) b ->
    a ++ sep :: X = b ++ sep :: Y -> a = b /\ X = Y.
Proof.
  induction a as [|c a IH]; intros b X Y Ha Hb H.
  - destruct b as [|d b]; simpl in H.
    + injection H as H. split; [reflexivity | exact H].
    + injection H as H _. inversion Hb as [|? ? Hd _]; subst.
      exfalso. apply Hd. reflexivity.
  - destruct b as [|d b]; simpl in H.
    + injection H as H _. inversion Ha as [|? ? Hc _]; subst.
      exfalso. apply Hc. reflexivity.
    + injection H as Hcd H. inversion Ha; inversion Hb; subst.
      destruct (IH b X Y) as [-> ->]; try assumption.
      split; reflexivity.
Qed.

Lemma no_underscore_zeros (k : nat) :
  Forall (fun c => c <> underscore) (Py.codepoints (Py.zeros k)).
Proof. induction k; simpl; constructor; [discriminate | assumption]. Qed.

Lemma no_underscore_uint (d : Decimal.uint) :
  Forall (fun c => c <> underscore)
         (Py.codepoints (DecimalString.NilEmpty.string_of_uint d)).
Proof.
  induction d; simpl; constructor; try discriminate; assumption.
Qed.

Lemma no_underscore_number (width n : nat) :
  Forall (fun c => c <> underscore)
         (Py.codepoints (Py.format_d width (Z.of_nat n))).
Proof.
  unfold Py.format_d.
  destruct (Z.of_nat n <? 0)%Z eqn:E; [apply Z.ltb_lt in E; lia|].
  unfold Py.pad_zeros, Py.digits. rewrite codepoints_append.
  apply Forall_app. split; [apply no_underscore_zeros | apply no_underscore_uint].
Qed.

Lemma int_of_digits_zeros (k : nat) (s : string) :
  Py.int_of_digits (String.append (Py.zeros k) s) = Py.int_of_digits s.
Proof.
  induction k as [|k IH]; simpl; [reflexivity|].
  rewrite <- IH. unfold Py.int_of_digits. simpl.
  destruct (DecimalString.NilEmpty.uint_of_string _); reflexivity.
Qed.

Lemma int_of_format_d (width n : nat) :
  Py.int_of_digits (Py.format_d width (Z.of_nat n)) = Some n.
Proof.
  unfold Py.format_d.
  destruct (Z.of_nat n <? 0)%Z eqn:E; [apply Z.ltb_lt in E; lia|].
  unfold Py.pad_zeros. rewrite int_of_digits_zeros, Nat2Z.id.
  unfold Py.int_of_digits, Py.digits.
  rewrite DecimalString.NilEmpty.usu. simpl.
  rewrite DecimalNat.Unsigned.of_to. reflexivity.
Qed.

Lemma name_parts (c c' : list N) (d d' : string) :
  Forall (fun x => x <> underscore) (Py.codepoints d) ->
  Forall (fun x => x <> underscore) (Py.codepoints d') ->
  c ++ underscore :: Py.codepoints d ++ Py.codepoints ".mp4"
  = c' ++ underscore :: Py.codepoints d' ++ Py.codepoints ".mp4" ->
  c = c' /\ d = d'.
Proof.
  intros Hd Hd' H.
  assert (Hext : Forall (fun x => x <> underscore) (Py.codepoints ".mp4")).
  { repeat constructor; discriminate. }
  apply (f_equal (@rev N)) in H.
  rewrite !rev_app_distr in H. cbn [rev] in H.
  rewrite <- !app_assoc in H. cbn [app] in H.
  apply last_sep in H;
    try (apply Forall_rev, Forall_app; split; assumption).
  destruct H as [H1 H2].
  apply (f_equal (@rev N)) in H1, H2. rewrite !rev_involutive in H1, H2.
  apply app_inv_tail in H1. apply codepoints_inj in H1.
  split; assumption.
Qed.

(** Whatever Python classes as alphanumeric and as whitespace: the cleaned
    project name in a clip file name consists only of alphanumeric
    characters, hyphens and underscores, and the file name determines both
    the cleaned project name and the clip number.  The number can be read
    back from its three or more digits, two clips of a run never share a
    name, and the temporary name of a clip is never the final name of any
    clip of the same project. *)
Theorem clip_names_safe_and_distinct (classes : CharClasses)
        (project_name other_name : list N) (n m : nat) :
  Forall (fun c => safe_char classes c = true)
         (clean_name classes project_name)
  /\ Py.int_of_digits (Py.format_d 3 (Z.of_nat n)) = Some n
  /\ (clip_filename classes project_name n
      = clip_filename classes other_name m ->
      clean_name classes project_name = clean_name classes other_name
      /\ n = m)
  /\ temp_filename classes project_name n
     <> clip_filename classes project_name m.
Proof.
  split; [|split; [|split]].
  - unfold clean_name. apply Forall_map.
    eapply Forall_impl; [intros c Hc; apply safe_after_replace, Hc|].
    apply strip_by_Forall. apply Forall_forall.
    intros c Hc. apply filter_In in Hc. apply Hc.
  - apply int_of_format_d.
  - unfold clip_filename. intros H.
    apply name_parts in H; try apply no_underscore_number.
    destruct H as [Hc Hd]. split; [exact Hc|].
    apply (f_equal Py.int_of_digits) in Hd.
    rewrite !int_of_format_d in Hd. injection Hd as Hd. exact Hd.
  - unfold temp_filename, clip_filename. intros H.
    rewrite app_assoc in H.
    apply name_parts in H; try apply no_underscore_number.
    destruct H as [Hc _].
    apply (f_equal (@length N)) in Hc.
    rewrite length_app in Hc. simpl in Hc. lia.
Qed.

Lemma clip_names_safe_and_distinct_witness :
  clean_name Examples.latin_classes Examples.cafe_name
  = [67; 97; 102; 233; 95; 48; 49]%N
  /\ clean_name Examples.latin_classes Examples.cafe_name
     = clean_name Examples.latin_classes Examples.cafe_name_padded
  /\ 7%nat = 7%nat.
Proof.
  split; [reflexivity|].
  apply (proj1 (proj2 (proj2 (clip_names_safe_and_distinct
                                Examples.latin_classes Examples.cafe_name
                                Examples.cafe_name_padded 7 7)))).
  reflexivity.
Defined.

End ClipNameProperties.

(** ** Whole runs *)

Section RunProperties.

Import VideoClipper AutoClipPipeline Examples.

Lemma crop_disabled_never_crops_witness :
  Forall (fun call => ec_filter call <> CropScalePad)
         (encoder_calls
            (ops_since empty_world
               (snd (create_clips encoder_failing_clip2 clipper_plain
                       three_highlights (Some scenario_segments)
                       empty_world)))).
Proof.
  apply (crop_disabled_never_crops encoder_failing_clip2 clipper_plain
           three_highlights (Some scenario_segments) empty_world).
  reflexivity.
Defined.

Lemma subtitles_disabled_ignores_transcript_witness :
  create_clips encoder_ok clipper_plain three_highlights
               (Some scenario_segments) empty_world
  = create_clips encoder_ok clipper_plain three_highlights None empty_world
  /\ Forall (fun op =>
               match op with
               | Encode call _ => is_burn call = false
               | WriteSrt _ => False
               | _ => True
               end)
            (ops_since empty_world
               (snd (create_clips encoder_ok clipper_plain three_highlights
                       (Some scenario_segments) empty_world))).
Proof.
  apply (subtitles_disabled_ignores_transcript encoder_ok clipper_plain
           three_highlights (Some scenario_segments) empty_world).
  reflexivity.
Defined.

Lemma all_encodes_succeeding_gives_every_clip_witness :
  fst (create_clips encoder_ok clipper0 three_highlights
                    (Some scenario_segments) empty_world)
  = Returned [FinalClip 1; FinalClip 2; FinalClip 3].
Proof.
  apply (all_encodes_succeeding_gives_every_clip encoder_ok clipper0
           three_highlights (Some scenario_segments) empty_world).
  - reflexivity.
  - discriminate.
Defined.

Lemma select_final_length (face_config : FaceDetector.Config)
      (highlights with_faces : list Highlight) :
  length with_faces = length highlights ->
  (length (select_final_highlights face_config highlights with_faces)
   <= length highlights)%nat.
Proof.
  intros Hlen. unfold select_final_highlights.
  destruct (Py.get (FaceDetector.enabled face_config) true); [|lia].
  destruct (length (filter _ with_faces) =? 0)%nat; [lia|].
  rewrite <- Hlen. apply filter_length_le.
Qed.

(** Steps 5 to 7 of [process], once the detectors have returned. *)
Lemma process_facts
      (self : Pipeline) (encoder : Encoder) (video : FaceDetector.Video)
      (energy_highlights silence_highlights : list Highlight)
      (segments : list Segment) (w : World) :
  let highlights :=
    HighlightDetector.detect_highlights (highlight_config self)
      energy_highlights segments silence_highlights in
  let run :=
    process self encoder video energy_highlights silence_highlights
            segments w in
  match FaceDetector.analyze_highlights (face_config self)
          (detector_available self) video highlights with
  | None =>
      fst run = Raised OtherError
      /\ ops_since w (snd run) = []
      /\ events_since w (snd run) = [EvError PipelineFailed]
      /\ w_fs (snd run) = w_fs w
  | Some _ =>
      exists clips,
        fst run = Returned clips
        /\ (length clips <= length highlights)%nat
        /\ ((0 <= Py.get (HighlightDetector.max_clips (highlight_config self)) 5)%Z ->
            (Z.of_nat (length clips)
             <= Py.get (HighlightDetector.max_clips (highlight_config self)) 5)%Z)
  end.
Proof.
  intros highlights run. subst run.
  unfold process, try_except, bind at 1, lift_option. fold highlights.
  destruct (FaceDetector.analyze_highlights _ _ _ highlights)
    as [with_faces|] eqn:Ha.
  - unfold ret at 1, bind at 1, emit at 1, bind at 1, create_clips.
    pose proof (select_final_length (face_config self) highlights with_faces)
      as Hsel.
    set (final := select_final_highlights _ _ _) in *.
    set (w1 := {| w_fs := w_fs w; w_ops := w_ops w;
                  w_events := w_events w ++ [EvProgress "creating_clips" 80] |}).
    pose proof (create_clips_from_files encoder (clipper self) (length final)
                  None final 0 [] w1) as F.
    destruct (create_clips_from encoder (clipper self) (length final) 0 final
                                None [] w1) as [r w'].
    destruct F as (clips & -> & Hlen & _).
    unfold bind, emit, ret; simpl. exists clips.
    assert (Hle : (length clips <= length highlights)%nat).
    { etransitivity; [exact Hlen|]. apply Hsel.
      destruct (analyze_highlights_facts _ _ _ _ _ Ha) as [H2 _].
      symmetry. apply (Forall2_length H2). }
    split; [reflexivity|]. split; [exact Hle|].
    intros Hmax.
    pose proof (Py_slice_to_length
                  (Py.get (HighlightDetector.max_clips (highlight_config self)) 5%Z)
                  (HighlightDetector._merge_highlights
                     (energy_highlights
                      ++ HighlightDetector._detect_keywords
                           (highlight_config self) segments
                      ++ silence_highlights)) Hmax) as Hslice.
    fold (HighlightDetector.detect_highlights (highlight_config self)
            energy_highlights segments silence_highlights) in Hslice.
    fold highlights in Hslice. lia.
  - unfold raise, bind, emit, except_Exception; simpl.
    split; [reflexivity|]. split; [apply ops_since_self|].
    split; [|reflexivity].
    apply events_since_extends. reflexivity.
Qed.

Lemma process_with_after_detection
      (self : Pipeline) (thresholds : HighlightDetector.Thresholds)
      (top : TopLevel) (args : Overrides) (encoder : Encoder)
      (video : FaceDetector.Video) (audio : HighlightDetector.Analysis)
      (segments : list Segment) (energy_highlights : list Highlight)
      (w : World) :
  HighlightDetector._detect_energy_peaks
    thresholds (HighlightDetector.a_frames_to_time audio)
    (HighlightDetector.a_rms audio) = Some energy_highlights ->
  process_with self thresholds top args encoder video audio segments w
  = process (fst (apply_overrides self top args)) encoder video
            energy_highlights
            (HighlightDetector._detect_silence_gaps
               thresholds (HighlightDetector.a_samples_to_time audio)
               (HighlightDetector.a_intervals audio))
            segments w.
Proof.
  intros He.
  unfold process_with, process, HighlightDetector.detect_highlights_from,
    try_except, bind at 1, lift_option.
  rewrite He. reflexivity.
Qed.

Lemma overrides_keep_detectors (self : Pipeline) (top : TopLevel)
      (args : Overrides) :
  highlight_config (fst (apply_overrides self top args)) = highlight_config self
  /\ face_config (fst (apply_overrides self top args)) = face_config self
  /\ detector_available (fst (apply_overrides self top args))
     = detector_available self
  /\ VideoClipper.config (clipper (fst (apply_overrides self top args)))
     = VideoClipper.config (clipper self).
Proof.
  unfold apply_overrides. destruct (arg_enable_crop args); simpl;
    repeat split; reflexivity.
Qed.

Lemma energy_detector_raises_iff (thresholds : HighlightDetector.Thresholds)
      (frames_to_time : nat -> Q) (rms : list Q) :
  HighlightDetector._detect_energy_peaks thresholds frames_to_time rms = None
  <-> rms = [].
Proof.
  unfold HighlightDetector._detect_energy_peaks.
  destruct rms as [|x rest]; simpl; [split; reflexivity|].
  destruct (Py.np_max rest); simpl; destruct (Qeq_bool _ 0);
    split; intros H; discriminate H.
Qed.

(** [process], from the loaded audio and the transcript on.  Its
    [max_clips] and [clip_duration] arguments never change the run: they
    are written to top-level configuration keys that no component reads.
    The run raises exactly when the energy detector raises, which it does
    exactly on an empty RMS envelope, or the face analysis raises; it then
    reports the failure once and has touched no file.  Otherwise it returns
    the clips the clipper made, never more than there were highlights and
    so, when the detector's own [max_clips] is not negative, never more
    than that. *)
Theorem process_outcome
        (self : Pipeline) (thresholds : HighlightDetector.Thresholds)
        (top : TopLevel) (args : Overrides) (encoder : Encoder)
        (video : FaceDetector.Video) (audio : HighlightDetector.Analysis)
        (segments : list Segment) (w : World) :
  let run :=
    process_with self thresholds top args encoder video audio segments w in
  let failed :=
    fst run = Raised OtherError
    /\ ops_since w (snd run) = []
    /\ events_since w (snd run) = [EvError PipelineFailed]
    /\ w_fs (snd run) = w_fs w in
  (forall max_clips clip_duration,
      process_with self thresholds top
                   (mkOverrides max_clips clip_duration (arg_enable_crop args))
                   encoder video audio segments w
      = run)
  /\ match HighlightDetector.detect_highlights_from
             (highlight_config self) thresholds audio segments with
     | None => HighlightDetector.a_rms audio = [] /\ failed
     | Some highlights =>
         HighlightDetector.a_rms audio <> []
         /\ match FaceDetector.analyze_highlights (face_config self)
                    (detector_available self) video highlights with
            | None => failed
            | Some _ =>
                exists clips,
                  fst run = Returned clips
                  /\ (length clips <= length highlights)%nat
                  /\ ((0 <= Py.get (HighlightDetector.max_clips
                                      (highlight_config self)) 5)%Z ->
                      (Z.of_nat (length clips)
                       <= Py.get (HighlightDetector.max_clips
                                    (highlight_config self)) 5)%Z)
            end
     end.
Proof.
  intros run failed. subst failed run. split.
  - intros max_clips clip_duration.
    unfold process_with, apply_overrides. simpl.
    destruct (arg_enable_crop args); reflexivity.
  - destruct (overrides_keep_detectors self top args)
      as (Hh & Hf & Hd & _).
    unfold HighlightDetector.detect_highlights_from.
    destruct (HighlightDetector._detect_energy_peaks
                thresholds (HighlightDetector.a_frames_to_time audio)
                (HighlightDetector.a_rms audio)) as [energy_highlights|] eqn:He.
    + split.
      { intros Hrms.
        pose proof (proj2 (energy_detector_raises_iff
                             thresholds
                             (HighlightDetector.a_frames_to_time audio) _)
                          Hrms) as Hn.
        rewrite Hn in He. discriminate He. }
      rewrite (process_with_after_detection _ _ _ _ _ _ _ _ _ _ He).
      pose proof (process_facts (fst (apply_overrides self top args)) encoder
                    video energy_highlights
                    (HighlightDetector._detect_silence_gaps
                       thresholds (HighlightDetector.a_samples_to_time audio)
                       (HighlightDetector.a_intervals audio))
                    segments w) as F.
      cbv zeta in F. rewrite Hh, Hf, Hd in F. exact F.
    + split; [apply energy_detector_raises_iff in He; exact He|].
      unfold process_with, try_except, bind at 1, lift_option,
        HighlightDetector.detect_highlights_from.
      rewrite He.
      unfold raise, bind, emit, except_Exception; simpl.
      split; [reflexivity|]. split; [apply ops_since_self|].
      split; [|reflexivity].
      apply events_since_extends. reflexivity.
Qed.

Lemma process_outcome_witness :
  fst (process_with pipeline0 (HighlightDetector.mkThresholds None None None)
                    (mkTopLevel None None None)
                    (mkOverrides (Some 1%Z) (Some 10%Z) None)
                    encoder_ok video0 three_peaks [] VideoClipper.empty_world)
  = Returned [FinalClip 1; FinalClip 2; FinalClip 3].
Proof.
  pose proof (proj1 (process_outcome pipeline0
                       (HighlightDetector.mkThresholds None None None)
                       (mkTopLevel None None None)
                       (mkOverrides None None None)
                       encoder_ok video0 three_peaks []
                       VideoClipper.empty_world)
                    (Some 1%Z) (Some 10%Z)) as W.
  exact (eq_trans (f_equal fst W) eq_refl).
Defined.

End RunProperties.

(** ** Transcript segments *)

Section TranscriptProperties.

Import Transcriber HighlightDetector.

Lemma lstrip_idempotent (s : string) : Py.lstrip (Py.lstrip s) = Py.lstrip s.
Proof.
  induction s as [|c s IH]; simpl; [reflexivity|].
  destruct (Py.isspace c) eqn:E; [exact IH|]. simpl. rewrite E. reflexivity.
Qed.

Lemma lstrip_length (s : string) :
  (String.length (Py.lstrip s) <= String.length s)%nat.
Proof.
  induction s as [|c s IH]; simpl; [lia|].
  destruct (Py.isspace c); simpl; lia.
Qed.

Lemma lstrip_rstrip_fixed (u : string) :
  Py.lstrip u = u -> Py.lstrip (Py.rstrip u) = Py.rstrip u.
Proof.
  destruct u as [|c t]; [reflexivity|]. simpl.
  destruct (Py.isspace c) eqn:E.
  - intros H. pose proof (lstrip_length t) as L. rewrite H in L.
    simpl in L. lia.
  - intros _. destruct (Py.rstrip t); simpl; rewrite E; reflexivity.
Qed.

Lemma rstrip_idempotent (s : string) : Py.rstrip (Py.rstrip s) = Py.rstrip s.
Proof.
  induction s as [|c s IH]; simpl; [reflexivity|].
  destruct (Py.rstrip s) as [|d t] eqn:E.
  - destruct (Py.isspace c) eqn:Ec; simpl; [reflexivity|].
    rewrite Ec. reflexivity.
  - change (Py.rstrip (String c (String d t)))
      with (match Py.rstrip (String d t) with
            | EmptyString =>
                if Py.isspace c then EmptyString else String c EmptyString
            | String x y => String c (String x y)
            end).
    rewrite IH. reflexivity.
Qed.

Lemma strip_idempotent (s : string) : Py.strip (Py.strip s) = Py.strip s.
Proof.
  unfold Py.strip.
  rewrite (lstrip_rstrip_fixed _ (lstrip_idempotent s)).
  apply rstrip_idempotent.
Qed.

(** [get_segments] keeps the number and order of the recogniser's segments,
    hands over texts that a further [strip] leaves unchanged, and always
    sets the confidence key.  So the keyword detector never falls back on
    its own default of 0.8: a keyword highlight carries the recogniser's
    confidence for its segment, or zero when the recogniser gave none. *)
Theorem transcript_segments_are_normalised
        (segments : option (list RawSegment)) (config : Config) :
  map (fun s => (seg_start s, seg_end s)) (get_segments segments)
  = map (fun r => (raw_start r, raw_end r)) (Py.get segments [])
  /\ Forall (fun s => Py.strip (seg_text s) = seg_text s
                      /\ exists confidence, seg_confidence s = Some confidence)
            (get_segments segments)
  /\ Forall (fun h =>
               exists r, In r (Py.get segments [])
                         /\ h_start h = raw_start r
                         /\ h_end h = raw_end r
                         /\ h_confidence h = Py.get (raw_confidence r) 0)
            (_detect_keywords config (get_segments segments)).
Proof.
  unfold get_segments. generalize (Py.get segments []). intros raws.
  split; [|split].
  - rewrite map_map. reflexivity.
  - apply Forall_forall. intros s Hs. apply in_map_iff in Hs.
    destruct Hs as [r [<- _]]. simpl.
    split; [apply strip_idempotent | eexists; reflexivity].
  - unfold _detect_keywords.
    induction raws as [|r raws IH]; simpl; [constructor|].
    apply Forall_app. split.
    + destruct (find _ _); constructor; [|constructor].
      exists r. simpl. repeat split. left. reflexivity.
    + eapply Forall_impl; [|exact IH].
      intros h (r' & Hin & H). exists r'. split; [right; exact Hin | exact H].
Qed.

End TranscriptProperties.
